(** * SalesMate: recommendation scoring, conversation lifecycle and LLM retry

    A shallow embedding of the core of the SalesMate sales assistant
    (src/models, src/services) together with the properties its
    specification states about it.

    Conventions of the embedding.
    - A [Decimal] currency amount is an integer number of hundredths
      (cents): [20000] is $200.00.  On that grid Decimal comparison and
      subtraction are exact, and [abs(float(d))] compared with 50, 100 and
      200 agrees with the exact comparison of [|d|] with 5000, 10000 and
      20000 cents.
    - A Python [float] that is only compared with constants (a rating) is
      the rational it denotes ([Q]).  Scores are sums of small integers,
      which binary floating point represents exactly; they are in [Z].
      A float read from a text (the budget in the classifier's reply) is
      a [PyFloat]: a finite number, an infinity or not-a-number.
    - A [datetime] is an integer count of clock ticks; [datetime.now()] is
      an explicit reading [now] of the clock.
    - Strings are [string]s of ASCII characters; [str.lower] maps [A-Z] to
      [a-z].
    - A raised exception is the [Raise] branch of [result]; an object
      mutated in place is passed in and returned. *)

From Stdlib Require Import ZArith QArith List String Ascii Lia Bool.
From stdpp Require Import base gmap strings list sorting pretty.
Import ListNotations.

#[local] Open Scope string_scope.
#[local] Open Scope list_scope.
#[local] Open Scope Z_scope.

(** ** Python values shared by all modules *)

Module Py.

(** The exception classes the modelled code raises, with [str(e)]. *)
Inductive exn : Type :=
| ValueError (msg : string)
| LLMServiceError (msg : string)
| ConversationServiceError (msg : string)
| InvalidOperation.

Definition str (e : exn) : string :=
  match e with
  | ValueError m | LLMServiceError m | ConversationServiceError m => m
  | InvalidOperation => "[<class 'decimal.InvalidOperation'>]"
  end.

Inductive result (A : Type) : Type :=
| Ok (a : A)
| Raise (e : exn).
Arguments Ok {A} a.
Arguments Raise {A} e.

Definition bind {A B} (r : result A) (k : A -> result B) : result B :=
  match r with
  | Ok a => k a
  | Raise e => Raise e
  end.

(** [[x for x in l if test(x)]] with a test that can raise: the elements
    are tested in order and the first exception ends the comprehension. *)
Fixpoint comprehension {A} (test : A -> result bool) (l : list A)
  : result (list A) :=
  match l with
  | [] => Ok []
  | x :: rest =>
      match test x with
      | Raise e => Raise e
      | Ok keep =>
          match comprehension test rest with
          | Raise e => Raise e
          | Ok kept => Ok (if keep then x :: kept else kept)
          end
      end
  end.

(** A Python float, as far as the code tells floats apart: a finite
    number, given by the value of the numeral that [str] writes for it;
    an infinity; not-a-number. *)
Inductive PyFloat : Type :=
| Finite (q : Q)
| Infinity (negative : bool)
| NaN.

(** [c.lower()] on one character. *)
Definition lower_ascii (c : ascii) : ascii :=
  let n := nat_of_ascii c in
  if (65 <=? n)%nat && (n <=? 90)%nat then ascii_of_nat (n + 32) else c.

(** [s.lower()] *)
Fixpoint lower (s : string) : string :=
  match s with
  | EmptyString => EmptyString
  | String c t => String (lower_ascii c) (lower t)
  end.

(** [needle in hay] on strings: [needle] occurs as a substring. *)
Fixpoint contains (needle hay : string) : bool :=
  if String.prefix needle hay then true
  else match hay with
       | EmptyString => false
       | String _ t => contains needle t
       end.

(** [c.isspace()] on ASCII. *)
Definition is_space (c : ascii) : bool :=
  let n := nat_of_ascii c in
  ((9 <=? n)%nat && (n <=? 13)%nat) || ((28 <=? n)%nat && (n <=? 32)%nat).

Fixpoint lstrip (s : string) : string :=
  match s with
  | EmptyString => EmptyString
  | String c t => if is_space c then lstrip t else s
  end.

Fixpoint string_rev_onto (s acc : string) : string :=
  match s with
  | EmptyString => acc
  | String c t => string_rev_onto t (String c acc)
  end.

Definition string_rev (s : string) : string := string_rev_onto s EmptyString.

(** [s.strip()] *)
Definition strip (s : string) : string :=
  string_rev (lstrip (string_rev (lstrip s))).

(** [not s], the truth value of a string. *)
Definition is_empty (s : string) : bool :=
  match s with EmptyString => true | _ => false end.

(** [not s or not s.strip()] *)
Definition is_blank (s : string) : bool :=
  is_empty s || is_empty (strip s).

(** [l[:k]] for an [int] [k]: a negative [k] counts from the end. *)
Definition slice_to {A} (k : Z) (l : list A) : list A :=
  if 0 <=? k then take (Z.to_nat k) l
  else take (length l - Z.to_nat (- k)) l.

(** [l[-n:]] for an [int] [n > 0]: the last [n] elements, or all of [l]
    when it has fewer. *)
Definition slice_last {A} (n : Z) (l : list A) : list A :=
  drop (length l - Z.to_nat n) l.

(** [l.sort(key=lambda x: x[1], reverse=True)]: the stable sort of
    (item, key) pairs into descending key order.  Items with equal keys
    keep their original relative order. *)
Fixpoint insert_desc {A} (x : A * Z) (l : list (A * Z)) : list (A * Z) :=
  match l with
  | [] => [x]
  | y :: t => if x.2 <? y.2 then y :: insert_desc x t else x :: y :: t
  end.

Fixpoint sort_desc {A} (l : list (A * Z)) : list (A * Z) :=
  match l with
  | [] => []
  | x :: t => insert_desc x (sort_desc t)
  end.

(** The order [sort_desc] establishes: keys do not increase. *)
Definition key_ge {A} (a b : A * Z) : Prop := b.2 <= a.2.

End Py.

Import Py.

(** ** src/models/product *)

Module ProductModel.

Inductive StockStatus : Type :=
| IN_STOCK | OUT_OF_STOCK | LOW_STOCK | DISCONTINUED | PRE_ORDER.

Inductive PriceTier : Type :=
| BUDGET | MID_RANGE | PREMIUM | LUXURY.

Definition StockStatus_eqb (a b : StockStatus) : bool :=
  match a, b with
  | IN_STOCK, IN_STOCK | OUT_OF_STOCK, OUT_OF_STOCK | LOW_STOCK, LOW_STOCK
  | DISCONTINUED, DISCONTINUED | PRE_ORDER, PRE_ORDER => true
  | _, _ => false
  end.

Definition PriceTier_eqb (a b : PriceTier) : bool :=
  match a, b with
  | BUDGET, BUDGET | MID_RANGE, MID_RANGE | PREMIUM, PREMIUM
  | LUXURY, LUXURY => true
  | _, _ => false
  end.

(** schema.py, ProductStockSchema: the three dataclass fields. *)
Record ProductStockSchema : Type := mkStock {
  status : StockStatus;
  quantity : Z;
  reorder_level : Z
}.

(** [ProductStockSchema(status, quantity, reorder_level)]: the generated
    [__init__] stores the fields and runs [__post_init__], which raises
    on a negative field and otherwise rewrites [status] in place. *)
Definition ProductStockSchema_init (st : StockStatus) (q r : Z)
  : result ProductStockSchema :=
  if q <? 0 then Raise (ValueError "Stock quantity cannot be negative")
  else if r <? 0 then Raise (ValueError "Reorder level cannot be negative")
  else if (q =? 0) && negb (StockStatus_eqb st OUT_OF_STOCK)
       then Ok (mkStock OUT_OF_STOCK q r)
  else if ((0 <? q) && (q <=? r)) && StockStatus_eqb st IN_STOCK
       then Ok (mkStock LOW_STOCK q r)
  else Ok (mkStock st q r).

(** [ProductStockSchema.is_available] *)
Definition stock_is_available (s : ProductStockSchema) : bool :=
  match status s with
  | IN_STOCK | LOW_STOCK => true
  | _ => false
  end.

(** product.py, Product: the fields of the wrapped ProductSchema that the
    product service reads, flattened as the properties expose them. *)
Record Product : Type := mkProduct {
  product_id : string;
  name : string;
  category : string;
  subcategory : string;
  brand : string;
  description : string;
  price : Z;
  discount_percentage : Z;
  stock_info : ProductStockSchema;
  features : list string;
  price_tier : PriceTier;
  rating : Q;
  is_featured : bool;
  tags : list string
}.

Definition is_available (p : Product) : bool :=
  stock_is_available (stock_info p).

(** [ProductPriceSchema.is_on_sale] *)
Definition is_on_sale (p : Product) : bool := 0 <? discount_percentage p.

Definition matches_category (p : Product) (c : string) : bool :=
  String.eqb (lower (category p)) (lower c).

Definition matches_subcategory (p : Product) (s : string) : bool :=
  String.eqb (lower (subcategory p)) (lower s).

Definition matches_brand (p : Product) (b : string) : bool :=
  String.eqb (lower (brand p)) (lower b).

Definition matches_price_tier (p : Product) (t : PriceTier) : bool :=
  PriceTier_eqb (price_tier p) t.

(** The [for feature in self.features] loop of [has_feature_keyword]. *)
Fixpoint any_feature_contains (k : string) (fs : list string) : bool :=
  match fs with
  | [] => false
  | f :: t => if contains k (lower f) then true else any_feature_contains k t
  end.

Definition has_feature_keyword (p : Product) (keyword : string) : bool :=
  let keyword_lower := lower keyword in
  if any_feature_contains keyword_lower (features p) then true
  else if contains keyword_lower (lower (name p)) then true
  else if contains keyword_lower (lower (description p)) then true
  else false.

(** [min_price <= self.price <= max_price] *)
Definition is_within_budget (p : Product) (min_price max_price : Z) : bool :=
  (min_price <=? price p) && (price p <=? max_price).

End ProductModel.

Import ProductModel.

(** ** src/models/user *)

Module UserModel.

(** [ProductPreferencesSchema.budget_range]: a dict whose keys ['min'] and
    ['max'] the schema requires and whose key ['sweet_spot'] is optional. *)
Record BudgetRange : Type := mkBudget {
  range_min : Z;
  range_max : Z;
  range_sweet_spot : option Z
}.

Record User : Type := mkUser {
  persona_id : string;
  user_name : string;
  categories_of_interest : list string;
  key_features_valued : list string;
  budget_range : BudgetRange
}.

Definition budget_min (u : User) : Z := range_min (budget_range u).

Definition budget_max (u : User) : Z := range_max (budget_range u).

(** [budget_range.get('sweet_spot', budget_range['max'])] *)
Definition budget_sweet_spot (u : User) : Z :=
  match range_sweet_spot (budget_range u) with
  | Some s => s
  | None => range_max (budget_range u)
  end.

(** [category.lower() in [c.lower() for c in self.categories_of_interest]] *)
Definition is_interested_in_category (u : User) (c : string) : bool :=
  existsb (String.eqb (lower c)) (map lower (categories_of_interest u)).

End UserModel.

Import UserModel.

(** ** src/services/product *)

Module ProductService.

(** The repository is its cache: the catalog in file order. *)
Definition Repository : Type := list Product.

Definition get_available_products (repo : Repository) : list Product :=
  List.filter is_available repo.

Definition get_products_by_category (repo : Repository) (c : string)
  : list Product :=
  List.filter (fun p => matches_category p c) repo.

Definition _calculate_product_score_for_user (p : Product) (u : User) : Z :=
  let score := 0 in
  if is_within_budget p (budget_min u) (budget_max u) then
    let score := score + 10 in
    let score := if price p <=? budget_sweet_spot u then score + 5 else score in
    let score :=
      if is_interested_in_category u (category p) then score + 15 else score in
    let score :=
      fold_left (fun s feature =>
                   if has_feature_keyword p feature then s + 3 else s)
                (key_features_valued u) score in
    let score := if is_featured p then score + 2 else score in
    let score := if is_on_sale p then score + 3 else score in
    let score :=
      if Qle_bool (9 # 2) (rating p) then score + 4
      else if Qle_bool (4 # 1) (rating p) then score + 2
      else score in
    score
  else 0.

(** The list [scored_products] after [sort]: every available product with
    its score, best first. *)
Definition scored_products (repo : Repository) (u : User)
  : list (Product * Z) :=
  sort_desc (map (fun p => (p, _calculate_product_score_for_user p u))
                 (get_available_products repo)).

Definition get_recommendations_for_user
           (repo : Repository) (u : User) (limit : Z) : list Product :=
  map fst (slice_to limit (scored_products repo u)).

Definition _calculate_similarity_score (product1 product2 : Product) : Z :=
  let score := 0 in
  let score :=
    if matches_subcategory product1 (subcategory product2)
    then score + 10 else score in
  let score :=
    if matches_brand product1 (brand product2) then score + 5 else score in
  let price_diff := Z.abs (price product1 - price product2) in
  let score :=
    if price_diff <? 5000 then score + 8
    else if price_diff <? 10000 then score + 5
    else if price_diff <? 20000 then score + 2
    else score in
  let score :=
    if matches_price_tier product1 (price_tier product2)
    then score + 3 else score in
  let common_tags : gset string :=
    list_to_set (tags product1) ∩ list_to_set (tags product2) in
  score + Z.of_nat (size common_tags) * 2.

(** The loop of [get_similar_products] that fills [similar]. *)
Fixpoint similar_candidates (product : Product) (all_products : list Product)
  : list (Product * Z) :=
  match all_products with
  | [] => []
  | p :: rest =>
      if String.eqb (product_id p) (product_id product)
      then similar_candidates product rest
      else if matches_category p (category product)
           then (p, _calculate_similarity_score product p)
                  :: similar_candidates product rest
           else similar_candidates product rest
  end.

Definition get_similar_products
           (repo : Repository) (product : Product) (limit : Z) : list Product :=
  map fst (slice_to limit
             (sort_desc (similar_candidates product
                                            (get_available_products repo)))).

(** [if limit:] holds for an [int] other than 0; [None] and 0 skip the
    truncation. *)
Definition get_products_by_categories
           (repo : Repository) (categories : list string) (limit : option Z)
  : list Product :=
  let products :=
    fold_left (fun acc c => acc ++ get_products_by_category repo c)
              categories [] in
  let products := List.filter is_available products in
  match limit with
  | Some k => if k =? 0 then products else slice_to k products
  | None => products
  end.

End ProductService.

Import ProductService.

(** ** src/models/conversation *)

Module ConversationModel.

Inductive MessageRole : Type := SYSTEM | USER | ASSISTANT.

Inductive ConversationStatus : Type := ACTIVE | COMPLETED | ABANDONED.

Definition MessageRole_value (r : MessageRole) : string :=
  match r with
  | SYSTEM => "system"
  | USER => "user"
  | ASSISTANT => "assistant"
  end.

(** The values the services store in a metadata dict. *)
Inductive MetaValue : Type :=
| MStr (s : string)
| MInt (n : Z)
| MStrs (l : list string).

Record MessageSchema : Type := mkMessage {
  role : MessageRole;
  content : string;
  timestamp : Z;
  msg_metadata : gmap string MetaValue
}.

(** [metadata or {}] *)
Definition or_empty (metadata : option (gmap string MetaValue))
  : gmap string MetaValue :=
  match metadata with
  | Some m => m
  | None => ∅
  end.

(** [MessageSchema(role, content, timestamp, metadata)] with its
    [__post_init__]; the timestamp and metadata checks cannot fail on
    values of these types. *)
Definition MessageSchema_init (r : MessageRole) (c : string) (t : Z)
           (md : gmap string MetaValue) : result MessageSchema :=
  if is_blank c then Raise (ValueError "Message content cannot be empty")
  else Ok (mkMessage r c t md).

Definition create_system_message (c : string)
           (metadata : option (gmap string MetaValue)) (now : Z)
  : result MessageSchema :=
  MessageSchema_init SYSTEM c now (or_empty metadata).

Definition create_user_message (c : string)
           (metadata : option (gmap string MetaValue)) (now : Z)
  : result MessageSchema :=
  MessageSchema_init USER c now (or_empty metadata).

Definition create_assistant_message (c : string)
           (metadata : option (gmap string MetaValue)) (now : Z)
  : result MessageSchema :=
  MessageSchema_init ASSISTANT c now (or_empty metadata).

Definition is_system_message (m : MessageSchema) : bool :=
  match role m with SYSTEM => true | _ => false end.

Definition is_from_assistant (m : MessageSchema) : bool :=
  match role m with ASSISTANT => true | _ => false end.

(** [MessageSchema.to_openai_format]: the pair (role, content). *)
Definition to_openai_format (m : MessageSchema) : string * string :=
  (MessageRole_value (role m), content m).

Record Conversation : Type := mkConversation {
  conversation_id : string;
  user_persona_id : string;
  messages : list MessageSchema;
  status : ConversationStatus;
  started_at : Z;
  ended_at : option Z;
  metadata : gmap string MetaValue
}.

Definition is_active (c : Conversation) : bool :=
  match status c with ACTIVE => true | _ => false end.

Definition with_messages (c : Conversation) (ms : list MessageSchema)
  : Conversation :=
  mkConversation (conversation_id c) (user_persona_id c) ms (status c)
                 (started_at c) (ended_at c) (metadata c).

Definition with_end (c : Conversation) (st : ConversationStatus) (t : Z)
  : Conversation :=
  mkConversation (conversation_id c) (user_persona_id c) (messages c) st
                 (started_at c) (Some t) (metadata c).

(** [Conversation.create_new]; the ids are checked by the schema. *)
Definition create_new (cid pid : string)
           (md : option (gmap string MetaValue)) (now : Z)
  : result Conversation :=
  if is_blank cid then Raise (ValueError "Conversation ID is required")
  else if is_blank pid then Raise (ValueError "User persona ID is required")
  else Ok (mkConversation cid pid [] ACTIVE now None (or_empty md)).

Definition get_last_n_messages (c : Conversation) (n : Z)
  : list MessageSchema :=
  if n <=? 0 then [] else slice_last n (messages c).

Definition get_context_window (c : Conversation) (window_size : Z)
  : list MessageSchema :=
  let msgs := get_last_n_messages c window_size in
  List.filter (fun msg => negb (is_system_message msg)) msgs.

Definition get_messages_for_llm (c : Conversation) (context_window_size : Z)
  : list (string * string) :=
  map to_openai_format (get_context_window c context_window_size).

(** The two messages of the [ValueError] raised on an inactive
    conversation. *)
Definition inactive_message : string :=
  "Cannot add message to inactive conversation".

Definition already_inactive : string := "Conversation is already inactive".

(** The mutating methods return the conversation after the call.  Each
    raises before its first assignment, so on [Raise] the conversation is
    the one that was passed in. *)
Definition add_message (c : Conversation) (m : MessageSchema)
  : result Conversation :=
  if negb (is_active c)
  then Raise (ValueError inactive_message)
  else Ok (with_messages c (messages c ++ [m])).

Definition add_user_message (c : Conversation) (text : string)
           (md : option (gmap string MetaValue)) (now : Z)
  : result (MessageSchema * Conversation) :=
  bind (create_user_message text md now) (fun m =>
  bind (add_message c m) (fun c' => Ok (m, c'))).

Definition add_assistant_message (c : Conversation) (text : string)
           (md : option (gmap string MetaValue)) (now : Z)
  : result (MessageSchema * Conversation) :=
  bind (create_assistant_message text md now) (fun m =>
  bind (add_message c m) (fun c' => Ok (m, c'))).

Definition add_system_message (c : Conversation) (text : string)
           (md : option (gmap string MetaValue)) (now : Z)
  : result (MessageSchema * Conversation) :=
  bind (create_system_message text md now) (fun m =>
  bind (add_message c m) (fun c' => Ok (m, c'))).

Definition complete_conversation (c : Conversation) (now : Z)
  : result Conversation :=
  if negb (is_active c)
  then Raise (ValueError already_inactive)
  else Ok (with_end c COMPLETED now).

Definition abandon_conversation (c : Conversation) (now : Z)
  : result Conversation :=
  if negb (is_active c)
  then Raise (ValueError already_inactive)
  else Ok (with_end c ABANDONED now).

End ConversationModel.

Import ConversationModel.

(** ** src/services/llm *)

Module LLMService.

(** What [client.chat.completions.create] does on one request: it returns
    a response whose [choices] carry the [message.content] of each choice
    ([None] when absent), or raises one of the client's exceptions. *)
Inductive Reply : Type :=
| Completion (choices : list (option string))
| RateLimitError (msg : string)
| APITimeoutError (msg : string)
| APIConnectionError (msg : string)
| APIError (msg : string)
| OtherException (msg : string).

(** The world outside the process: the clock, the provider's reply to the
    k-th request, the requests sent so far and the pauses taken so far.
    Times are in milliseconds. *)
Record World : Type := mkWorld {
  clock : Z;
  provider : nat -> Reply;
  requests : list (list (string * string));
  slept : list Z
}.

(** [time.sleep]: the pause is recorded and the clock moves on. *)
Definition time_sleep (ms : Z) (w : World) : World :=
  mkWorld (clock w + ms) (provider w) (requests w) (slept w ++ [ms]).

Definition send_request (messages : list (string * string)) (w : World)
  : Reply * World :=
  (provider w (length (requests w)),
   mkWorld (clock w) (provider w) (requests w ++ [messages]) (slept w)).

(** The values of src/config/settings.py that the services read. *)
Class Settings : Type := {
  max_retries : Z;
  context_window_messages : Z;
  product_recommendation_limit : Z
}.

Record IntentAnalysis : Type := mkIntent {
  intent : string;
  intent_categories : list string;
  intent_budget : option PyFloat;
  intent_requirements : list string
}.

(** Text production and parsing that the lifecycle does not depend on:
    the prompt builder of prompts.py, the literal classifier prompt of
    [analyze_user_intent], and [_parse_intent_analysis], a total function
    of the reply text. *)
Class Prompts : Type := {
  build_system_prompt : User -> list Product -> string -> string;
  analysis_prompt : string;
  _parse_intent_analysis : string -> IntentAnalysis
}.

Definition unknown_intent : IntentAnalysis := mkIntent "unknown" [] None [].

Definition api_error (m : string) : result string :=
  Raise (LLMServiceError m).

(** The body of the [try] in [_call_openai_api] and its [except] clauses,
    on the provider's reply.  The inner [raise LLMServiceError] statements
    are inside the [try] and are re-wrapped by its last [except Exception]
    clause. *)
Definition reply_outcome (reply : Reply) : result string :=
  match reply with
  | Completion [] =>
      api_error ("Unexpected API error: "
                 ++ "No response choices returned from OpenAI API")%string
  | Completion (Some text :: _) =>
      if is_empty text
      then api_error ("Unexpected API error: "
                      ++ "Empty content returned from OpenAI API")%string
      else Ok (strip text)
  | Completion (None :: _) =>
      api_error ("Unexpected API error: "
                 ++ "Empty content returned from OpenAI API")%string
  | RateLimitError m => api_error ("Rate limit exceeded: " ++ m)%string
  | APITimeoutError m => api_error ("API request timed out: " ++ m)%string
  | APIConnectionError m => api_error ("API connection error: " ++ m)%string
  | APIError m => api_error ("API error: " ++ m)%string
  | OtherException m => api_error ("Unexpected API error: " ++ m)%string
  end.

Definition _call_openai_api (messages : list (string * string)) (w : World)
  : result string * World :=
  let (reply, w') := send_request messages w in
  (reply_outcome reply, w').

(** [(2 ** attempt) + (attempt * 0.5)] and [2 ** attempt] seconds. *)
Definition rate_limit_wait (attempt : Z) : Z := 1000 * 2 ^ attempt + 500 * attempt.

Definition backoff_wait (attempt : Z) : Z := 1000 * 2 ^ attempt.

(** ['rate limit' in last_error.lower()] *)
Definition mentions_rate_limit (last_error : string) : bool :=
  contains "rate limit" (lower last_error).

(** [str(last_error)] inside the f-string. *)
Definition show_last_error (last_error : option string) : string :=
  match last_error with
  | Some m => m
  | None => "None"
  end.

(** The [for attempt in range(1, max_retries + 1)] loop, over the
    attempts still to make, followed by the statement after the loop. *)
Fixpoint retry_loop (max : Z) (messages : list (string * string))
         (attempts : list Z) (last_error : option string) (w : World)
  : result string * World :=
  match attempts with
  | [] =>
      (Raise (LLMServiceError
                ("Failed after " ++ pretty max ++ " attempts. Last error: "
                 ++ show_last_error last_error)%string), w)
  | attempt :: rest =>
      match _call_openai_api messages w with
      | (Ok text, w1) => (Ok text, w1)
      | (Raise (LLMServiceError m), w1) =>
          if mentions_rate_limit m && (attempt <? max)
          then retry_loop max messages rest (Some m)
                          (time_sleep (rate_limit_wait attempt) w1)
          else if attempt <? max
          then retry_loop max messages rest (Some m)
                          (time_sleep (backoff_wait attempt) w1)
          else (Raise (LLMServiceError m), w1)
      | (Raise e, w1) => (Raise e, w1)
      end
  end.

(** [range(1, max_retries + 1)] *)
Definition attempt_range (max : Z) : list Z :=
  map Z.of_nat (seq 1 (Z.to_nat max)).

Section Service.

Context {cfg : Settings} {pb : Prompts}.

Definition _call_openai_api_with_retry
           (messages : list (string * string)) (w : World)
  : result string * World :=
  retry_loop max_retries messages (attempt_range max_retries) None w.

Definition _prepare_messages (system_prompt : string) (c : Conversation)
  : list (string * string) :=
  ("system", system_prompt)
    :: get_messages_for_llm c context_window_messages.

Definition generate_response (c : Conversation) (u : User)
           (available_products : list Product) (conversation_stage : string)
           (w : World) : result string * World :=
  let system_prompt :=
    build_system_prompt u available_products conversation_stage in
  let messages := _prepare_messages system_prompt c in
  match _call_openai_api_with_retry messages w with
  | (Ok response, w') => (Ok response, w')
  | (Raise e, w') =>
      (Raise (LLMServiceError
                ("Unexpected error generating response: " ++ str e)%string),
       w')
  end.

Definition analyze_user_intent (user_message : string) (w : World)
  : IntentAnalysis * World :=
  let messages := [("system", analysis_prompt); ("user", user_message)] in
  match _call_openai_api_with_retry messages w with
  | (Ok response, w') => (_parse_intent_analysis response, w')
  | (Raise _, w') => (unknown_intent, w')
  end.

End Service.

End LLMService.

Import LLMService.

(** ** src/services/conversation *)

Module ConversationService.

Definition stage_mapping : gmap string string :=
  list_to_map [("browsing", "discovery");
               ("asking_question", "discovery");
               ("requesting_recommendation", "recommendation");
               ("comparing_products", "comparison");
               ("ready_to_buy", "closing");
               ("objection", "objection_handling")].

Definition _determine_conversation_stage (ia : IntentAnalysis) : string :=
  default "discovery" (stage_mapping !! intent ia).

(** [if budget:] holds for a float other than 0, not-a-number and the
    infinities among them. *)
Definition budget_given (b : option PyFloat) : option PyFloat :=
  match b with
  | Some (Finite q) => if Qeq_bool q 0 then None else Some (Finite q)
  | Some (Infinity negative) => Some (Infinity negative)
  | Some NaN => Some NaN
  | None => None
  end.

(** [p.price <= Decimal(str(budget))]: [Decimal] reads what [str] writes
    for a finite float as that number, ['inf'] and ['-inf'] as its
    infinities, and ['nan'] as its NaN, on which [<=] raises
    [decimal.InvalidOperation]. *)
Definition price_within (budget : PyFloat) (p : Product) : result bool :=
  match budget with
  | Finite b => Ok (Qle_bool (price p # 100) b)
  | Infinity negative => Ok (negb negative)
  | NaN => Raise InvalidOperation
  end.

Section Service.

Context {cfg : Settings} {pb : Prompts}.

Definition _get_relevant_products (repo : Repository) (u : User)
           (ia : IntentAnalysis) : result (list Product) :=
  let products :=
    match intent_categories ia with
    | _ :: _ =>
        get_products_by_categories repo (intent_categories ia)
                                   (Some product_recommendation_limit)
    | [] =>
        get_recommendations_for_user repo u product_recommendation_limit
    end in
  match budget_given (intent_budget ia) with
  | Some budget => comprehension (price_within budget) products
  | None => Ok products
  end.

Definition reply_metadata (stage : string) (ia : IntentAnalysis)
           (shown : list Product) : gmap string MetaValue :=
  list_to_map [("stage", MStr stage);
               ("intent", MStr (intent ia));
               ("products_shown", MInt (Z.of_nat (length shown)))].

Definition wrap_failure (e : exn) : exn :=
  match e with
  | LLMServiceError m =>
      ConversationServiceError ("LLM service error: " ++ m)%string
  | _ =>
      ConversationServiceError
        ("Failed to process user message: " ++ str e)%string
  end.

(** Returns the outcome together with the conversation and the world as
    the call leaves them. *)
Definition process_user_message (repo : Repository) (c : Conversation)
           (u : User) (user_message : string) (w : World)
  : result string * Conversation * World :=
  match add_user_message c user_message None (clock w) with
  | Raise e => (Raise (wrap_failure e), c, w)
  | Ok (_, c1) =>
      let (intent_analysis, w1) := analyze_user_intent user_message w in
      let conversation_stage :=
        _determine_conversation_stage intent_analysis in
      match _get_relevant_products repo u intent_analysis with
      | Raise e => (Raise (wrap_failure e), c1, w1)
      | Ok available_products =>
          match generate_response c1 u available_products
                                  conversation_stage w1 with
          | (Raise e, w2) => (Raise (wrap_failure e), c1, w2)
          | (Ok assistant_response, w2) =>
              match add_assistant_message
                      c1 assistant_response
                      (Some (reply_metadata conversation_stage
                                            intent_analysis
                                            available_products))
                      (clock w2) with
              | Raise e => (Raise (wrap_failure e), c1, w2)
              | Ok (_, c2) => (Ok assistant_response, c2, w2)
              end
          end
      end
  end.

End Service.

End ConversationService.

Import ConversationService.

(** ** src/models/product/schema.py and src/models/user/schema.py: further
    records *)

Module SchemaRecords.

(** schema.py, ProductPriceSchema. *)
Record ProductPriceSchema : Type := mkPrice {
  price : Z;
  original_price : Z;
  currency : string;
  discount_percentage : Z
}.

(** [ProductPriceSchema(...)] with its [__post_init__]. *)
Definition ProductPriceSchema_init (p o : Z) (cur : string) (d : Z)
  : result ProductPriceSchema :=
  if p <=? 0 then Raise (ValueError "Price must be greater than 0")
  else if o <=? 0
  then Raise (ValueError "Original price must be greater than 0")
  else if o <? p
  then Raise (ValueError "Price cannot be greater than original price")
  else if is_empty cur || negb (Nat.eqb (String.length cur) 3)
  then Raise (ValueError "Currency must be a valid 3-letter ISO code")
  else if negb ((0 <=? d) && (d <=? 100))
  then Raise (ValueError "Discount percentage must be between 0 and 100")
  else Ok (mkPrice p o cur d).

Definition savings (s : ProductPriceSchema) : Z := original_price s - price s.

Definition is_on_sale (s : ProductPriceSchema) : bool :=
  0 <? discount_percentage s.

(** [ProductStockSchema.needs_reorder] *)
Definition needs_reorder (s : ProductStockSchema) : bool :=
  quantity s <=? reorder_level s.

(** user/schema.py, ProductPreferencesSchema; [budget_range] is a dict. *)
Record ProductPreferencesSchema : Type := mkPreferences {
  categories_of_interest : list string;
  key_features_valued : list string;
  budget_range : gmap string Z;
  deal_breakers : list string
}.

(** [ProductPreferencesSchema(...)] with its [__post_init__]; the
    [isinstance] checks hold for values of these types. *)
Definition ProductPreferencesSchema_init
           (cats feats : list string) (budget : gmap string Z)
           (breakers : list string) : result ProductPreferencesSchema :=
  if Nat.eqb (length cats) 0
  then Raise (ValueError "Categories of interest must be a non-empty list")
  else match budget !! "min", budget !! "max" with
       | Some lo, Some hi =>
           if (lo <? 0) || (hi <? 0)
           then Raise (ValueError "Budget values cannot be negative")
           else if hi <? lo
           then Raise (ValueError "Minimum budget cannot exceed maximum budget")
           else Ok (mkPreferences cats feats budget breakers)
       | _, _ =>
           Raise (ValueError "Budget range must contain 'min' and 'max' keys")
       end.

(** user.py: [budget_range['min']], [budget_range['max']] and
    [budget_range.get('sweet_spot', budget_range['max'])]; [None] stands
    for the [KeyError] of a missing key. *)
Definition prefs_budget_min (s : ProductPreferencesSchema) : option Z :=
  budget_range s !! "min".

Definition prefs_budget_max (s : ProductPreferencesSchema) : option Z :=
  budget_range s !! "max".

Definition prefs_budget_sweet_spot (s : ProductPreferencesSchema) : option Z :=
  match budget_range s !! "max" with
  | Some hi => Some (default hi (budget_range s !! "sweet_spot"))
  | None => None
  end.

(** [User.is_within_budget]: [budget_min <= price <= budget_max]. *)
Definition user_is_within_budget (u : User) (amount : Z) : bool :=
  (budget_min u <=? amount) && (amount <=? budget_max u).

(** [User.values_feature] *)
Definition values_feature (u : User) (feature : string) : bool :=
  existsb (String.eqb (lower feature))
          (map lower (UserModel.key_features_valued u)).

End SchemaRecords.

(** ** src/services/product: further queries *)

Module CatalogQueries.

(** repository.py, [get_product_by_id]: the first product with that id. *)
Fixpoint get_product_by_id (repo : Repository) (id : string) : option Product :=
  match repo with
  | [] => None
  | p :: rest =>
      if String.eqb (product_id p) id then Some p
      else get_product_by_id rest id
  end.

(** product.py, [matches_price_range] *)
Definition matches_price_range (p : Product) (min_price max_price : option Z)
  : bool :=
  if match min_price with
     | Some m => ProductModel.price p <? m
     | None => false
     end
  then false
  else if match max_price with
          | Some m => m <? ProductModel.price p
          | None => false
          end
  then false
  else true.

(** product.py, [has_tag] *)
Definition has_tag (p : Product) (tag : string) : bool :=
  existsb (String.eqb (lower tag)) (map lower (tags p)).

(** The truth value of an optional string argument: [None] and the empty
    string are false. *)
Definition given (o : option string) : option string :=
  match o with
  | Some s => if is_empty s then None else Some s
  | None => None
  end.

(** service.py, [search_products]. *)
Definition search_products
           (repo : Repository)
           (category subcategory brand : option string)
           (min_price max_price : option Z)
           (price_tier : option PriceTier)
           (tag : option string)
           (available_only : bool) : list Product :=
  let products := repo in
  let products :=
    if available_only then List.filter is_available products else products in
  let products :=
    match given category with
    | Some c => List.filter (fun p => matches_category p c) products
    | None => products
    end in
  let products :=
    match given subcategory with
    | Some s => List.filter (fun p => matches_subcategory p s) products
    | None => products
    end in
  let products :=
    match given brand with
    | Some b => List.filter (fun p => matches_brand p b) products
    | None => products
    end in
  let products :=
    match min_price, max_price with
    | None, None => products
    | _, _ =>
        List.filter (fun p => matches_price_range p min_price max_price)
                    products
    end in
  let products :=
    match price_tier with
    | Some t => List.filter (fun p => matches_price_tier p t) products
    | None => products
    end in
  let products :=
    match given tag with
    | Some t => List.filter (fun p => has_tag p t) products
    | None => products
    end in
  products.

(** [if limit: return products[:limit]] and [return products]. *)
Definition cut (limit : option Z) (products : list Product) : list Product :=
  match limit with
  | Some k => if k =? 0 then products else slice_to k products
  | None => products
  end.

(** service.py, [get_featured_products] over repository.py's. *)
Definition get_featured_products (repo : Repository) (limit : option Z)
  : list Product :=
  let products := List.filter is_featured repo in
  let products := List.filter is_available products in
  cut limit products.

(** service.py, [get_products_on_sale] over repository.py's. *)
Definition get_products_on_sale (repo : Repository) (limit : option Z)
  : list Product :=
  let products := List.filter ProductModel.is_on_sale repo in
  let products := List.filter is_available products in
  cut limit products.

(** repository.py, [get_all_categories]: [sorted(list(set(...)))]. *)
Definition get_all_categories (repo : Repository) : list string :=
  merge_sort String.le
             (elements (list_to_set (map category repo) : gset string)).

(** repository.py, [get_all_brands] *)
Definition get_all_brands (repo : Repository) : list string :=
  merge_sort String.le
             (elements (list_to_set (map brand repo) : gset string)).

(** The conjunction of the criteria of one [search_products] call. *)
Definition search_criteria
           (category subcategory brand : option string)
           (min_price max_price : option Z)
           (price_tier : option PriceTier)
           (tag : option string)
           (available_only : bool) (p : Product) : bool :=
  (negb available_only || is_available p)
  && match given category with
     | Some c => matches_category p c
     | None => true
     end
  && match given subcategory with
     | Some s => matches_subcategory p s
     | None => true
     end
  && match given brand with
     | Some b => matches_brand p b
     | None => true
     end
  && matches_price_range p min_price max_price
  && match price_tier with
     | Some t => matches_price_tier p t
     | None => true
     end
  && match given tag with
     | Some t => has_tag p t
     | None => true
     end.

End CatalogQueries.

(** ** src/models/conversation/conversation.py: further methods *)

Module ConversationQueries.

Definition message_count (c : Conversation) : nat := length (messages c).

Definition is_from_user (m : MessageSchema) : bool :=
  match role m with USER => true | _ => false end.

Definition get_user_messages (c : Conversation) : list MessageSchema :=
  List.filter is_from_user (messages c).

Definition get_assistant_messages (c : Conversation) : list MessageSchema :=
  List.filter is_from_assistant (messages c).

(** [(ended_at - started_at).total_seconds()], the clock counting
    milliseconds; [None] while there is no end timestamp. *)
Definition get_duration_seconds (c : Conversation) : option Q :=
  match ended_at c with
  | None => None
  | Some e => Some ((e - started_at c) # 1000)
  end.

(** [self.schema.metadata.get(key, default)] *)
Definition get_metadata_value (c : Conversation) (key : string)
           (dflt : option MetaValue) : option MetaValue :=
  match metadata c !! key with
  | Some v => Some v
  | None => dflt
  end.

(** [self.schema.metadata[key] = value] *)
Definition set_metadata_value (c : Conversation) (key : string) (v : MetaValue)
  : Conversation :=
  mkConversation (conversation_id c) (user_persona_id c) (messages c)
                 (ConversationModel.status c) (started_at c) (ended_at c)
                 (<[key := v]> (metadata c)).

End ConversationQueries.

(** ** src/services/llm/service.py: the other generators *)

Module Generators.

(** The prompt builders of prompts.py that these generators call. *)
Class MorePrompts : Type := {
  build_greeting_prompt : User -> string;
  build_recommendation_prompt : User -> list Product -> string;
  build_comparison_prompt : User -> list Product -> string
}.

Section Service.

Context {cfg : Settings} {mp : MorePrompts}.

Definition generate_greeting (u : User) (w : World) : result string * World :=
  let greeting_prompt := build_greeting_prompt u in
  let messages := [("system", greeting_prompt); ("user", "Hello")] in
  match _call_openai_api_with_retry messages w with
  | (Ok response, w') => (Ok response, w')
  | (Raise e, w') =>
      (Raise (LLMServiceError ("Failed to generate greeting: " ++ str e)%string),
       w')
  end.

Definition generate_product_recommendation
           (c : Conversation) (u : User) (products : list Product) (w : World)
  : result string * World :=
  let recommendation_prompt := build_recommendation_prompt u products in
  let messages :=
    [("system", recommendation_prompt)]
      ++ get_messages_for_llm c context_window_messages in
  match _call_openai_api_with_retry messages w with
  | (Ok response, w') => (Ok response, w')
  | (Raise e, w') =>
      (Raise (LLMServiceError
                ("Failed to generate product recommendation: " ++ str e)%string),
       w')
  end.

Definition generate_product_comparison
           (c : Conversation) (u : User) (products : list Product) (w : World)
  : result string * World :=
  let comparison_prompt := build_comparison_prompt u products in
  let messages :=
    [("system", comparison_prompt)]
      ++ get_messages_for_llm c context_window_messages in
  match _call_openai_api_with_retry messages w with
  | (Ok response, w') => (Ok response, w')
  | (Raise e, w') =>
      (Raise (LLMServiceError
                ("Failed to generate product comparison: " ++ str e)%string),
       w')
  end.

End Service.

End Generators.

(** ** src/services/conversation/service.py: the other operations *)

Module Sessions.

Import ConversationQueries CatalogQueries Generators.

(** The switches of settings.py that these operations read. *)
Class Switches : Type := {
  greeting_enabled : bool;
  enable_logging : bool
}.

(** What [ConversationLogger.log_conversation] does with a conversation:
    it writes the file and returns its path, or raises
    [ConversationLoggerError]. *)
Inductive LogOutcome : Type :=
| Logged (path : string)
| LoggerError (msg : string).

Class Logger : Type := {
  log_conversation : Conversation -> LogOutcome
}.

(** The service holds references: [objects] is the store of conversation
    objects by address, [_active_conversations] the dict from conversation
    id to the address of the registered object. *)
Record Service : Type := mkService {
  objects : gmap nat Conversation;
  _active_conversations : gmap string nat
}.

Definition store (a : nat) (c : Conversation) (s : Service) : Service :=
  mkService (<[a := c]> (objects s)) (_active_conversations s).

(** [f"CONV-{uuid.uuid4().hex[:12].upper()}"], on the twelve characters
    drawn. *)
Definition _generate_conversation_id (hex12 : string) : string :=
  ("CONV-" ++ hex12)%string.

(** The conversation that [create_new] builds for a user. *)
Definition opened (u : User) (hex12 : string) (now : Z) : Conversation :=
  mkConversation (_generate_conversation_id hex12) (persona_id u) [] ACTIVE
                 now None {[ "user_name" := MStr (user_name u) ]}.

(** [get_conversation]: the registered object, if any. *)
Definition get_conversation (s : Service) (conversation_id : string)
  : option Conversation :=
  match _active_conversations s !! conversation_id with
  | Some a => objects s !! a
  | None => None
  end.

(** The ids under which a conversation is registered. *)
Definition active_ids (s : Service) : gset string :=
  dom (_active_conversations s).

Section Service.

Context {cfg : Settings} {sw : Switches} {lg : Logger} {mp : MorePrompts}.

Definition start_failure (e : exn) : exn :=
  ConversationServiceError ("Failed to start conversation: " ++ str e)%string.

(** Returns the address of the new conversation object. *)
Definition start_conversation (s : Service) (u : User) (hex12 : string)
           (w : World) : result nat * Service * World :=
  let conversation_id := _generate_conversation_id hex12 in
  match create_new conversation_id (persona_id u)
                   (Some {[ "user_name" := MStr (user_name u) ]}) (clock w) with
  | Raise e => (Raise (start_failure e), s, w)
  | Ok c =>
      let a := fresh (dom (objects s)) in
      let s1 := mkService (<[a := c]> (objects s))
                          (<[conversation_id := a]> (_active_conversations s)) in
      if greeting_enabled then
        match generate_greeting u w with
        | (Raise e, w1) => (Raise (start_failure e), s1, w1)
        | (Ok greeting, w1) =>
            match add_assistant_message c greeting None (clock w1) with
            | Raise e => (Raise (start_failure e), s1, w1)
            | Ok (_, c') => (Ok a, store a c' s1, w1)
            end
        end
      else (Ok a, s1, w)
  end.

(** [if id in registry: del registry[id]] *)
Definition unregister (conversation_id : string) (s : Service) : Service :=
  mkService (objects s) (delete conversation_id (_active_conversations s)).

(** [end_conversation] on the conversation object at address [a]; a caller
    always holds a live object, so the first branch is never taken. *)
Definition end_conversation (s : Service) (a : nat) (w : World)
  : result unit * Service * World :=
  match objects s !! a with
  | None => (Raise (ConversationServiceError "Failed to end conversation: "), s, w)
  | Some c =>
      match complete_conversation c (clock w) with
      | Raise e =>
          (Raise (ConversationServiceError
                    ("Failed to end conversation: " ++ str e)%string), s, w)
      | Ok c1 =>
          let s1 := store a c1 s in
          if enable_logging then
            match log_conversation c1 with
            | LoggerError m =>
                (Raise (ConversationServiceError
                          ("Failed to log conversation: " ++ m)%string), s1, w)
            | Logged path =>
                let c2 := set_metadata_value c1 "log_path" (MStr path) in
                (Ok tt, unregister (conversation_id c2) (store a c2 s1), w)
            end
          else (Ok tt, unregister (conversation_id c1) s1, w)
      end
  end.

(** The service's [abandon_conversation]. *)
Definition abandon_conversation (s : Service) (a : nat) (w : World)
  : result unit * Service * World :=
  match objects s !! a with
  | None =>
      (Raise (ConversationServiceError "Failed to abandon conversation: "), s, w)
  | Some c =>
      match ConversationModel.abandon_conversation c (clock w) with
      | Raise e =>
          (Raise (ConversationServiceError
                    ("Failed to abandon conversation: " ++ str e)%string), s, w)
      | Ok c1 =>
          let s1 := store a c1 s in
          if enable_logging then
            match log_conversation c1 with
            | LoggerError m =>
                (Raise (ConversationServiceError
                          ("Failed to abandon conversation: " ++ m)%string),
                 s1, w)
            | Logged _ => (Ok tt, unregister (conversation_id c1) s1, w)
            end
          else (Ok tt, unregister (conversation_id c1) s1, w)
      end
  end.

(** [limit or settings.sales.product_recommendation_limit] *)
Definition limit_or_default (limit : option Z) : Z :=
  match limit with
  | Some k => if k =? 0 then product_recommendation_limit else k
  | None => product_recommendation_limit
  end.

Definition recommendations_failure (e : exn) : exn :=
  ConversationServiceError
    ("Failed to generate recommendations: " ++ str e)%string.

(** [get_product_recommendations]; like [process_user_message] it returns
    the conversation as the call leaves it. *)
Definition get_product_recommendations
           (repo : Repository) (c : Conversation) (u : User) (limit : option Z)
           (w : World) : result string * Conversation * World :=
  let recommendation_limit := limit_or_default limit in
  let products := get_recommendations_for_user repo u recommendation_limit in
  match generate_product_recommendation c u products w with
  | (Raise e, w1) => (Raise (recommendations_failure e), c, w1)
  | (Ok response, w1) =>
      match add_assistant_message
              c response
              (Some (list_to_map
                       [("stage", MStr "recommendation");
                        ("products_recommended",
                         MStrs (map product_id products))]))
              (clock w1) with
      | Raise e => (Raise (recommendations_failure e), c, w1)
      | Ok (_, c') => (Ok response, c', w1)
      end
  end.

Definition comparison_failure (e : exn) : exn :=
  ConversationServiceError ("Failed to compare products: " ++ str e)%string.

(** The loop of [compare_products] that collects the products found. *)
Fixpoint products_found (repo : Repository) (product_ids : list string)
  : list Product :=
  match product_ids with
  | [] => []
  | product_id :: rest =>
      match get_product_by_id repo product_id with
      | Some product => product :: products_found repo rest
      | None => products_found repo rest
      end
  end.

Definition compare_products
           (repo : Repository) (c : Conversation) (u : User)
           (product_ids : list string) (w : World)
  : result string * Conversation * World :=
  let products := products_found repo product_ids in
  match products with
  | [] =>
      (Raise (comparison_failure
                (ConversationServiceError
                   "No valid products found for comparison")), c, w)
  | _ :: _ =>
      match generate_product_comparison c u products w with
      | (Raise e, w1) => (Raise (comparison_failure e), c, w1)
      | (Ok response, w1) =>
          match add_assistant_message
                  c response
                  (Some (list_to_map
                           [("stage", MStr "comparison");
                            ("products_compared", MStrs product_ids)]))
                  (clock w1) with
          | Raise e => (Raise (comparison_failure e), c, w1)
          | Ok (_, c') => (Ok response, c', w1)
          end
      end
  end.

Definition similar_failure (e : exn) : exn :=
  ConversationServiceError ("Failed to get similar products: " ++ str e)%string.

Definition no_similar_products : string :=
  "I couldn't find similar products at the moment.".

(** The service's [get_similar_products]. *)
Definition get_similar_products
           (repo : Repository) (c : Conversation) (u : User)
           (product_id : string) (w : World)
  : result string * Conversation * World :=
  match get_product_by_id repo product_id with
  | None =>
      (Raise (similar_failure
                (ConversationServiceError
                   ("Product not found: " ++ product_id)%string)), c, w)
  | Some product =>
      let similar_products := ProductService.get_similar_products repo product 3 in
      match similar_products with
      | [] => (Ok no_similar_products, c, w)
      | _ :: _ =>
          match generate_product_recommendation c u similar_products w with
          | (Raise e, w1) => (Raise (similar_failure e), c, w1)
          | (Ok response, w1) =>
              match add_assistant_message
                      c response
                      (Some (list_to_map
                               [("stage", MStr "recommendation");
                                ("similar_to", MStr product_id);
                                ("products_shown",
                                 MStrs (map ProductModel.product_id
                                            similar_products))]))
                      (clock w1) with
              | Raise e => (Raise (similar_failure e), c, w1)
              | Ok (_, c') => (Ok response, c', w1)
              end
          end
      end
  end.

End Service.

End Sessions.

(** ** src/services/llm/service.py: parsing the classifier's reply *)

Module IntentParsing.

(** [float(s)]: the float a text denotes, which is an infinity for
    ['inf'] and not-a-number for ['nan']; [None] stands for its
    [ValueError]. *)
Class FloatReader : Type := {
  python_float : string -> option PyFloat
}.

(** [s.split(sep)] for a separator of one character. *)
Fixpoint split_on (sep : ascii) (s : string) : list string :=
  match s with
  | EmptyString => [EmptyString]
  | String c t =>
      if Ascii.eqb c sep then EmptyString :: split_on sep t
      else match split_on sep t with
           | h :: r => String c h :: r
           | [] => [String c EmptyString]
           end
  end.

(** [s.split(sep, 1)] when [sep in s]: the text before and after the first
    separator; [None] when there is none. *)
Fixpoint cut_at (sep : ascii) (s : string) : option (string * string) :=
  match s with
  | EmptyString => None
  | String c t =>
      if Ascii.eqb c sep then Some (EmptyString, t)
      else match cut_at sep t with
           | Some (k, v) => Some (String c k, v)
           | None => None
           end
  end.

(** [s.replace(c, '')] for one character. *)
Fixpoint remove_char (c : ascii) (s : string) : string :=
  match s with
  | EmptyString => EmptyString
  | String x t => if Ascii.eqb x c then remove_char c t
                  else String x (remove_char c t)
  end.

Definition newline : ascii := "010"%char.
Definition colon : ascii := ":"%char.
Definition comma : ascii := ","%char.
Definition dollar : ascii := "$"%char.

Definition set_intent (r : IntentAnalysis) (v : string) : IntentAnalysis :=
  mkIntent v (intent_categories r) (intent_budget r) (intent_requirements r).

Definition set_categories (r : IntentAnalysis) (v : list string)
  : IntentAnalysis :=
  mkIntent (intent r) v (intent_budget r) (intent_requirements r).

Definition set_budget (r : IntentAnalysis) (v : PyFloat)
  : IntentAnalysis :=
  mkIntent (intent r) (intent_categories r) (Some v) (intent_requirements r).

Definition set_requirements (r : IntentAnalysis) (v : list string)
  : IntentAnalysis :=
  mkIntent (intent r) (intent_categories r) (intent_budget r) v.

Section Parser.

Context {fr : FloatReader}.

(** The body of the [for line in lines] loop. *)
Definition parse_line (result : IntentAnalysis) (line : string)
  : IntentAnalysis :=
  match cut_at colon line with
  | None => result
  | Some (key, value) =>
      let key := lower (strip key) in
      let value := strip value in
      if String.eqb key "intent" then set_intent result (lower value)
      else if String.eqb key "categories"
              && negb (String.eqb (lower value) "none")
      then set_categories result (map strip (split_on comma value))
      else if String.eqb key "budget"
              && negb (String.eqb (lower value) "not mentioned")
      then let budget_str :=
             strip (remove_char comma (remove_char dollar value)) in
           match python_float budget_str with
           | Some b => set_budget result b
           | None => result
           end
      else if String.eqb key "requirements"
              && negb (String.eqb (lower value) "none")
      then set_requirements result (map strip (split_on comma value))
      else result
  end.

Definition _parse_intent_analysis (response : string) : IntentAnalysis :=
  let lines := split_on newline (strip response) in
  fold_left parse_line lines unknown_intent.

End Parser.

End IntentParsing.

(** ** src/utils/validators/input_validator.py *)

Module InputValidator.

(** [InputValidator.is_empty] *)
Definition is_empty (value : string) : bool :=
  Py.is_empty value || Py.is_empty (strip value).

Definition sanitize_input (value : string) : string :=
  if is_empty value then EmptyString else strip value.

Definition validate_non_empty (value field_name : string) : result string :=
  if is_empty value
  then Raise (ValueError (field_name ++ " cannot be empty")%string)
  else Ok (strip value).

(** [is_valid_length]; [max_length] is optional. *)
Definition is_valid_length (value : string) (min_length : Z)
           (max_length : option Z) : bool :=
  if is_empty value then false
  else
    let len := Z.of_nat (String.length (strip value)) in
    if len <? min_length then false
    else match max_length with
         | Some m => if m <? len then false else true
         | None => true
         end.

Definition validate_length (value : string) (min_length max_length : Z)
           (field_name : string) : result string :=
  match validate_non_empty value field_name with
  | Raise e => Raise e
  | Ok cleaned =>
      if negb (is_valid_length cleaned min_length (Some max_length))
      then Raise (ValueError
                    (field_name ++ " must be between " ++ pretty min_length
                     ++ " and " ++ pretty max_length ++ " characters")%string)
      else Ok cleaned
  end.

(** [cleaned in valid_choices], or the same on lower-cased texts. *)
Definition is_valid_choice (value : string) (valid_choices : list string)
           (case_sensitive : bool) : bool :=
  if is_empty value then false
  else
    let cleaned_value := strip value in
    if case_sensitive
    then existsb (String.eqb cleaned_value) valid_choices
    else existsb (String.eqb (lower cleaned_value)) (map lower valid_choices).

Definition validate_yes_no (value : string) : option bool :=
  if is_empty value then None
  else
    let cleaned := lower (strip value) in
    if existsb (String.eqb cleaned)
               ["y"; "yes"; "yeah"; "yep"; "sure"; "ok"; "okay"]
    then Some true
    else if existsb (String.eqb cleaned) ["n"; "no"; "nope"; "nah"]
    then Some false
    else None.

End InputValidator.

(** ** Shapes of texts *)

Module TextShape.

(** Every character is a blank. *)
Fixpoint all_space (s : string) : bool :=
  match s with
  | EmptyString => true
  | String c t => is_space c && all_space t
  end.

(** The text does not start with a blank. *)
Definition starts_clean (s : string) : bool :=
  match s with
  | EmptyString => true
  | String c _ => negb (is_space c)
  end.

(** The character occurs in the text. *)
Fixpoint has_char (c : ascii) (s : string) : bool :=
  match s with
  | EmptyString => false
  | String x t => Ascii.eqb x c || has_char c t
  end.

(** What every parsed classifier reply satisfies: the intent is in lower
    case, the categories and requirements carry no blanks around them. *)
Definition normalised (r : IntentAnalysis) : Prop :=
  lower (intent r) = intent r /\
  Forall (fun c => strip c = c) (intent_categories r) /\
  Forall (fun c => strip c = c) (intent_requirements r).

End TextShape.

(** ** Shapes of outcomes *)

Module Outcomes.

(** What an assistant-side operation leaves behind, given the conversation
    [c] it was called on: on success the conversation with one assistant
    message appended, whose content is the text returned and whose
    timestamp is the clock reading after the call; on failure, always a
    [ConversationServiceError], the conversation as it was. *)
Definition one_reply_appended (c : Conversation)
           (run : result string * Conversation * World) : Prop :=
  match run.1.1 with
  | Ok reply =>
      exists md,
        run.1.2 = with_messages
                    c (messages c
                         ++ [mkMessage ASSISTANT reply (clock run.2) md])
  | Raise (ConversationServiceError _) => run.1.2 = c
  | Raise _ => False
  end.

End Outcomes.

(** ** Further sample data *)

Module MoreSamples.

Import IntentParsing Generators Sessions.

(** A reader that takes no text for a number. *)
Definition no_number : FloatReader := {| python_float := fun _ => None |}.

Definition switches_on : Switches :=
  {| greeting_enabled := true; enable_logging := true |}.

Definition switches_off : Switches :=
  {| greeting_enabled := false; enable_logging := false |}.

Definition logger_ok : Logger :=
  {| log_conversation :=
       fun c => Logged ("logs/conversation_" ++ conversation_id c ++ ".txt") |}%string.

Definition logger_broken : Logger :=
  {| log_conversation :=
       fun _ => LoggerError "Failed to log conversation as text: disk full" |}.

Definition more_prompts : MorePrompts :=
  {| build_greeting_prompt := fun u => "Greet " ++ user_name u;
     build_recommendation_prompt := fun u _ => "Recommend to " ++ user_name u;
     build_comparison_prompt := fun u _ => "Compare for " ++ user_name u |}%string.

Definition empty_service : Service := mkService ∅ ∅.

(** A provider that always answers. *)
Definition provider_up (k : nat) : Reply := Completion [Some "Welcome!"].

(** A service that holds one active conversation, registered. *)
Definition one_session : Service :=
  mkService {[ 0%nat := mkConversation "CONV-0001" "U001" [] ACTIVE 1000 None ∅ ]}
            {[ "CONV-0001" := 0%nat ]}.

(** A persona like the sample one. *)
Definition visitor : User :=
  mkUser "U001" "Ada" ["audio"] ["battery"] (mkBudget 10000 50000 None).

(** A world with a provider that answers, and one with none. *)
Definition world_up : World := mkWorld 1000 provider_up [] [].

Definition world_down : World :=
  mkWorld 1000 (fun _ => APIConnectionError "Connection error.") [] [].

End MoreSamples.

(** ** The specification's own formulations

    Formulations taken from the specification's wording, against which
    the code is compared. *)

Module Reference.

(** The context window: the last [n] messages, without the system
    messages. *)
Definition last_n_spec {A} (n : nat) (l : list A) : list A :=
  rev (take n (rev l)).

Definition context_window_spec (c : Conversation) (n : Z)
  : list MessageSchema :=
  List.filter (fun m => negb (is_system_message m))
              (last_n_spec (Z.to_nat n) (messages c)).

(** [v] when the condition holds, else nothing. *)
Definition bonus (b : bool) (v : Z) : Z := if b then v else 0.

(** The valued features of the persona that the product matches. *)
Definition matched_features (p : Product) (u : User) : list string :=
  List.filter (has_feature_keyword p) (key_features_valued u).

(** Rating bonus: +4 from 4.5, +2 from 4.0 up to 4.5, else 0. *)
Definition rating_bonus_spec (r : Q) : Z :=
  if Qle_bool (9 # 2) r then 4 else if Qle_bool (4 # 1) r then 2 else 0.

(** Personalized score, steps 2 to 7 of the specification. *)
Definition personalized_score_spec (p : Product) (u : User) : Z :=
  if is_within_budget p (budget_min u) (budget_max u)
  then 10
       + bonus (price p <=? budget_sweet_spot u) 5
       + bonus (is_interested_in_category u (category p)) 15
       + 3 * Z.of_nat (length (matched_features p u))
       + bonus (is_featured p) 2
       + bonus (is_on_sale p) 3
       + rating_bonus_spec (rating p)
  else 0.

(** An otherwise identical product at another price. *)
Definition with_price (p : Product) (v : Z) : Product :=
  mkProduct (product_id p) (name p) (category p) (subcategory p) (brand p)
            (description p) v (discount_percentage p) (stock_info p)
            (features p) (price_tier p) (rating p) (is_featured p) (tags p).

(** Price-difference bands of the similarity score, on a difference in
    cents: below $50 gives 8, else below $100 gives 5, else below $200 gives
    2, else 0. *)
Definition price_band_spec (diff : Z) : Z :=
  if diff <? 5000 then 8
  else if diff <? 10000 then 5
  else if diff <? 20000 then 2
  else 0.

(** Case-insensitive equality of two texts. *)
Definition same_text (a b : string) : bool := String.eqb (lower a) (lower b).

(** The tags present in both products' tag sets. *)
Definition common_tags (p1 p2 : Product) : gset string :=
  list_to_set (tags p1) ∩ list_to_set (tags p2).

(** Similarity score as the specification sums it. *)
Definition similarity_spec (p1 p2 : Product) : Z :=
  bonus (same_text (subcategory p1) (subcategory p2)) 10
  + bonus (same_text (brand p1) (brand p2)) 5
  + price_band_spec (Z.abs (price p1 - price p2))
  + bonus (PriceTier_eqb (price_tier p1) (price_tier p2)) 3
  + 2 * Z.of_nat (size (common_tags p1 p2)).

(** Similarity candidates: the available products of the same category,
    the product itself excluded. *)
Definition candidates_spec (repo : Repository) (product : Product)
  : list Product :=
  List.filter (fun p => is_available p
                        && same_text (category p) (category product)
                        && negb (String.eqb (product_id p) (product_id product)))
              repo.

(** Category retrieval: the per-category match lists in request order, one
    after the other, restricted to available products. *)
Definition category_matches_spec (repo : Repository) (categories : list string)
  : list Product :=
  List.filter is_available
              (concat (map (fun c => List.filter
                                       (fun p => same_text (category p) c) repo)
                           categories)).

(** Truncation to a given limit. *)
Definition truncated_spec {A} (limit : option Z) (l : list A) : list A :=
  match limit with
  | Some k => take (Z.to_nat k) l
  | None => l
  end.

(** The pause after a failed attempt that is not the last: 2^attempt
    seconds, and half a second per attempt more when the failure reports a
    rate limit. *)
Definition wait_spec (attempt : Z) (failure : string) : Z :=
  if mentions_rate_limit failure then rate_limit_wait attempt
  else backoff_wait attempt.

(** The attempts left in a retry loop bounded by [max]: only the last of
    them reaches [max]. *)
Fixpoint ends_at (max : Z) (attempts : list Z) : Prop :=
  match attempts with
  | [] => True
  | a :: rest =>
      match rest with
      | [] => max <= a
      | _ :: _ => a < max /\ ends_at max rest
      end
  end.

(** The world once [messages] has been sent. *)
Definition sent (messages : list (string * string)) (w : World) : World :=
  (send_request messages w).2.

(** The provider's reply to the next request. *)
Definition next_reply (w : World) : Reply :=
  provider w (length (requests w)).

(** Total of a list of pauses. *)
Definition total (l : list Z) : Z := fold_right Z.add 0 l.

(** The trace a run of the loop leaves from world [w] to world [w']: [n]
    requests with the same messages, and one pause after each of them but
    the last, as long as the failed attempt calls for. *)
Definition loop_trace (messages : list (string * string)) (attempts : list Z)
           (w w' : World) (n : nat) (pauses : list Z) : Prop :=
  (n <= length attempts)%nat /\
  (attempts = [] \/ 1 <= n)%nat /\
  requests w' = requests w ++ repeat messages n /\
  slept w' = slept w ++ pauses /\
  provider w' = provider w /\
  clock w' = clock w + total pauses /\
  length pauses = pred n /\
  (forall i t, pauses !! i = Some t ->
               exists a m,
                 attempts !! i = Some a /\
                 reply_outcome (provider w (length (requests w) + i))
                 = Raise (LLMServiceError m) /\
                 t = wait_spec a m).

(** The conversations a run can hold when the clock reads [t]: one is
    created at the current reading, the clock only moves forward, and the
    conversation changes only through its own methods. *)
Inductive lifecycle : Z -> Conversation -> Prop :=
| lifecycle_create cid pid md t c :
    create_new cid pid md t = Ok c -> lifecycle t c
| lifecycle_wait t t' c :
    lifecycle t c -> t <= t' -> lifecycle t' c
| lifecycle_add t c m c' :
    lifecycle t c -> add_message c m = Ok c' -> lifecycle t c'
| lifecycle_complete t c c' :
    lifecycle t c -> complete_conversation c t = Ok c' -> lifecycle t c'
| lifecycle_abandon t c c' :
    lifecycle t c -> abandon_conversation c t = Ok c' -> lifecycle t c'.

End Reference.

Import Reference.

(** ** Sample data *)

Module Sample.

Definition in_stock : ProductStockSchema := mkStock IN_STOCK 25 5.

(** Headphones at $200.00, 10% off, featured, rated 4.6. *)
Definition headphones : Product :=
  mkProduct "P001" "Studio Headphones" "Audio" "Headphones" "Sonix"
            "Wireless headphones with long battery life"
            20000 10 in_stock
            ["Noise cancelling"; "Bluetooth 5.0"; "Foldable"]
            MID_RANGE (46 # 10) true ["wireless"; "audio"; "travel"].

(** Same subcategory, brand and tier as [headphones], two tags in common,
    $20.00 more. *)
Definition headphones_sport : Product :=
  mkProduct "P002" "Sport Headphones" "Audio" "headphones" "SONIX"
            "Sweat resistant headphones for running"
            22000 0 in_stock
            ["Sweat resistant"; "Bluetooth 5.0"]
            MID_RANGE (41 # 10) false ["wireless"; "audio"; "sport"].

(** A laptop at $600.00. *)
Definition laptop : Product :=
  mkProduct "P003" "Ultrabook 14" "Laptops" "Ultrabooks" "Nimbus"
            "Light laptop with a long battery life"
            60000 0 in_stock
            ["14 inch display"; "Backlit keyboard"]
            PREMIUM (48 # 10) true ["portable"; "work"].

(** A speaker that is out of stock. *)
Definition speaker : Product :=
  mkProduct "P004" "Party Speaker" "Audio" "Speakers" "Sonix"
            "Loud speaker with deep bass for parties"
            15000 0 (mkStock OUT_OF_STOCK 0 5)
            ["Deep bass"]
            BUDGET (39 # 10) false ["audio"; "party"].

Definition settings : Settings :=
  {| max_retries := 3;
     context_window_messages := 10;
     product_recommendation_limit := 50 |}.

Definition prompts : Prompts :=
  {| build_system_prompt := fun _ _ stage => "You are a sales assistant: " ++ stage;
     analysis_prompt := "Analyze the user's message";
     _parse_intent_analysis := fun _ => mkIntent "browsing" [] None [] |}%string.

(** A provider that answers the first request and is unreachable from then
    on. *)
Definition provider_down_after_first (k : nat) : Reply :=
  match k with
  | O => Completion [Some "Intent: browsing"]
  | S _ => APIConnectionError "Connection error."
  end.

(** A provider that fails twice, once on a rate limit, and then answers. *)
Definition provider_third_time (k : nat) : Reply :=
  match k with
  | O => APITimeoutError "Request timed out."
  | S O => RateLimitError "429"
  | S (S _) => Completion [Some " Hello! "]
  end.

(** A provider that is never reachable. *)
Definition provider_down (k : nat) : Reply :=
  APIConnectionError ("Connection error " ++ pretty k)%string.

Definition world_of (prov : nat -> Reply) : World := mkWorld 1000 prov [] [].

(** A conversation that has just been created. *)
Definition fresh_conversation : Conversation :=
  mkConversation "CONV-0001" "U001" [] ACTIVE 1000 None ∅.

(** The same conversation once completed. *)
Definition closed_conversation : Conversation :=
  mkConversation "CONV-0001" "U001" [] COMPLETED 1000 (Some 2000) ∅.

(** A conversation of five messages, the second a system note. *)
Definition busy_conversation : Conversation :=
  mkConversation "CONV-0002" "U001"
                 [mkMessage USER "Hi" 1000 ∅;
                  mkMessage SYSTEM "Persona loaded" 1001 ∅;
                  mkMessage ASSISTANT "Hello, how can I help?" 1002 ∅;
                  mkMessage USER "I need headphones" 1003 ∅;
                  mkMessage ASSISTANT "Here are two options" 1004 ∅]
                 ACTIVE 1000 None ∅.

(** Settings that allow no attempt at all. *)
Definition no_retry_settings : Settings :=
  {| max_retries := 0;
     context_window_messages := 10;
     product_recommendation_limit := 50 |}.

Definition catalog : Repository :=
  [laptop; headphones; speaker; headphones_sport].

(** A persona with budget $100.00 to $500.00 and sweet spot $300.00. *)
Definition persona : User :=
  mkUser "U001" "Ada" ["audio"] ["noise cancelling"; "battery"; "waterproof"]
         (mkBudget 10000 50000 (Some 30000)).

(** A conversation record whose start lies after the readings of the
    clock used below, as [ConversationSchema] accepts it. *)
Definition scheduled_conversation : Conversation :=
  mkConversation "CONV-0003" "U001" [] ACTIVE 5000 None ∅.

(** A [float] that reads ['nan'], and nothing else, as a float. *)
Definition nan_reader : IntentParsing.FloatReader :=
  {| IntentParsing.python_float :=
       fun s => if String.eqb (lower s) "nan" then Some NaN else None |}.

(** The prompts above with the classifier's reply parsed by the service's
    own parser. *)
Definition parsing_prompts : Prompts :=
  {| build_system_prompt := @build_system_prompt prompts;
     analysis_prompt := @analysis_prompt prompts;
     _parse_intent_analysis :=
       @IntentParsing._parse_intent_analysis nan_reader |}.

(** A provider whose every answer is a budget that is not a number. *)
Definition provider_nan (k : nat) : Reply := Completion [Some "Budget: nan"].

End Sample.

Import Sample.

(** * Properties *)

(** ** Stock records (schema.py) *)

Module StockProps.

Lemma StockStatus_eqb_eq (a b : StockStatus) :
  StockStatus_eqb a b = true <-> a = b.
Proof. destruct a, b; simpl; split; intros H; congruence. Qed.

(** C8: a stock record that was constructed has non-negative quantity and
    reorder level; a quantity of 0 forces [OUT_OF_STOCK]; a positive
    quantity at or below the reorder level turns a given [IN_STOCK] into
    [LOW_STOCK]; a negative quantity or reorder level makes the
    construction raise, and nothing else does. *)
Theorem stock_schema_normalized (st : StockStatus) (q r : Z) :
  (forall s, ProductStockSchema_init st q r = Ok s ->
             quantity s = q /\ reorder_level s = r /\
             0 <= quantity s /\ 0 <= reorder_level s /\
             (quantity s = 0 -> ProductModel.status s = OUT_OF_STOCK) /\
             (0 < quantity s <= reorder_level s -> st = IN_STOCK ->
              ProductModel.status s = LOW_STOCK)) /\
  (q < 0 \/ r < 0 ->
   exists m, ProductStockSchema_init st q r = Raise (ValueError m)) /\
  (0 <= q -> 0 <= r -> exists s, ProductStockSchema_init st q r = Ok s).
Proof.
  unfold ProductStockSchema_init.
  destruct (Z.ltb_spec q 0) as [Hq | Hq].
  { split; [intros s H; discriminate |].
    split; [intros _; eauto | intros; lia]. }
  destruct (Z.ltb_spec r 0) as [Hr | Hr].
  { split; [intros s H; discriminate |].
    split; [intros _; eauto | intros; lia]. }
  split; [| split; [intros [?|?]; lia |]].
  - intros s H.
    destruct (Z.eqb_spec q 0) as [E0 | N0]; simpl in H.
    + destruct (StockStatus_eqb st OUT_OF_STOCK) eqn:Eout; simpl in H.
      * apply StockStatus_eqb_eq in Eout. subst st.
        replace (0 <? q) with false in H by (symmetry; apply Z.ltb_ge; lia).
        simpl in H. injection H as <-. simpl. repeat split; try lia; auto.
      * injection H as <-. simpl. repeat split; try lia; auto.
    + destruct (Z.ltb_spec 0 q) as [Hpos | Hnp]; [| lia]. simpl in H.
      destruct (Z.leb_spec q r) as [Hle | Hgt]; simpl in H.
      * destruct (StockStatus_eqb st IN_STOCK) eqn:Ein.
        -- injection H as <-. simpl. repeat split; try lia; auto.
        -- injection H as <-. simpl. repeat split; try lia.
           intros _ ->. discriminate.
      * injection H as <-. simpl. repeat split; try lia.
  - intros _ _.
    destruct ((q =? 0) && negb (StockStatus_eqb st OUT_OF_STOCK)); eauto.
    destruct (((0 <? q) && (q <=? r)) && StockStatus_eqb st IN_STOCK); eauto.
Qed.

Lemma stock_schema_normalized_witness :
  ProductStockSchema_init IN_STOCK 3 5 = Ok (mkStock LOW_STOCK 3 5) /\
  ProductModel.status (mkStock LOW_STOCK 3 5) = LOW_STOCK /\
  (exists m, ProductStockSchema_init IN_STOCK (-1) 5 = Raise (ValueError m)).
Proof.
  split; [reflexivity |].
  destruct (stock_schema_normalized IN_STOCK 3 5) as [Hok _].
  destruct (Hok (mkStock LOW_STOCK 3 5) eq_refl) as (_ & _ & _ & _ & _ & Hlow).
  split.
  - apply Hlow; [simpl; lia | reflexivity].
  - destruct (stock_schema_normalized IN_STOCK (-1) 5) as (_ & Hneg & _).
    apply Hneg. left. lia.
Defined.

End StockProps.

(** ** Conversation (conversation.py) *)

Module ConversationProps.

Lemma slice_last_spec {A} (n : Z) (l : list A) :
  slice_last n l = last_n_spec (Z.to_nat n) l.
Proof.
  unfold slice_last, last_n_spec.
  rewrite firstn_rev, rev_involutive. reflexivity.
Qed.

Lemma filter_sublist {A} (f : A -> bool) (l : list A) :
  sublist (List.filter f l) l.
Proof.
  induction l as [| x l IH]; simpl.
  - constructor.
  - destruct (f x); constructor; exact IH.
Qed.

Lemma filter_length_le {A} (f : A -> bool) (l : list A) :
  (length (List.filter f l) <= length l)%nat.
Proof. apply sublist_length, filter_sublist. Qed.

Lemma get_last_n_messages_spec (c : Conversation) (n : Z) :
  get_last_n_messages c n = last_n_spec (Z.to_nat n) (messages c).
Proof.
  unfold get_last_n_messages.
  destruct (Z.leb_spec n 0) as [Hn | Hn].
  - replace (Z.to_nat n) with 0%nat by lia. reflexivity.
  - apply slice_last_spec.
Qed.

Lemma last_n_spec_length {A} (n : nat) (l : list A) :
  (length (last_n_spec n l) <= n)%nat.
Proof.
  unfold last_n_spec. rewrite length_rev, length_take. lia.
Qed.

Lemma last_n_spec_suffix {A} (n : nat) (l : list A) :
  exists before, l = before ++ last_n_spec n l.
Proof.
  unfold last_n_spec. exists (take (length l - n) l).
  rewrite firstn_rev, rev_involutive. symmetry. apply take_drop.
Qed.

(** C5: the context window holds no system message, holds at most [n]
    messages (none when [n <= 0]), is a subsequence of the conversation's
    messages in their order, and is the last [n] messages with the system
    messages filtered out. *)
Theorem context_window_correct (c : Conversation) (n : Z) :
  Forall (fun m => role m <> SYSTEM) (get_context_window c n) /\
  Z.of_nat (length (get_context_window c n)) <= Z.max 0 n /\
  sublist (get_context_window c n) (messages c) /\
  get_context_window c n = context_window_spec c n.
Proof.
  assert (Heq : get_context_window c n = context_window_spec c n).
  { unfold get_context_window, context_window_spec.
    rewrite get_last_n_messages_spec. reflexivity. }
  split; [| split; [| split; [| exact Heq]]].
  - unfold get_context_window. apply Forall_forall. intros m Hm.
    apply list_elem_of_In, filter_In in Hm. destruct Hm as [_ Hm].
    unfold is_system_message in Hm. intros E. rewrite E in Hm. discriminate.
  - rewrite Heq. unfold context_window_spec.
    pose proof (filter_length_le (fun m => negb (is_system_message m))
                  (last_n_spec (Z.to_nat n) (messages c))) as H1.
    pose proof (last_n_spec_length (Z.to_nat n) (messages c)) as H2.
    lia.
  - rewrite Heq. unfold context_window_spec.
    etransitivity; [apply filter_sublist |].
    destruct (last_n_spec_suffix (Z.to_nat n) (messages c)) as [b Hb].
    rewrite Hb at 2. apply sublist_inserts_l. reflexivity.
Qed.

End ConversationProps.

Module LifecycleProps.

Lemma is_active_false_terminal (c : Conversation) :
  is_active c = false <->
  ConversationModel.status c = COMPLETED \/
  ConversationModel.status c = ABANDONED.
Proof.
  unfold is_active.
  destruct (ConversationModel.status c); split; intros H;
    try discriminate; auto; destruct H; discriminate.
Qed.

Lemma MessageSchema_init_cases r text t md :
  (is_blank text = true /\
   MessageSchema_init r text t md =
     Raise (ValueError "Message content cannot be empty")) \/
  (is_blank text = false /\
   MessageSchema_init r text t md = Ok (mkMessage r text t md)).
Proof.
  unfold MessageSchema_init. destruct (is_blank text); auto.
Qed.

(** Every message-adding method raises [ValueError] on an inactive
    conversation, and it is the inactive-conversation error whenever the
    message itself could be built. *)
Lemma add_role_message_inactive (c : Conversation) r text md now :
  is_active c = false ->
  (exists m,
      bind (MessageSchema_init r text now (or_empty md))
           (fun m => bind (add_message c m) (fun c' => Ok (m, c')))
      = Raise (ValueError m)) /\
  (is_blank text = false ->
   bind (MessageSchema_init r text now (or_empty md))
        (fun m => bind (add_message c m) (fun c' => Ok (m, c')))
   = Raise (ValueError inactive_message)).
Proof.
  intros Hc.
  destruct (MessageSchema_init_cases r text now (or_empty md))
    as [[Hb ->] | [Hb ->]]; simpl; unfold add_message; rewrite ?Hc; simpl.
  - split; [eauto | intros H; congruence].
  - split; [eauto | reflexivity].
Qed.

(** Along every run with a clock that only moves forward, a conversation
    started at or before the current reading, and an end timestamp, once
    set, is at or after the start and the conversation is no longer
    active. *)
Lemma lifecycle_end_after_start (t : Z) (c : Conversation) :
  lifecycle t c ->
  started_at c <= t /\
  (forall e, ended_at c = Some e -> started_at c <= e /\ is_active c = false).
Proof.
  induction 1 as [cid pid md t c Hnew | t t' c Hl [IH1 IH2] Ht
                 | t c m c' Hl [IH1 IH2] Hadd
                 | t c c' Hl [IH1 IH2] Hend
                 | t c c' Hl [IH1 IH2] Hend].
  - unfold create_new in Hnew.
    destruct (is_blank cid); [discriminate |].
    destruct (is_blank pid); [discriminate |].
    injection Hnew as <-. simpl. split; [lia | intros e He; discriminate].
  - split; [lia | exact IH2].
  - unfold add_message in Hadd.
    destruct (is_active c) eqn:Hact; [| discriminate].
    simpl in Hadd. injection Hadd as <-. simpl.
    split; [exact IH1 |]. intros e He.
    destruct (IH2 e He) as [_ Hno]. congruence.
  - unfold complete_conversation in Hend.
    destruct (is_active c); [| discriminate].
    simpl in Hend. injection Hend as <-. simpl.
    split; [exact IH1 |]. intros e He. injection He as <-. auto.
  - unfold abandon_conversation in Hend.
    destruct (is_active c); [| discriminate].
    simpl in Hend. injection Hend as <-. simpl.
    split; [exact IH1 |]. intros e He. injection He as <-. auto.
Qed.

(** Completing, at clock reading 1000, an active conversation record whose
    start is 5000 succeeds and stamps an end that lies before the start;
    and a blank text on a completed conversation is refused with the
    empty-content error, not with the inactive-conversation error. *)
Lemma end_stamp_counterexample :
  (exists c1, complete_conversation scheduled_conversation 1000 = Ok c1 /\
              ended_at c1 = Some 1000 /\ 1000 < started_at c1) /\
  add_user_message closed_conversation "  " None 3000
  = Raise (ValueError "Message content cannot be empty") /\
  "Message content cannot be empty" <> inactive_message.
Proof.
  split; [| split; [reflexivity | discriminate]].
  eexists. split; [reflexivity |]. split; [reflexivity |].
  simpl. lia.
Qed.

(** C4: on a conversation that is not active, [add_message] raises the
    inactive-conversation [ValueError]; the three role-specific adders
    build the message first, so they raise the empty-content [ValueError]
    for a blank text and the inactive-conversation one otherwise;
    [complete_conversation] and [abandon_conversation] raise the
    already-inactive [ValueError].  On an active conversation the latter
    two succeed, set the status to [COMPLETED] and [ABANDONED], keep the
    start timestamp and the messages and stamp the clock reading as end
    timestamp; for a conversation made by [create_new] and run under a
    clock that never goes back, that end timestamp is at or after the
    start. *)
Theorem conversation_lifecycle_guarded
        (c : Conversation) (m : MessageSchema) (text : string)
        (md : option (gmap string MetaValue)) (now : Z) :
  (is_active c = false ->
   add_message c m = Raise (ValueError inactive_message) /\
   (is_blank text = true ->
    add_user_message c text md now
      = Raise (ValueError "Message content cannot be empty") /\
    add_assistant_message c text md now
      = Raise (ValueError "Message content cannot be empty") /\
    add_system_message c text md now
      = Raise (ValueError "Message content cannot be empty")) /\
   (is_blank text = false ->
    add_user_message c text md now = Raise (ValueError inactive_message) /\
    add_assistant_message c text md now
      = Raise (ValueError inactive_message) /\
    add_system_message c text md now
      = Raise (ValueError inactive_message)) /\
   complete_conversation c now = Raise (ValueError already_inactive) /\
   abandon_conversation c now = Raise (ValueError already_inactive)) /\
  (is_active c = true ->
   exists c1 c2,
     complete_conversation c now = Ok c1 /\
     abandon_conversation c now = Ok c2 /\
     ConversationModel.status c1 = COMPLETED /\
     ConversationModel.status c2 = ABANDONED /\
     is_active c1 = false /\ is_active c2 = false /\
     ended_at c1 = Some now /\ ended_at c2 = Some now /\
     started_at c1 = started_at c /\ started_at c2 = started_at c /\
     messages c1 = messages c /\ messages c2 = messages c) /\
  (forall t, lifecycle t c -> t <= now ->
             forall c', complete_conversation c now = Ok c' \/
                        abandon_conversation c now = Ok c' ->
                        exists e, ended_at c' = Some e /\ started_at c' <= e).
Proof.
  split; [| split].
  - intros Hc.
    unfold add_message, complete_conversation, abandon_conversation.
    rewrite Hc. simpl.
    split; [reflexivity |].
    split; [| split; [| split; reflexivity]].
    + intros Hb.
      unfold add_user_message, add_assistant_message, add_system_message,
        create_user_message, create_assistant_message, create_system_message.
      destruct (MessageSchema_init_cases USER text now (or_empty md))
        as [[_ ->] | [Hb' _]]; [| congruence].
      destruct (MessageSchema_init_cases ASSISTANT text now (or_empty md))
        as [[_ ->] | [Hb' _]]; [| congruence].
      destruct (MessageSchema_init_cases SYSTEM text now (or_empty md))
        as [[_ ->] | [Hb' _]]; [| congruence].
      repeat split.
    + intros Hb.
      pose proof (add_role_message_inactive c USER text md now Hc)
        as [_ Hu].
      pose proof (add_role_message_inactive c ASSISTANT text md now Hc)
        as [_ Ha].
      pose proof (add_role_message_inactive c SYSTEM text md now Hc)
        as [_ Hs].
      auto.
  - intros Hc.
    unfold complete_conversation, abandon_conversation. rewrite Hc. simpl.
    eexists _, _. repeat split.
  - intros t Hl Ht c' Hend.
    destruct (lifecycle_end_after_start t c Hl) as [Hstart _].
    exists now.
    unfold complete_conversation, abandon_conversation in Hend.
    destruct (negb (is_active c));
      [destruct Hend; discriminate |].
    destruct Hend as [Hend | Hend]; injection Hend as <-; simpl;
      split; (reflexivity || lia).
Qed.

Lemma conversation_lifecycle_guarded_witness :
  add_user_message closed_conversation "Hello" None 3000
  = Raise (ValueError inactive_message) /\
  complete_conversation closed_conversation 3000
  = Raise (ValueError already_inactive) /\
  (exists c1 e, complete_conversation fresh_conversation 2000 = Ok c1 /\
                ended_at c1 = Some e /\ started_at c1 <= e).
Proof.
  destruct (conversation_lifecycle_guarded
              closed_conversation (mkMessage USER "Hello" 3000 ∅)
              "Hello" None 3000) as (Hclosed & _ & _).
  destruct (Hclosed eq_refl) as (_ & _ & Hvalid & Hcomplete & _).
  destruct (Hvalid eq_refl) as [Huser _].
  destruct (conversation_lifecycle_guarded
              fresh_conversation (mkMessage USER "Hello" 3000 ∅)
              "Hello" None 2000) as (_ & Hopen & Hrun).
  destruct (Hopen eq_refl) as (c1 & _ & H1 & _).
  split; [exact Huser | split; [exact Hcomplete |]].
  assert (Hl : lifecycle 1000 fresh_conversation).
  { apply (lifecycle_create "CONV-0001" "U001" None). reflexivity. }
  destruct (Hrun 1000 Hl ltac:(lia) c1 (or_introl H1)) as (e & He & Hle).
  exists c1, e. auto.
Defined.

End LifecycleProps.

(** ** Sorting and slicing *)

Module SortProps.

Section Desc.

Context {A : Type}.

Lemma insert_desc_perm (x : A * Z) (l : list (A * Z)) :
  insert_desc x l ≡ₚ x :: l.
Proof.
  induction l as [| y t IH]; simpl; [reflexivity |].
  destruct (x.2 <? y.2); [| reflexivity].
  rewrite IH. apply Permutation_swap.
Qed.

Lemma sort_desc_perm (l : list (A * Z)) : sort_desc l ≡ₚ l.
Proof.
  induction l as [| x t IH]; simpl; [reflexivity |].
  rewrite insert_desc_perm, IH. reflexivity.
Qed.

Lemma insert_desc_sorted (x : A * Z) (l : list (A * Z)) :
  StronglySorted key_ge l -> StronglySorted key_ge (insert_desc x l).
Proof.
  induction l as [| y t IH]; simpl; intros Hs.
  - repeat constructor.
  - apply StronglySorted_cons in Hs as [Hy Ht].
    destruct (Z.ltb_spec x.2 y.2) as [Hlt | Hge].
    + apply StronglySorted_cons. split; [| auto].
      apply Forall_forall. intros z Hz.
      rewrite insert_desc_perm in Hz.
      apply elem_of_cons in Hz as [-> | Hz].
      * unfold key_ge. lia.
      * rewrite Forall_forall in Hy. auto.
    + apply StronglySorted_cons. split.
      * constructor; [exact Hge |].
        eapply Forall_impl; [exact Hy |].
        intros z Hz. unfold key_ge in *. lia.
      * apply StronglySorted_cons. auto.
Qed.

Lemma sort_desc_sorted (l : list (A * Z)) :
  StronglySorted key_ge (sort_desc l).
Proof.
  induction l as [| x t IH]; simpl.
  - constructor.
  - apply insert_desc_sorted, IH.
Qed.

(** In a descending list an earlier entry has the larger or equal key. *)
Lemma sorted_lookup_ge (l : list (A * Z)) (i j : nat) (a b : A * Z) :
  StronglySorted key_ge l -> (i < j)%nat ->
  l !! i = Some a -> l !! j = Some b -> b.2 <= a.2.
Proof.
  intros Hs Hij Ha Hb.
  rewrite <- (take_drop j l) in Hs.
  apply (StronglySorted_app_1_elem_of _ _ _ a b Hs).
  - apply list_elem_of_lookup. exists i. rewrite lookup_take_lt; auto.
  - apply list_elem_of_lookup. exists 0%nat. rewrite lookup_drop.
    rewrite Nat.add_0_r. exact Hb.
Qed.

(** An entry with a strictly larger key comes strictly earlier. *)
Lemma sorted_lookup_lt (l : list (A * Z)) (i j : nat) (a b : A * Z) :
  StronglySorted key_ge l ->
  l !! i = Some a -> l !! j = Some b -> b.2 < a.2 -> (i < j)%nat.
Proof.
  intros Hs Ha Hb Hlt.
  destruct (Nat.lt_trichotomy i j) as [H | [H | H]]; [exact H | |].
  - subst j. rewrite Ha in Hb. injection Hb as ->. lia.
  - pose proof (sorted_lookup_ge l j i b a Hs H Hb Ha). lia.
Qed.

End Desc.

(** Every slice [l[:k]] is a prefix of [l]. *)
Lemma slice_to_take {A} (k : Z) (l : list A) :
  exists n, slice_to k l = take n l.
Proof. unfold slice_to. destruct (0 <=? k); eauto. Qed.

Lemma slice_to_nonneg {A} (k : Z) (l : list A) :
  0 <= k -> slice_to k l = take (Z.to_nat k) l.
Proof.
  intros H. unfold slice_to.
  destruct (Z.leb_spec 0 k); [reflexivity | lia].
Qed.

End SortProps.

Import SortProps.

(** ** Personalized recommendation (product/service.py) *)

Module RecommendationProps.

Lemma feature_loop_count (p : Product) (fs : list string) (s0 : Z) :
  fold_left (fun s feature => if has_feature_keyword p feature then s + 3 else s)
            fs s0
  = s0 + 3 * Z.of_nat (length (List.filter (has_feature_keyword p) fs)).
Proof.
  revert s0. induction fs as [| f fs IH]; intros s0; simpl.
  - lia.
  - rewrite IH. destruct (has_feature_keyword p f); simpl length; lia.
Qed.

Lemma score_matches_spec (p : Product) (u : User) :
  _calculate_product_score_for_user p u = personalized_score_spec p u.
Proof.
  unfold _calculate_product_score_for_user, personalized_score_spec.
  destruct (is_within_budget p (budget_min u) (budget_max u)); [| reflexivity].
  unfold rating_bonus_spec, matched_features, bonus.
  destruct (Qle_bool (9 # 2) (rating p)), (Qle_bool (4 # 1) (rating p)),
    (is_on_sale p), (is_featured p);
    rewrite feature_loop_count;
    destruct (price p <=? budget_sweet_spot u),
      (is_interested_in_category u (category p)); lia.
Qed.

Lemma score_out_of_budget (p : Product) (u : User) :
  is_within_budget p (budget_min u) (budget_max u) = false ->
  _calculate_product_score_for_user p u = 0.
Proof.
  intros H. unfold _calculate_product_score_for_user. rewrite H. reflexivity.
Qed.

Lemma score_in_budget (p : Product) (u : User) :
  is_within_budget p (budget_min u) (budget_max u) = true ->
  10 <= _calculate_product_score_for_user p u.
Proof.
  intros H. rewrite score_matches_spec. unfold personalized_score_spec.
  rewrite H. unfold bonus, rating_bonus_spec.
  destruct (price p <=? budget_sweet_spot u),
    (is_interested_in_category u (category p)), (is_featured p),
    (is_on_sale p), (Qle_bool (9 # 2) (rating p)),
    (Qle_bool (4 # 1) (rating p)); lia.
Qed.

(** The ranked list holds exactly the available products, each with its
    score. *)
Lemma scored_products_elem (repo : Repository) (u : User) (p : Product) (s : Z) :
  (p, s) ∈ scored_products repo u <->
  p ∈ repo /\ is_available p = true /\
  s = _calculate_product_score_for_user p u.
Proof.
  unfold scored_products, get_available_products.
  rewrite sort_desc_perm, list_elem_of_In, in_map_iff.
  split.
  - intros (q & Hq & Hin). apply filter_In in Hin as [Hin Hav].
    injection Hq as -> <-. rewrite list_elem_of_In. auto.
  - intros (Hin & Hav & ->). exists p. split; [reflexivity |].
    apply filter_In. rewrite <- list_elem_of_In. auto.
Qed.

Lemma scored_products_sorted (repo : Repository) (u : User) :
  StronglySorted key_ge (scored_products repo u).
Proof. apply sort_desc_sorted. Qed.

(** A position of the result is the same position of the ranked list. *)
Lemma recommendation_lookup (repo : Repository) (u : User) (limit : Z)
      (i : nat) (p : Product) :
  get_recommendations_for_user repo u limit !! i = Some p ->
  slice_to limit (scored_products repo u) !! i
    = Some (p, _calculate_product_score_for_user p u) /\
  scored_products repo u !! i
    = Some (p, _calculate_product_score_for_user p u).
Proof.
  unfold get_recommendations_for_user. intros H.
  change (map fst ?l) with (fst <$> l) in H.
  apply list_lookup_fmap_Some in H as ([q s] & Hq & Hl). simpl in Hq. subst q.
  destruct (slice_to_take limit (scored_products repo u)) as [n Hn].
  assert (Hs : scored_products repo u !! i = Some (p, s)).
  { rewrite Hn in Hl. apply lookup_take_Some in Hl. tauto. }
  assert (s = _calculate_product_score_for_user p u) as ->.
  { apply (scored_products_elem repo u p s).
    apply list_elem_of_lookup. eauto. }
  auto.
Qed.

(** C1 (as the code has it): a product outside the persona's budget scores
    0 and a product inside it at least 10; whatever the limit, the result
    holds only available catalog products, every in-budget product in it
    stands before every out-of-budget one, and an out-of-budget product is
    in it only together with all available in-budget products. *)
Theorem out_of_budget_ranked_last
        (repo : Repository) (u : User) (limit : Z) :
  let inside p := is_within_budget p (budget_min u) (budget_max u) in
  let result := get_recommendations_for_user repo u limit in
  (forall p, inside p = false -> _calculate_product_score_for_user p u = 0) /\
  (forall p, inside p = true -> 10 <= _calculate_product_score_for_user p u) /\
  (forall p, p ∈ result -> p ∈ repo /\ is_available p = true) /\
  (forall i j p q, result !! i = Some p -> result !! j = Some q ->
                   inside p = true -> inside q = false -> (i < j)%nat) /\
  (forall q, q ∈ result -> inside q = false ->
             forall p, p ∈ repo -> is_available p = true -> inside p = true ->
                       p ∈ result).
Proof.
  intros inside result. subst inside result.
  split; [intros p; apply score_out_of_budget |].
  split; [intros p; apply score_in_budget |].
  assert (Hrank : forall i j p q,
             get_recommendations_for_user repo u limit !! i = Some p ->
             scored_products repo u !! j
               = Some (q, _calculate_product_score_for_user q u) ->
             is_within_budget q (budget_min u) (budget_max u) = true ->
             is_within_budget p (budget_min u) (budget_max u) = false ->
             (j < i)%nat).
  { intros i j p q Hp Hq Hin Hout.
    apply recommendation_lookup in Hp as [_ Hp].
    eapply (sorted_lookup_lt _ j i); eauto using scored_products_sorted.
    simpl. rewrite (score_out_of_budget p u Hout).
    pose proof (score_in_budget q u Hin). lia. }
  split; [| split].
  - intros p Hp. apply list_elem_of_lookup in Hp as [i Hi].
    apply recommendation_lookup in Hi as [_ Hi].
    assert (Hel : (p, _calculate_product_score_for_user p u)
                    ∈ scored_products repo u).
    { apply list_elem_of_lookup. eauto. }
    apply scored_products_elem in Hel. tauto.
  - intros i j p q Hp Hq Hin Hout.
    apply recommendation_lookup in Hp as [_ Hp]. eauto.
  - intros q Hq Hout p Hp Hav Hin.
    apply list_elem_of_lookup in Hq as [j Hj].
    assert (Hel : (p, _calculate_product_score_for_user p u)
                    ∈ scored_products repo u).
    { apply scored_products_elem. auto. }
    apply list_elem_of_lookup in Hel as [i Hi].
    pose proof (Hrank j i q p Hj Hi Hin Hout) as Hlt.
    apply list_elem_of_lookup. exists i.
    unfold get_recommendations_for_user in *.
    change (map fst ?l) with (fst <$> l) in *.
    rewrite list_lookup_fmap in *.
    destruct (slice_to_take limit (scored_products repo u)) as [n Hn].
    rewrite Hn in *.
    destruct (take n (scored_products repo u) !! j) as [x |] eqn:Ex;
      [| discriminate].
    apply lookup_take_Some in Ex as [_ Hjn].
    rewrite lookup_take_lt by lia. rewrite Hi. reflexivity.
Qed.

(** At limit 5 the sample catalog's recommendations for the sample persona
    end with the $600.00 laptop, which is outside the $100.00 to $500.00
    budget. *)
Lemma budget_gate_counterexample :
  ~ (forall p, p ∈ get_recommendations_for_user catalog persona 5 ->
               is_within_budget p (budget_min persona) (budget_max persona)
               = true).
Proof.
  intros H. specialize (H laptop).
  assert (Hin : laptop ∈ get_recommendations_for_user catalog persona 5).
  { change (laptop ∈ [headphones; headphones_sport; laptop]).
    do 2 apply list_elem_of_further. apply list_elem_of_here. }
  specialize (H Hin). vm_compute in H. discriminate.
Qed.

Lemma out_of_budget_ranked_last_witness :
  headphones ∈ get_recommendations_for_user catalog persona 5.
Proof.
  destruct (out_of_budget_ranked_last catalog persona 5)
    as (_ & _ & _ & _ & Hall).
  apply (Hall laptop).
  - change (laptop ∈ [headphones; headphones_sport; laptop]).
    do 2 apply list_elem_of_further. apply list_elem_of_here.
  - reflexivity.
  - unfold catalog. apply list_elem_of_further, list_elem_of_here.
  - reflexivity.
  - reflexivity.
Defined.

Lemma with_price_score (p : Product) (v : Z) (u : User) :
  personalized_score_spec (with_price p v) u
  = (if is_within_budget (with_price p v) (budget_min u) (budget_max u)
     then 10
          + bonus (v <=? budget_sweet_spot u) 5
          + bonus (is_interested_in_category u (category p)) 15
          + 3 * Z.of_nat (length (matched_features p u))
          + bonus (is_featured p) 2
          + bonus (is_on_sale p) 3
          + rating_bonus_spec (rating p)
     else 0).
Proof. reflexivity. Qed.

Lemma rating_bonus_high (r : Q) : (r == 46 # 10)%Q -> rating_bonus_spec r = 4.
Proof.
  intros H. unfold rating_bonus_spec.
  replace (Qle_bool (9 # 2) r) with true; [reflexivity |].
  symmetry. apply Qle_bool_iff. rewrite H. unfold Qle. simpl. lia.
Qed.

(** The $200.00 product of the specification's example scores 45, not 40,
    on the sample data, and its $350.00 twin 40, not 34. *)
Lemma scoring_example_counterexample :
  budget_min persona = 10000 /\ budget_max persona = 50000 /\
  budget_sweet_spot persona = 30000 /\ price headphones = 20000 /\
  is_interested_in_category persona (category headphones) = true /\
  length (matched_features headphones persona) = 2%nat /\
  is_featured headphones = true /\ is_on_sale headphones = true /\
  (rating headphones == 46 # 10)%Q /\
  _calculate_product_score_for_user headphones persona <> 40 /\
  _calculate_product_score_for_user (with_price headphones 35000) persona
  <> 34.
Proof.
  repeat split; try reflexivity; vm_compute; discriminate.
Qed.

(** C2 (as the code has it): for a persona with budget $100.00 to $500.00
    and sweet spot $300.00, a $200.00 product in an interesting category
    that matches two valued features, is featured, is on sale and is rated
    4.6 scores 10+5+15+6+2+3+4 = 45; the same product at $350.00 scores 40
    and stands after it in every recommendation list that holds both. *)
Theorem scoring_example (u : User) (p : Product) :
  budget_min u = 10000 -> budget_max u = 50000 ->
  budget_sweet_spot u = 30000 -> price p = 20000 ->
  is_interested_in_category u (category p) = true ->
  length (matched_features p u) = 2%nat ->
  is_featured p = true -> is_on_sale p = true ->
  (rating p == 46 # 10)%Q ->
  _calculate_product_score_for_user p u = 45 /\
  _calculate_product_score_for_user (with_price p 35000) u = 40 /\
  (forall repo limit i j,
      get_recommendations_for_user repo u limit !! i = Some p ->
      get_recommendations_for_user repo u limit !! j
        = Some (with_price p 35000) ->
      (i < j)%nat).
Proof.
  intros Hmin Hmax Hsweet Hprice Hcat Hfeat Hfeatured Hsale Hrating.
  assert (H1 : _calculate_product_score_for_user p u = 45).
  { rewrite score_matches_spec. unfold personalized_score_spec, is_within_budget.
    rewrite Hmin, Hmax, Hsweet, Hprice, Hcat, Hfeat, Hfeatured, Hsale.
    rewrite (rating_bonus_high _ Hrating). reflexivity. }
  assert (H2 : _calculate_product_score_for_user (with_price p 35000) u = 40).
  { rewrite score_matches_spec, with_price_score. unfold is_within_budget.
    simpl price.
    rewrite Hmin, Hmax, Hsweet, Hcat, Hfeat, Hfeatured, Hsale.
    rewrite (rating_bonus_high _ Hrating). reflexivity. }
  split; [exact H1 | split; [exact H2 |]].
  intros repo limit i j Hi Hj.
  apply recommendation_lookup in Hi as [_ Hi].
  apply recommendation_lookup in Hj as [_ Hj].
  eapply sorted_lookup_lt; eauto using scored_products_sorted.
  simpl. lia.
Qed.

Lemma scoring_example_witness :
  _calculate_product_score_for_user headphones persona = 45 /\
  _calculate_product_score_for_user (with_price headphones 35000) persona = 40 /\
  get_recommendations_for_user [with_price headphones 35000; headphones]
                               persona 2
  = [headphones; with_price headphones 35000].
Proof.
  destruct (scoring_example persona headphones) as (H1 & H2 & _);
    try reflexivity.
  split; [exact H1 | split; [exact H2 | reflexivity]].
Defined.

End RecommendationProps.


(** ** Similar products (product/service.py) *)

Module SimilarityProps.

Lemma PriceTier_eqb_sym (a b : PriceTier) : PriceTier_eqb a b = PriceTier_eqb b a.
Proof. destruct a, b; reflexivity. Qed.

Lemma same_text_sym (a b : string) : same_text a b = same_text b a.
Proof. unfold same_text. apply String.eqb_sym. Qed.

Lemma common_tags_sym (p1 p2 : Product) : common_tags p1 p2 = common_tags p2 p1.
Proof. unfold common_tags. apply (comm_L (∩)). Qed.

Lemma similarity_matches_spec (p1 p2 : Product) :
  _calculate_similarity_score p1 p2 = similarity_spec p1 p2.
Proof.
  unfold _calculate_similarity_score, similarity_spec, price_band_spec, bonus,
    matches_subcategory, matches_brand, matches_price_tier, same_text,
    common_tags.
  destruct (String.eqb (lower (subcategory p1)) (lower (subcategory p2))),
    (String.eqb (lower (brand p1)) (lower (brand p2))),
    (PriceTier_eqb (price_tier p1) (price_tier p2)),
    (Z.abs (price p1 - price p2) <? 5000),
    (Z.abs (price p1 - price p2) <? 10000),
    (Z.abs (price p1 - price p2) <? 20000); lia.
Qed.

(** C10: the similarity score does not depend on the order of the two
    products. *)
Theorem similarity_symmetric (p1 p2 : Product) :
  _calculate_similarity_score p1 p2 = _calculate_similarity_score p2 p1.
Proof.
  rewrite !similarity_matches_spec. unfold similarity_spec.
  rewrite (same_text_sym (subcategory p1)), (same_text_sym (brand p1)),
    (PriceTier_eqb_sym (price_tier p1)), (common_tags_sym p1).
  replace (Z.abs (price p1 - price p2)) with (Z.abs (price p2 - price p1))
    by lia.
  reflexivity.
Qed.

Lemma similar_candidates_spec (product : Product) (ps : list Product) :
  map fst (similar_candidates product ps)
  = List.filter (fun p => same_text (category p) (category product)
                          && negb (String.eqb (product_id p)
                                              (product_id product)))
                ps.
Proof.
  induction ps as [| p ps IH]; simpl; [reflexivity |].
  unfold matches_category, same_text in *.
  destruct (String.eqb (product_id p) (product_id product)); simpl.
  - rewrite andb_false_r. exact IH.
  - rewrite andb_true_r.
    destruct (String.eqb (lower (category p)) (lower (category product)));
      simpl; rewrite IH; reflexivity.
Qed.

Lemma similar_candidates_score (product : Product) (ps : list Product)
      (p : Product) (s : Z) :
  (p, s) ∈ similar_candidates product ps ->
  s = _calculate_similarity_score product p.
Proof.
  induction ps as [| q ps IH]; simpl; intros H.
  - inversion H.
  - destruct (String.eqb (product_id q) (product_id product)); [auto |].
    destruct (matches_category q (category product)); [| auto].
    apply elem_of_cons in H as [H | H]; [congruence | auto].
Qed.

Lemma filter_filter_andb {A} (f g : A -> bool) (l : list A) :
  List.filter g (List.filter f l) = List.filter (fun x => f x && g x) l.
Proof.
  induction l as [| x l IH]; simpl; [reflexivity |].
  destruct (f x); simpl; [destruct (g x) |]; rewrite ?IH; reflexivity.
Qed.

Lemma candidates_matches_spec (repo : Repository) (product : Product) :
  map fst (similar_candidates product (get_available_products repo))
  = candidates_spec repo product.
Proof.
  rewrite similar_candidates_spec. unfold get_available_products, candidates_spec.
  rewrite filter_filter_andb.
  apply List.filter_ext. intros p. apply andb_assoc.
Qed.

(** Two sample products that share subcategory, brand and exactly two tags,
    and also the price tier, score 30, not 19 plus the price-band bonus 8. *)
Lemma similarity_example_counterexample :
  matches_subcategory headphones (subcategory headphones_sport) = true /\
  matches_brand headphones (brand headphones_sport) = true /\
  size (common_tags headphones headphones_sport) = 2%nat /\
  _calculate_similarity_score headphones headphones_sport
  <> 19 + price_band_spec (Z.abs (price headphones - price headphones_sport)).
Proof.
  repeat split; try reflexivity. vm_compute. discriminate.
Qed.

(** C3 (as the code has it): the candidates are the available products of
    the same category other than the product itself, each scored against
    it, and the returned products are drawn from them; the score is the sum
    of +10 for the same subcategory, +5 for the same brand, the price-band
    bonus (8 below $50, else 5 below $100, else 2 below $200, else 0),
    +3 for the same price tier and +2 per common tag; two products sharing
    subcategory, brand and exactly two common tags score 19 plus the
    price-band bonus, plus 3 when they share the price tier as well. *)
Theorem similarity_scoring
        (repo : Repository) (product p1 p2 : Product) (limit : Z) :
  let diff := Z.abs (price p1 - price p2) in
  map fst (similar_candidates product (get_available_products repo))
    = candidates_spec repo product /\
  (forall p s, (p, s) ∈ similar_candidates product (get_available_products repo)
               -> s = _calculate_similarity_score product p) /\
  (forall p, p ∈ get_similar_products repo product limit ->
             p ∈ candidates_spec repo product) /\
  _calculate_similarity_score p1 p2 = similarity_spec p1 p2 /\
  (diff < 5000 -> price_band_spec diff = 8) /\
  (5000 <= diff < 10000 -> price_band_spec diff = 5) /\
  (10000 <= diff < 20000 -> price_band_spec diff = 2) /\
  (20000 <= diff -> price_band_spec diff = 0) /\
  (matches_subcategory p1 (subcategory p2) = true ->
   matches_brand p1 (brand p2) = true ->
   size (common_tags p1 p2) = 2%nat ->
   _calculate_similarity_score p1 p2
   = 19 + price_band_spec diff
     + bonus (matches_price_tier p1 (price_tier p2)) 3).
Proof.
  intros diff.
  split; [apply candidates_matches_spec |].
  split; [intros p s; apply similar_candidates_score |].
  split.
  { intros p Hp. rewrite <- candidates_matches_spec.
    unfold get_similar_products in Hp.
    destruct (slice_to_take limit
                (sort_desc (similar_candidates
                              product (get_available_products repo))))
      as [n Hn].
    rewrite Hn in Hp.
    change (map fst ?l) with (fst <$> l) in *.
    apply list_elem_of_fmap in Hp as (x & -> & Hx).
    apply list_elem_of_fmap. exists x. split; [reflexivity |].
    rewrite <- (sort_desc_perm (similar_candidates _ _)).
    eapply elem_of_sublist; [exact Hx | apply sublist_take]. }
  split; [apply similarity_matches_spec |].
  assert (Hbands : forall d,
             (d < 5000 -> price_band_spec d = 8) /\
             (5000 <= d < 10000 -> price_band_spec d = 5) /\
             (10000 <= d < 20000 -> price_band_spec d = 2) /\
             (20000 <= d -> price_band_spec d = 0)).
  { intros d. unfold price_band_spec.
    destruct (Z.ltb_spec d 5000), (Z.ltb_spec d 10000), (Z.ltb_spec d 20000);
      repeat split; intros; lia. }
  destruct (Hbands diff) as (B1 & B2 & B3 & B4).
  do 4 (split; [assumption |]).
  intros Hsub Hbrand Htags.
  rewrite similarity_matches_spec. unfold similarity_spec.
  unfold matches_subcategory, matches_brand, matches_price_tier in *.
  unfold same_text. fold diff.
  rewrite Hsub, Hbrand, Htags. unfold bonus. simpl.
  destruct (PriceTier_eqb (price_tier p1) (price_tier p2)); lia.
Qed.

Lemma similarity_scoring_witness :
  _calculate_similarity_score headphones headphones_sport = 19 + 8 + 3 /\
  get_similar_products catalog headphones 3 = [headphones_sport].
Proof.
  destruct (similarity_scoring catalog headphones headphones headphones_sport 3)
    as (_ & _ & _ & _ & Hband & _ & _ & _ & Hex).
  split; [| reflexivity].
  rewrite Hex by reflexivity.
  rewrite Hband by (vm_compute; reflexivity).
  reflexivity.
Defined.

End SimilarityProps.

(** ** Category retrieval (product/service.py) *)

Module CategoryProps.

Lemma extend_loop_concat {A B} (f : B -> list A) (cs : list B) (acc : list A) :
  fold_left (fun acc c => acc ++ f c) cs acc = acc ++ concat (map f cs).
Proof.
  revert acc. induction cs as [| c cs IH]; intros acc; simpl.
  - rewrite app_nil_r. reflexivity.
  - rewrite IH, app_assoc. reflexivity.
Qed.

Lemma all_matches_spec (repo : Repository) (categories : list string) :
  get_products_by_categories repo categories None
  = category_matches_spec repo categories.
Proof.
  unfold get_products_by_categories, category_matches_spec.
  rewrite extend_loop_concat. reflexivity.
Qed.

Lemma limited_matches (repo : Repository) (categories : list string) (k : Z) :
  get_products_by_categories repo categories (Some k)
  = if k =? 0 then category_matches_spec repo categories
    else slice_to k (category_matches_spec repo categories).
Proof.
  rewrite <- all_matches_spec. reflexivity.
Qed.

Lemma category_matches_app (repo : Repository) (cs1 cs2 : list string) :
  category_matches_spec repo (cs1 ++ cs2)
  = category_matches_spec repo cs1 ++ category_matches_spec repo cs2.
Proof.
  unfold category_matches_spec.
  rewrite map_app, concat_app, List.filter_app. reflexivity.
Qed.

Lemma category_matches_elem (repo : Repository) (cs : list string) (p : Product) :
  p ∈ category_matches_spec repo cs <->
  p ∈ repo /\ is_available p = true /\
  exists c, c ∈ cs /\ matches_category p c = true.
Proof.
  unfold category_matches_spec.
  rewrite list_elem_of_In, filter_In, in_concat.
  split.
  - intros [(l & Hl & Hp) Hav]. apply in_map_iff in Hl as (c & <- & Hc).
    apply filter_In in Hp as [Hp Hm].
    rewrite !list_elem_of_In.
    split; [exact Hp | split; [exact Hav |]].
    exists c. split; [apply list_elem_of_In, Hc | exact Hm].
  - intros (Hp & Hav & c & Hc & Hm). split; [| exact Hav].
    exists (List.filter (fun p => same_text (category p) c) repo). split.
    + apply in_map_iff. exists c. split; [reflexivity |].
      apply list_elem_of_In, Hc.
    + apply filter_In. rewrite <- list_elem_of_In. split; [exact Hp | exact Hm].
Qed.

(** With limit 0 the sample catalog's audio products are all returned; the
    list is not cut to zero entries. *)
Lemma category_limit_counterexample :
  get_products_by_categories catalog ["audio"] (Some 0)
  <> truncated_spec (Some 0) (category_matches_spec catalog ["audio"]).
Proof. vm_compute. discriminate. Qed.

(** C9 (as the code has it): the result is drawn from the per-category
    match lists in request order, one after the other and restricted to
    available products, so a product matched by two requested categories
    is listed twice; without a limit, or with limit 0, the whole list is
    returned; with a positive limit its first [limit] entries are. *)
Theorem category_retrieval
        (repo : Repository) (categories : list string) (limit : option Z) :
  let all := category_matches_spec repo categories in
  let result := get_products_by_categories repo categories limit in
  (limit = None \/ limit = Some 0 -> result = all) /\
  (forall k, limit = Some k -> 0 < k ->
             result = take (Z.to_nat k) all /\
             Z.of_nat (length result) <= k) /\
  (exists n, result = take n all) /\
  (forall p, p ∈ result ->
             p ∈ repo /\ is_available p = true /\
             exists c, c ∈ categories /\ matches_category p c = true) /\
  (forall cs1 cs2, categories = cs1 ++ cs2 ->
                   all = category_matches_spec repo cs1
                         ++ category_matches_spec repo cs2) /\
  (forall c, categories = [c; c] ->
             all = category_matches_spec repo [c]
                   ++ category_matches_spec repo [c]).
Proof.
  intros all result. subst all result.
  assert (Hprefix : exists n,
             get_products_by_categories repo categories limit
             = take n (category_matches_spec repo categories)).
  { destruct limit as [k |].
    - rewrite limited_matches. destruct (k =? 0).
      + exists (length (category_matches_spec repo categories)).
        rewrite firstn_all. reflexivity.
      + apply slice_to_take.
    - rewrite all_matches_spec.
      exists (length (category_matches_spec repo categories)).
      rewrite firstn_all. reflexivity. }
  split; [| split; [| split; [exact Hprefix | split; [| split]]]].
  - intros [-> | ->]; [apply all_matches_spec |].
    rewrite limited_matches. reflexivity.
  - intros k -> Hk. rewrite limited_matches.
    destruct (Z.eqb_spec k 0) as [E | _]; [lia |].
    rewrite slice_to_nonneg by lia. split; [reflexivity |].
    rewrite length_take. lia.
  - intros p Hp. destruct Hprefix as [n Hn]. rewrite Hn in Hp.
    apply category_matches_elem.
    eapply elem_of_sublist; [exact Hp | apply sublist_take].
  - intros cs1 cs2 ->. apply category_matches_app.
  - intros c ->. apply (category_matches_app repo [c] [c]).
Qed.

Lemma category_retrieval_witness :
  get_products_by_categories catalog ["audio"; "AUDIO"] (Some 3)
  = [headphones; headphones_sport; headphones] /\
  get_products_by_categories catalog ["audio"; "AUDIO"] (Some 0)
  = [headphones; headphones_sport; headphones; headphones_sport].
Proof.
  destruct (category_retrieval catalog ["audio"; "AUDIO"] (Some 3))
    as (_ & Hpos & _).
  destruct (category_retrieval catalog ["audio"; "AUDIO"] (Some 0))
    as (Hzero & _).
  split.
  - destruct (Hpos 3 eq_refl) as [-> _]; [lia | reflexivity].
  - rewrite Hzero by (right; reflexivity). reflexivity.
Defined.

End CategoryProps.

(** ** Retrying the provider call (llm/service.py) *)

Module RetryProps.

Lemma reply_outcome_cases (r : Reply) :
  (exists text, reply_outcome r = Ok text) \/
  (exists m, reply_outcome r = Raise (LLMServiceError m)).
Proof.
  destruct r as [[| [text |] ?] | | | | |]; simpl; unfold api_error; eauto.
  destruct (is_empty text); eauto.
Qed.

Lemma call_openai_api_eq (messages : list (string * string)) (w : World) :
  _call_openai_api messages w = (reply_outcome (next_reply w), sent messages w).
Proof. reflexivity. Qed.

(** One turn of the loop, by what the call does. *)
Lemma retry_step_ok max messages attempt rest last w text :
  reply_outcome (next_reply w) = Ok text ->
  retry_loop max messages (attempt :: rest) last w
  = (Ok text, sent messages w).
Proof.
  intros H. cbn [retry_loop]. rewrite call_openai_api_eq, H. reflexivity.
Qed.

Lemma retry_step_again max messages attempt rest last w m :
  reply_outcome (next_reply w) = Raise (LLMServiceError m) ->
  attempt < max ->
  retry_loop max messages (attempt :: rest) last w
  = retry_loop max messages rest (Some m)
               (time_sleep (wait_spec attempt m) (sent messages w)).
Proof.
  intros H Hlt. cbn [retry_loop]. rewrite call_openai_api_eq, H.
  unfold wait_spec.
  replace (attempt <? max) with true by (symmetry; apply Z.ltb_lt; exact Hlt).
  destruct (mentions_rate_limit m); reflexivity.
Qed.

Lemma retry_step_last max messages attempt rest last w m :
  reply_outcome (next_reply w) = Raise (LLMServiceError m) ->
  max <= attempt ->
  retry_loop max messages (attempt :: rest) last w
  = (Raise (LLMServiceError m), sent messages w).
Proof.
  intros H Hge. cbn [retry_loop]. rewrite call_openai_api_eq, H.
  replace (attempt <? max) with false by (symmetry; apply Z.ltb_ge; exact Hge).
  rewrite andb_false_r. reflexivity.
Qed.

Lemma ends_at_range_from (max : Z) (k a : nat) :
  Z.of_nat (a + k) = max + 1 -> ends_at max (map Z.of_nat (seq a k)).
Proof.
  revert a. induction k as [| k IH]; intros a Hak; simpl; [exact I |].
  destruct k as [| k]; simpl.
  - lia.
  - split; [lia |]. apply (IH (S a)). lia.
Qed.

Lemma ends_at_attempt_range (max : Z) : ends_at max (attempt_range max).
Proof.
  unfold attempt_range.
  destruct (Z.to_nat max) as [| n] eqn:E; [exact I |].
  apply ends_at_range_from. lia.
Qed.

Lemma attempt_range_lookup (max : Z) (i : nat) (a : Z) :
  attempt_range max !! i = Some a -> a = Z.of_nat i + 1.
Proof.
  unfold attempt_range. change (map ?f ?l) with (f <$> l).
  rewrite list_lookup_fmap. intros H.
  destruct (seq 1 (Z.to_nat max) !! i) as [n |] eqn:E; [| discriminate].
  apply lookup_seq in E as [-> _]. injection H as <-. lia.
Qed.

Lemma attempt_range_length (max : Z) :
  length (attempt_range max) = Z.to_nat max.
Proof. unfold attempt_range. rewrite length_map, length_seq. reflexivity. Qed.

Lemma loop_trace_single messages a rest w :
  loop_trace messages (a :: rest) w (sent messages w) 1 [].
Proof.
  unfold loop_trace, sent. simpl. rewrite !app_nil_r.
  repeat split; auto; try lia. intros i t H. discriminate.
Qed.

Lemma retry_loop_trace max messages attempts last w :
  ends_at max attempts ->
  exists n pauses,
    loop_trace messages attempts w
               (retry_loop max messages attempts last w).2 n pauses.
Proof.
  revert last w. induction attempts as [| a rest IH]; intros last w Hends.
  - exists 0%nat, []. unfold loop_trace. simpl. rewrite !app_nil_r.
    repeat split; auto; try lia. intros i t H. discriminate.
  - destruct (reply_outcome_cases (next_reply w)) as [[text Hok] | [m Hm]].
    + rewrite (retry_step_ok _ _ _ _ _ _ _ Hok).
      exists 1%nat, []. apply loop_trace_single.
    + destruct rest as [| b rest'].
      * simpl in Hends. rewrite (retry_step_last _ _ _ _ _ _ _ Hm Hends).
        exists 1%nat, []. apply loop_trace_single.
      * destruct Hends as [Hlt Hends].
        rewrite (retry_step_again _ _ _ _ _ _ _ Hm Hlt).
        set (w1 := time_sleep (wait_spec a m) (sent messages w)).
        destruct (IH (Some m) w1 Hends)
          as (n & pauses & Hn & Hn1 & Hreq & Hsl & Hprov & Hclk & Hlen & Hp).
        destruct Hn1 as [Hnil | Hn1]; [discriminate |].
        exists (S n), (wait_spec a m :: pauses).
        unfold loop_trace.
        split; [cbn [length] in *; lia |].
        split; [right; lia |].
        split.
        { rewrite Hreq. subst w1. unfold sent. simpl.
          rewrite <- app_assoc. reflexivity. }
        split.
        { rewrite Hsl. subst w1. unfold sent. simpl.
          rewrite <- app_assoc. reflexivity. }
        split; [rewrite Hprov; reflexivity |].
        split.
        { rewrite Hclk. subst w1. unfold sent. simpl. lia. }
        split; [simpl; lia |].
        intros [| i] t Ht.
        -- simpl in Ht. injection Ht as <-. exists a, m.
           rewrite Nat.add_0_r. auto.
        -- simpl in Ht. destruct (Hp i t Ht) as (a' & m' & Ha & Hr & ->).
           exists a', m'. split; [exact Ha |]. split; [| reflexivity].
           rewrite <- Hr. subst w1. unfold sent. simpl.
           rewrite length_app. simpl.
           replace (length (requests w) + 1 + i)%nat
             with (length (requests w) + S i)%nat by lia.
           reflexivity.
Qed.

Lemma next_reply_after_pause messages w t :
  next_reply (time_sleep t (sent messages w))
  = provider w (length (requests w) + 1).
Proof.
  unfold next_reply, time_sleep, sent. simpl. rewrite length_app. reflexivity.
Qed.

Lemma wait_spec_values (a : Z) (m : string) :
  (mentions_rate_limit m = false -> wait_spec a m = 1000 * 2 ^ a) /\
  (mentions_rate_limit m = true -> wait_spec a m = 1000 * 2 ^ a + 500 * a).
Proof.
  unfold wait_spec, backoff_wait, rate_limit_wait.
  split; intros ->; reflexivity.
Qed.

(** C6: the retry wrapper sends at most [max_retries] requests and pauses
    after each failed one but the last, for 2^attempt seconds, plus half a
    second per attempt when the failure reports a rate limit; with
    [max_retries = 3], two failures and then an answer give the answer
    after the two pauses of the formula (six seconds in all when neither
    failure is a rate limit), and three failures raise the third failure's
    service error after the same two pauses. *)
Theorem retry_policy {cfg : Settings} (messages : list (string * string))
        (w : World) :
  let run := _call_openai_api_with_retry messages w in
  let reply i := reply_outcome (provider w (length (requests w) + i)) in
  (exists n pauses,
      Z.of_nat n <= Z.max 0 max_retries /\
      requests run.2 = requests w ++ repeat messages n /\
      slept run.2 = slept w ++ pauses /\
      clock run.2 = clock w + total pauses /\
      length pauses = pred n /\
      (forall i t, pauses !! i = Some t ->
                   exists m, reply i = Raise (LLMServiceError m) /\
                             t = wait_spec (Z.of_nat i + 1) m /\
                             1000 * 2 ^ (Z.of_nat i + 1) <= t)) /\
  (max_retries = 3 ->
   forall m1 m2,
     reply 0%nat = Raise (LLMServiceError m1) ->
     reply 1%nat = Raise (LLMServiceError m2) ->
     (forall text,
         reply 2%nat = Ok text ->
         run.1 = Ok text /\
         slept run.2 = slept w ++ [wait_spec 1 m1; wait_spec 2 m2] /\
         (mentions_rate_limit m1 = false -> mentions_rate_limit m2 = false ->
          total [wait_spec 1 m1; wait_spec 2 m2] = 1000 * (2 + 4))) /\
     (forall m3,
         reply 2%nat = Raise (LLMServiceError m3) ->
         run.1 = Raise (LLMServiceError m3) /\
         requests run.2 = requests w ++ [messages; messages; messages] /\
         slept run.2 = slept w ++ [wait_spec 1 m1; wait_spec 2 m2])).
Proof.
  intros run reply. subst run reply. split.
  - unfold _call_openai_api_with_retry.
    destruct (retry_loop_trace max_retries messages (attempt_range max_retries)
                               None w (ends_at_attempt_range max_retries))
      as (n & pauses & Hn & _ & Hreq & Hsl & _ & Hclk & Hlen & Hp).
    exists n, pauses. rewrite attempt_range_length in Hn.
    split; [lia |]. repeat (split; [assumption |]).
    intros i t Ht. destruct (Hp i t Ht) as (a & m & Ha & Hr & ->).
    apply attempt_range_lookup in Ha. subst a.
    exists m. split; [exact Hr | split; [reflexivity |]].
    destruct (wait_spec_values (Z.of_nat i + 1) m) as [Hplain Hrate].
    destruct (mentions_rate_limit m); [rewrite Hrate | rewrite Hplain];
      auto; lia.
  - intros Hmax m1 m2 H1 H2.
    rewrite Nat.add_0_r in H1. fold (next_reply w) in H1.
    unfold _call_openai_api_with_retry. rewrite Hmax.
    change (attempt_range 3) with [1; 2; 3].
    rewrite (retry_step_again _ _ _ _ _ _ _ H1) by lia.
    set (w1 := time_sleep (wait_spec 1 m1) (sent messages w)).
    assert (H2' : reply_outcome (next_reply w1) = Raise (LLMServiceError m2)).
    { subst w1. rewrite next_reply_after_pause. exact H2. }
    rewrite (retry_step_again _ _ _ _ _ _ _ H2') by lia.
    set (w2 := time_sleep (wait_spec 2 m2) (sent messages w1)).
    assert (Hnext : next_reply w2 = provider w (length (requests w) + 2)).
    { subst w2. rewrite next_reply_after_pause. subst w1.
      unfold time_sleep, sent. simpl. rewrite length_app. simpl.
      f_equal. lia. }
    split.
    + intros text H3. rewrite <- Hnext in H3.
      rewrite (retry_step_ok _ _ _ _ _ _ _ H3).
      split; [reflexivity |]. split.
      * subst w2 w1. unfold sent, time_sleep. simpl.
        rewrite <- app_assoc. reflexivity.
      * intros R1 R2.
        destruct (wait_spec_values 1 m1) as [E1 _].
        destruct (wait_spec_values 2 m2) as [E2 _].
        rewrite (E1 R1), (E2 R2). reflexivity.
    + intros m3 H3. rewrite <- Hnext in H3.
      rewrite (retry_step_last _ _ _ _ _ _ _ H3) by lia.
      split; [reflexivity |]. split.
      * subst w2 w1. unfold sent, time_sleep. simpl.
        rewrite <- !app_assoc. reflexivity.
      * subst w2 w1. unfold sent, time_sleep. simpl.
        rewrite <- app_assoc. reflexivity.
Qed.

Lemma retry_policy_witness :
  (@_call_openai_api_with_retry settings [("user", "Hello")]
                                (world_of provider_third_time)).1
  = Ok "Hello!" /\
  slept (@_call_openai_api_with_retry settings [("user", "Hello")]
                                      (world_of provider_third_time)).2
  = [2000; 5000] /\
  (@_call_openai_api_with_retry settings [("user", "Hello")]
                                (world_of provider_down)).1
  = Raise (LLMServiceError "API connection error: Connection error 2").
Proof.
  destruct (@retry_policy settings [("user", "Hello")]
                          (world_of provider_third_time)) as [_ Hthird].
  destruct (Hthird eq_refl "API request timed out: Request timed out."
                   "Rate limit exceeded: 429" eq_refl eq_refl)
    as [Hok _].
  destruct (Hok "Hello!" eq_refl) as (Hres & Hslept & _).
  destruct (@retry_policy settings [("user", "Hello")]
                          (world_of provider_down)) as [_ Hdown].
  destruct (Hdown eq_refl "API connection error: Connection error 0"
                  "API connection error: Connection error 1"
                  eq_refl eq_refl)
    as [_ Hfail].
  destruct (Hfail "API connection error: Connection error 2" eq_refl)
    as (Hraise & _).
  split; [exact Hres | split; [exact Hslept | exact Hraise]].
Defined.

End RetryProps.

(** ** Processing a user turn (conversation/service.py) *)

Module TurnProps.

Section Turn.

Context {cfg : Settings} {pb : Prompts}.

Lemma add_user_message_active (c : Conversation) (text : string) (now : Z) :
  is_active c = true -> is_blank text = false ->
  add_user_message c text None now
  = Ok (mkMessage USER text now ∅,
        with_messages c (messages c ++ [mkMessage USER text now ∅])).
Proof.
  intros Hc Ht.
  unfold add_user_message, create_user_message, MessageSchema_init.
  rewrite Ht. simpl. unfold add_message. rewrite Hc. reflexivity.
Qed.

Lemma generate_response_failure (c : Conversation) (u : User)
      (shown : list Product) (stage : string) (w w' : World) (cause : exn) :
  _call_openai_api_with_retry
    (_prepare_messages (build_system_prompt u shown stage) c) w
  = (Raise cause, w') ->
  generate_response c u shown stage w
  = (Raise (LLMServiceError
              ("Unexpected error generating response: " ++ str cause)%string),
     w').
Proof.
  intros H. unfold generate_response. rewrite H. reflexivity.
Qed.

(** C7: on an active conversation and a valid text, when the provider call
    that generates the reply for the selected products fails,
    [process_user_message] raises a [ConversationServiceError] whose
    message carries the failure's message, and leaves the conversation
    with the user message appended and nothing else changed: no assistant
    message is added. *)
Theorem llm_failure_keeps_conversation
        (repo : Repository) (c : Conversation) (u : User) (text : string)
        (w : World) :
  is_active c = true -> is_blank text = false ->
  let user_message := mkMessage USER text (clock w) ∅ in
  let c1 := with_messages c (messages c ++ [user_message]) in
  let ia := (analyze_user_intent text w).1 in
  let w1 := (analyze_user_intent text w).2 in
  let stage := _determine_conversation_stage ia in
  forall shown cause w2,
    _get_relevant_products repo u ia = Ok shown ->
    _call_openai_api_with_retry
      (_prepare_messages (build_system_prompt u shown stage) c1) w1
    = (Raise cause, w2) ->
    process_user_message repo c u text w
    = (Raise (ConversationServiceError
                ("LLM service error: "
                 ++ "Unexpected error generating response: "
                 ++ str cause)%string), c1, w2) /\
    messages c1 = messages c ++ [user_message] /\
    List.filter is_from_assistant (messages c1)
    = List.filter is_from_assistant (messages c) /\
    ConversationModel.status c1 = ConversationModel.status c /\
    started_at c1 = started_at c /\ ended_at c1 = ended_at c.
Proof.
  intros Hc Ht user_message c1 ia w1 stage shown cause w2 Hshown Hfail.
  split; [| split; [reflexivity | split; [| auto]]].
  - unfold process_user_message.
    rewrite (add_user_message_active c text (clock w) Hc Ht).
    fold user_message. fold c1.
    subst stage ia w1.
    destruct (analyze_user_intent text w) as [ia w1].
    simpl in Hfail, Hshown. rewrite Hshown.
    rewrite (generate_response_failure _ _ _ _ _ _ _ Hfail).
    reflexivity.
  - subst c1. simpl. rewrite List.filter_app. simpl. apply app_nil_r.
Qed.

(** Whatever the outcome, the conversation a turn leaves behind differs
    from the one it found only by messages appended at the end: nothing
    when the user message is refused (blank text or inactive conversation)
    and the user message otherwise, followed, exactly when the turn
    succeeds, by one assistant message that holds the reply returned; a
    turn fails with [ConversationServiceError] only, and when the products
    cannot be selected it fails after the classification, before any
    generation request. *)
Lemma process_user_message_appends
      (repo : Repository) (c : Conversation) (u : User) (text : string)
      (w : World) :
  let run := process_user_message repo c u text w in
  let user_message := mkMessage USER text (clock w) ∅ in
  let ia := (analyze_user_intent text w).1 in
  let w1 := (analyze_user_intent text w).2 in
  (exists added,
      run.1.2 = with_messages c (messages c ++ added) /\
      (added = [] <-> is_blank text = true \/ is_active c = false) /\
      match run.1.1 with
      | Ok reply =>
          exists shown,
            _get_relevant_products repo u ia = Ok shown /\
            added = [user_message;
                     mkMessage ASSISTANT reply (clock run.2)
                               (reply_metadata
                                  (_determine_conversation_stage ia) ia shown)]
      | Raise (ConversationServiceError _) =>
          added = [] \/ added = [user_message]
      | Raise _ => False
      end) /\
  (forall e, is_blank text = false -> is_active c = true ->
             _get_relevant_products repo u ia = Raise e ->
             run = (Raise (ConversationServiceError
                             ("Failed to process user message: "
                              ++ str e)%string),
                    with_messages c (messages c ++ [user_message]), w1)).
Proof.
  intros run user_message ia w1. subst run ia w1.
  unfold process_user_message.
  destruct (add_user_message c text None (clock w)) as [[m c1] | e] eqn:Hadd.
  - unfold add_user_message, create_user_message, MessageSchema_init in Hadd.
    destruct (is_blank text) eqn:Hblank; [discriminate |]. simpl in Hadd.
    unfold add_message in Hadd.
    destruct (is_active c) eqn:Hact; [| discriminate].
    simpl in Hadd. injection Hadd as <- <-. fold user_message.
    destruct (analyze_user_intent text w) as [ia w1]. cbn [fst snd].
    assert (Hnot : forall added : list MessageSchema,
               added <> [] ->
               added = [] <-> false = true \/ true = false).
    { intros added Hne. split; [intros E; congruence |].
      intros [E | E]; discriminate. }
    destruct (_get_relevant_products repo u ia) as [shown | e] eqn:Hshown.
    + split; [| intros e _ _ E; discriminate].
      destruct (generate_response _ u shown _ w1) as [[reply | e] w2].
      * unfold add_assistant_message, create_assistant_message,
          MessageSchema_init.
        destruct (is_blank reply).
        -- simpl. exists [user_message].
           split; [reflexivity | split; [apply Hnot; discriminate |]].
           right. reflexivity.
        -- cbn [bind]. unfold add_message.
           change (is_active (with_messages c ?ms)) with (is_active c).
           rewrite Hact. cbn [bind fst snd negb].
           eexists [_; _].
           split; [unfold with_messages; simpl; rewrite <- app_assoc;
                   reflexivity |].
           split; [apply Hnot; discriminate |].
           exists shown. split; reflexivity.
      * simpl. exists [user_message].
        split; [reflexivity | split; [apply Hnot; discriminate |]].
        destruct e; simpl; right; reflexivity.
    + split.
      * simpl. exists [user_message].
        split; [reflexivity | split; [apply Hnot; discriminate |]].
        destruct e; simpl; right; reflexivity.
      * intros e' _ _ E. injection E as <-.
        unfold _get_relevant_products in Hshown.
        assert (He : e = InvalidOperation).
        { destruct (budget_given (intent_budget ia)) as [b |];
            [| discriminate].
          revert Hshown. generalize (match intent_categories ia with
                                     | [] => get_recommendations_for_user
                                               repo u
                                               product_recommendation_limit
                                     | _ :: _ =>
                                         get_products_by_categories
                                           repo (intent_categories ia)
                                           (Some product_recommendation_limit)
                                     end).
          intros l. revert e. induction l as [| x l IH]; intros e;
            [discriminate |].
          cbn [comprehension]. destruct b as [q | n |]; cbn [price_within].
          - destruct (comprehension (price_within (Finite q)) l) eqn:E;
              [discriminate |].
            intros H. injection H as <-. apply (IH e0). reflexivity.
          - destruct (comprehension (price_within (Infinity n)) l) eqn:E;
              [discriminate |].
            intros H. injection H as <-. apply (IH e0). reflexivity.
          - intros H. injection H as <-. reflexivity. }
        subst e. reflexivity.
  - split.
    + simpl. exists []. destruct c; unfold with_messages; simpl.
      rewrite app_nil_r. split; [reflexivity |].
      split.
      * split; [intros _ | reflexivity].
        unfold add_user_message, create_user_message, MessageSchema_init
          in Hadd.
        destruct (is_blank text); [left; reflexivity |]. simpl in Hadd.
        unfold add_message in Hadd. simpl in Hadd.
        destruct (is_active _); [discriminate | right; reflexivity].
      * destruct e; simpl; left; reflexivity.
    + intros e' Hb Ha _.
      unfold add_user_message, create_user_message, MessageSchema_init
        in Hadd.
      rewrite Hb in Hadd. simpl in Hadd. unfold add_message in Hadd.
      rewrite Ha in Hadd. discriminate.
Qed.

End Turn.

Lemma llm_failure_keeps_conversation_witness :
  (@process_user_message settings prompts catalog fresh_conversation persona
                         "Do you have headphones?"
                         (world_of provider_down_after_first)).1
  = (Raise (ConversationServiceError
              ("LLM service error: "
               ++ "Unexpected error generating response: "
               ++ "API connection error: Connection error.")%string),
     with_messages fresh_conversation
                   [mkMessage USER "Do you have headphones?" 1000 ∅]).
Proof.
  pose proof (@llm_failure_keeps_conversation
                settings prompts catalog fresh_conversation persona
                "Do you have headphones?"
                (world_of provider_down_after_first) eq_refl eq_refl)
    as H.
  cbv zeta in H.
  edestruct (fun shown =>
               H shown (LLMServiceError
                          "API connection error: Connection error."))
    as [Heq _].
  - vm_compute. reflexivity.
  - vm_compute. reflexivity.
  - rewrite Heq. reflexivity.
Defined.

Lemma process_user_message_appends_witness :
  (@process_user_message settings parsing_prompts catalog fresh_conversation
                         persona "Anything cheap?" (world_of provider_nan)).1
  = (Raise (ConversationServiceError
              ("Failed to process user message: "
               ++ "[<class 'decimal.InvalidOperation'>]")%string),
     with_messages fresh_conversation
                   [mkMessage USER "Anything cheap?" 1000 ∅]).
Proof.
  destruct (@process_user_message_appends
              settings parsing_prompts catalog fresh_conversation persona
              "Anything cheap?" (world_of provider_nan)) as [_ H].
  rewrite (H InvalidOperation); [reflexivity | reflexivity | reflexivity |].
  vm_compute. reflexivity.
Defined.

End TurnProps.

(** ** The sort is stable *)

Module StabilityProps.

Lemma insert_desc_keeps_ties {A} (k : Z) (x : A * Z) (l : list (A * Z)) :
  List.filter (fun y => y.2 =? k) (insert_desc x l)
  = List.filter (fun y => y.2 =? k) (x :: l).
Proof.
  induction l as [| y t IH]; [reflexivity |].
  cbn [insert_desc].
  destruct (Z.ltb_spec x.2 y.2) as [Hlt | Hge]; [| reflexivity].
  cbn [List.filter] in *. rewrite IH.
  destruct (Z.eqb_spec x.2 k), (Z.eqb_spec y.2 k); try reflexivity. lia.
Qed.

(** Entries with the same key leave [sort_desc] in the order they entered
    it: ties are broken by catalog order. *)
Lemma sort_desc_stable {A} (k : Z) (l : list (A * Z)) :
  List.filter (fun y => y.2 =? k) (sort_desc l)
  = List.filter (fun y => y.2 =? k) l.
Proof.
  induction l as [| x t IH]; [reflexivity |].
  cbn [sort_desc]. rewrite insert_desc_keeps_ties.
  cbn [List.filter]. rewrite IH. reflexivity.
Qed.

End StabilityProps.

(** ** The model on the sample data *)

Module Examples.

Example context_window_of_four :
  map content (get_context_window busy_conversation 4)
  = ["Hello, how can I help?"; "I need headphones"; "Here are two options"].
Proof. reflexivity. Qed.

Example context_window_of_none :
  get_context_window busy_conversation 0 = [] /\
  get_context_window busy_conversation (-2) = [].
Proof. split; reflexivity. Qed.

Example context_window_of_all :
  map role (get_context_window busy_conversation 50)
  = [USER; ASSISTANT; USER; ASSISTANT].
Proof. reflexivity. Qed.

Example stock_zero_is_out :
  ProductStockSchema_init PRE_ORDER 0 5 = Ok (mkStock OUT_OF_STOCK 0 5).
Proof. reflexivity. Qed.

Example stock_discontinued_kept :
  ProductStockSchema_init DISCONTINUED 2 5 = Ok (mkStock DISCONTINUED 2 5).
Proof. reflexivity. Qed.

Example recommendations_ranked :
  map product_id (get_recommendations_for_user catalog persona 2)
  = ["P001"; "P002"].
Proof. reflexivity. Qed.

Example recommendations_negative_limit :
  map product_id (get_recommendations_for_user catalog persona (-1))
  = ["P001"; "P002"].
Proof. reflexivity. Qed.

Example similar_to_headphones :
  map product_id (get_similar_products catalog headphones 3) = ["P002"].
Proof. reflexivity. Qed.

Example stage_of_objection :
  _determine_conversation_stage (mkIntent "objection" [] None [])
  = "objection_handling" /\
  _determine_conversation_stage unknown_intent = "discovery".
Proof. split; vm_compute; reflexivity. Qed.

Example no_attempt_allowed :
  (@_call_openai_api_with_retry no_retry_settings [("user", "Hello")]
                                (world_of provider_third_time)).1
  = Raise (LLMServiceError "Failed after 0 attempts. Last error: None").
Proof. vm_compute. reflexivity. Qed.

Example turn_succeeds :
  let run := @process_user_message settings prompts catalog fresh_conversation
                                   persona "Hello"
                                   (world_of (fun _ => Completion [Some "Welcome!"]))
  in
  run.1.1 = Ok "Welcome!" /\
  map role (messages run.1.2) = [USER; ASSISTANT].
Proof. vm_compute. split; reflexivity. Qed.

End Examples.

(** ** Catalog queries (product/repository.py, product/service.py) *)

Module CatalogProps.

Import CatalogQueries.

Lemma filter_twice {A} (f g : A -> bool) (l : list A) :
  List.filter g (List.filter f l) = List.filter (fun x => f x && g x) l.
Proof.
  induction l as [| x l IH]; simpl; [reflexivity |].
  destruct (f x); simpl; [destruct (g x) |]; rewrite ?IH; reflexivity.
Qed.

Lemma filter_true {A} (l : list A) : List.filter (fun _ => true) l = l.
Proof. induction l as [| x l IH]; simpl; [| rewrite IH]; reflexivity. Qed.

Lemma filter_keeps_order {A} (f : A -> bool) (l : list A) :
  sublist (List.filter f l) l.
Proof.
  induction l as [| x l IH]; simpl; [constructor |].
  destruct (f x); constructor; exact IH.
Qed.

(** One optional filtering step of [search_products]. *)
Lemma optional_filter {A B} (o : option B) (test : B -> A -> bool)
      (f : A -> bool) (l : list A) :
  match o with
  | Some b => List.filter (test b) (List.filter f l)
  | None => List.filter f l
  end
  = List.filter (fun x => f x && match o with
                                 | Some b => test b x
                                 | None => true
                                 end) l.
Proof.
  destruct o as [b |].
  - apply filter_twice.
  - apply List.filter_ext. intros x. rewrite andb_true_r. reflexivity.
Qed.

(** [search_products] selects exactly the catalog products that meet every
    criterion given (an empty string counts as not given), in catalog
    order. *)
Theorem search_products_selects
        (repo : Repository) (category subcategory brand : option string)
        (min_price max_price : option Z) (price_tier : option PriceTier)
        (tag : option string) (available_only : bool) :
  let found := search_products repo category subcategory brand min_price
                               max_price price_tier tag available_only in
  let wanted := search_criteria category subcategory brand min_price max_price
                                price_tier tag available_only in
  found = List.filter wanted repo /\
  sublist found repo /\
  (forall p, p ∈ found <-> p ∈ repo /\ wanted p = true).
Proof.
  intros found wanted.
  assert (Heq : found = List.filter wanted repo).
  { subst found wanted. unfold search_products, search_criteria.
    assert (H0 : (if available_only then List.filter is_available repo else repo)
                 = List.filter (fun p => negb available_only || is_available p)
                               repo).
    { destruct available_only; simpl; [reflexivity |].
      symmetry. apply filter_true. }
    rewrite H0.
    rewrite (optional_filter (given category)
                             (fun c p => matches_category p c)).
    rewrite (optional_filter (given subcategory)
                             (fun s p => matches_subcategory p s)).
    rewrite (optional_filter (given brand) (fun b p => matches_brand p b)).
    match goal with
    | |- context [match min_price with
                  | Some _ => List.filter ?m (List.filter ?f repo)
                  | None => _ end] =>
        assert (H1 : match min_price, max_price with
                     | None, None => List.filter f repo
                     | _, _ => List.filter m (List.filter f repo)
                     end
                     = List.filter (fun p => f p && m p) repo)
    end.
    { destruct min_price, max_price; try apply filter_twice.
      apply List.filter_ext. intros p. unfold matches_price_range.
      rewrite andb_true_r. reflexivity. }
    cbv beta in H1.
    destruct min_price as [lo |], max_price as [hi |];
      cbv iota in H1 |- *; rewrite H1; clear H1;
      rewrite (optional_filter price_tier (fun t p => matches_price_tier p t));
      rewrite (optional_filter (given tag) (fun t p => has_tag p t));
      reflexivity. }
  split; [exact Heq |]. split.
  - rewrite Heq. apply filter_keeps_order.
  - intros p. rewrite Heq, !list_elem_of_In, filter_In. reflexivity.
Qed.

(** [get_product_by_id] returns the first catalog product with the id, and
    [None] exactly when no product has it. *)
Theorem get_product_by_id_first (repo : Repository) (id : string) :
  (forall p, get_product_by_id repo id = Some p ->
             product_id p = id /\
             exists before after,
               repo = before ++ p :: after /\
               forall q, q ∈ before -> product_id q <> id) /\
  (get_product_by_id repo id = None <->
   forall q, q ∈ repo -> product_id q <> id).
Proof.
  induction repo as [| x rest [IHsome IHnone]]; simpl.
  - split; [intros p H; discriminate |].
    split; [intros _ q Hq; inversion Hq | reflexivity].
  - destruct (String.eqb_spec (product_id x) id) as [E | N].
    + split.
      * intros p H. injection H as <-. split; [exact E |].
        exists [], rest. split; [reflexivity |]. intros q Hq. inversion Hq.
      * split; [intros H; discriminate |].
        intros H. exfalso. apply (H x); [apply list_elem_of_here | exact E].
    + split.
      * intros p H. destruct (IHsome p H) as (Hid & before & after & -> & Hb).
        split; [exact Hid |]. exists (x :: before), after.
        split; [reflexivity |]. intros q Hq.
        apply elem_of_cons in Hq as [-> | Hq]; auto.
      * rewrite IHnone. split.
        -- intros H q Hq. apply elem_of_cons in Hq as [-> | Hq]; auto.
        -- intros H q Hq. apply H. apply list_elem_of_further, Hq.
Qed.

Lemma cut_prefix (limit : option Z) (l : list Product) :
  exists n, cut limit l = take n l.
Proof.
  unfold cut. destruct limit as [k |].
  - destruct (k =? 0); [| apply slice_to_take].
    exists (length l). rewrite firstn_all. reflexivity.
  - exists (length l). rewrite firstn_all. reflexivity.
Qed.

Lemma cut_positive (k : Z) (l : list Product) :
  0 < k -> cut (Some k) l = take (Z.to_nat k) l.
Proof.
  intros Hk. unfold cut. destruct (Z.eqb_spec k 0); [lia |].
  apply slice_to_nonneg. lia.
Qed.

(** [get_featured_products] and [get_products_on_sale] return available
    featured (discounted) products only, in catalog order: all of them
    without a limit or with limit 0, the first [limit] of them with a
    positive limit. *)
Theorem featured_and_sale_listings (repo : Repository) (limit : option Z) :
  let featured := List.filter (fun p => is_featured p && is_available p) repo in
  let on_sale :=
    List.filter (fun p => ProductModel.is_on_sale p && is_available p) repo in
  (limit = None \/ limit = Some 0 ->
   get_featured_products repo limit = featured /\
   get_products_on_sale repo limit = on_sale) /\
  (forall k, limit = Some k -> 0 < k ->
             get_featured_products repo limit = take (Z.to_nat k) featured /\
             get_products_on_sale repo limit = take (Z.to_nat k) on_sale) /\
  sublist (get_featured_products repo limit) repo /\
  sublist (get_products_on_sale repo limit) repo /\
  (forall p, p ∈ get_featured_products repo limit ->
             is_featured p = true /\ is_available p = true) /\
  (forall p, p ∈ get_products_on_sale repo limit ->
             0 < ProductModel.discount_percentage p /\ is_available p = true).
Proof.
  intros featured on_sale.
  unfold get_featured_products, get_products_on_sale.
  rewrite !filter_twice. fold featured. fold on_sale.
  destruct (cut_prefix limit featured) as [n1 H1].
  destruct (cut_prefix limit on_sale) as [n2 H2].
  split; [| split; [| split; [| split; [| split]]]].
  - intros [-> | ->]; split; reflexivity.
  - intros k -> Hk. rewrite !cut_positive by exact Hk. split; reflexivity.
  - rewrite H1. etransitivity; [apply sublist_take | apply filter_keeps_order].
  - rewrite H2. etransitivity; [apply sublist_take | apply filter_keeps_order].
  - intros p Hp. rewrite H1 in Hp.
    apply (elem_of_sublist _ featured) in Hp; [| apply sublist_take].
    apply list_elem_of_In, filter_In in Hp as [_ Hp].
    apply andb_true_iff in Hp. exact Hp.
  - intros p Hp. rewrite H2 in Hp.
    apply (elem_of_sublist _ on_sale) in Hp; [| apply sublist_take].
    apply list_elem_of_In, filter_In in Hp as [_ Hp].
    apply andb_true_iff in Hp as [Hs Ha]. split; [| exact Ha].
    unfold ProductModel.is_on_sale in Hs. apply Z.ltb_lt. exact Hs.
Qed.

Lemma featured_and_sale_listings_witness :
  get_featured_products catalog (Some 1) = [laptop] /\
  get_products_on_sale catalog (Some 0) = [headphones].
Proof.
  destruct (featured_and_sale_listings catalog (Some 1)) as (_ & Hpos & _).
  destruct (featured_and_sale_listings catalog (Some 0)) as (Hzero & _).
  destruct (Hpos 1 eq_refl) as [-> _]; [lia |].
  destruct Hzero as [_ ->]; [right; reflexivity |].
  split; reflexivity.
Defined.

(** [get_all_categories] lists every category of the catalog once, in
    ascending order. *)
Theorem get_all_categories_sorted (repo : Repository) :
  StronglySorted String.le (get_all_categories repo) /\
  NoDup (get_all_categories repo) /\
  (forall c, c ∈ get_all_categories repo <->
             exists p, p ∈ repo /\ category p = c) /\
  StronglySorted String.le (get_all_brands repo) /\
  NoDup (get_all_brands repo) /\
  (forall b, b ∈ get_all_brands repo <-> exists p, p ∈ repo /\ brand p = b).
Proof.
  unfold get_all_categories, get_all_brands.
  repeat split.
  - apply StronglySorted_merge_sort; apply _.
  - rewrite merge_sort_Permutation. apply NoDup_elements.
  - rewrite merge_sort_Permutation. intros H.
    apply elem_of_elements, elem_of_list_to_set in H.
    change (map ?f ?l) with (f <$> l) in H.
    apply list_elem_of_fmap in H as (p & -> & Hp). eauto.
  - rewrite merge_sort_Permutation. intros (p & Hp & <-).
    apply elem_of_elements, elem_of_list_to_set.
    change (map ?f ?l) with (f <$> l).
    apply list_elem_of_fmap. eauto.
  - apply StronglySorted_merge_sort; apply _.
  - rewrite merge_sort_Permutation. apply NoDup_elements.
  - rewrite merge_sort_Permutation. intros H.
    apply elem_of_elements, elem_of_list_to_set in H.
    change (map ?f ?l) with (f <$> l) in H.
    apply list_elem_of_fmap in H as (p & -> & Hp). eauto.
  - rewrite merge_sort_Permutation. intros (p & Hp & <-).
    apply elem_of_elements, elem_of_list_to_set.
    change (map ?f ?l) with (f <$> l).
    apply list_elem_of_fmap. eauto.
Qed.

Lemma get_product_by_id_found (repo : Repository) (id : string) (p : Product) :
  get_product_by_id repo id = Some p -> product_id p = id /\ p ∈ repo.
Proof.
  induction repo as [| x rest IH]; simpl; [discriminate |].
  destruct (String.eqb_spec (product_id x) id) as [E | N].
  - intros H. injection H as <-. split; [exact E | apply list_elem_of_here].
  - intros H. destruct (IH H) as [H1 H2].
    split; [exact H1 | apply list_elem_of_further, H2].
Qed.

Lemma search_products_selects_witness :
  search_products catalog (Some "audio") None None None (Some 21000) None
                  (Some "WIRELESS") true
  = [headphones].
Proof.
  destruct (search_products_selects catalog (Some "audio") None None None
                                    (Some 21000) None (Some "WIRELESS") true)
    as (-> & _). reflexivity.
Defined.

Lemma get_product_by_id_first_witness :
  get_product_by_id catalog "P404" = None /\
  get_product_by_id catalog "P001" = Some headphones.
Proof.
  destruct (get_product_by_id_first catalog "P404") as [_ Hnone].
  split; [| reflexivity]. apply Hnone. intros q Hq. unfold catalog in Hq.
  repeat (apply elem_of_cons in Hq as [-> | Hq]; [discriminate |]).
  inversion Hq.
Defined.

End CatalogProps.

(** ** Ranking (product/service.py) *)

Module RankingProps.

Import RecommendationProps.

Lemma slice_to_length {A} (k : Z) (l : list A) :
  (0 <= k -> length (slice_to k l) = Nat.min (Z.to_nat k) (length l)) /\
  (k < 0 -> length (slice_to k l) = (length l - Z.to_nat (- k))%nat).
Proof.
  unfold slice_to. split; intros Hk.
  - destruct (Z.leb_spec 0 k); [| lia]. apply length_take.
  - destruct (Z.leb_spec 0 k); [lia |]. rewrite length_take. lia.
Qed.

Lemma slice_to_all {A} (k : Z) (l : list A) :
  Z.of_nat (length l) <= k -> slice_to k l = l.
Proof.
  intros Hk. rewrite slice_to_nonneg by lia. apply take_ge. lia.
Qed.

Lemma scored_products_length (repo : Repository) (u : User) :
  length (scored_products repo u) = length (get_available_products repo).
Proof.
  unfold scored_products.
  rewrite (Permutation_length (sort_desc_perm _)). apply length_map.
Qed.

Lemma scored_products_keys (repo : Repository) (u : User) :
  Forall (fun x => x.2 = _calculate_product_score_for_user x.1 u)
         (scored_products repo u).
Proof.
  apply Forall_forall. intros [p s] Hx. simpl.
  apply scored_products_elem in Hx. tauto.
Qed.

(** The recommendations come in non-increasing score order; a limit that is
    not negative keeps the first [limit] of the available products' ranking
    (all of it when there are fewer), a negative limit drops that many
    from its end. *)
Theorem recommendations_ranked_and_cut
        (repo : Repository) (u : User) (limit : Z) :
  let result := get_recommendations_for_user repo u limit in
  let available := get_available_products repo in
  (forall i j p q, (i < j)%nat -> result !! i = Some p -> result !! j = Some q ->
                   _calculate_product_score_for_user q u
                   <= _calculate_product_score_for_user p u) /\
  (0 <= limit ->
   length result = Nat.min (Z.to_nat limit) (length available)) /\
  (limit < 0 ->
   length result = (length available - Z.to_nat (- limit))%nat) /\
  (Z.of_nat (length available) <= limit -> result ≡ₚ available).
Proof.
  intros result available. subst result available.
  split; [| split; [| split]].
  - intros i j p q Hij Hp Hq.
    apply recommendation_lookup in Hp as [_ Hp].
    apply recommendation_lookup in Hq as [_ Hq].
    apply (sorted_lookup_ge _ i j _ _ (scored_products_sorted repo u) Hij Hp Hq).
  - intros Hk. unfold get_recommendations_for_user.
    rewrite length_map, (proj1 (slice_to_length limit _) Hk).
    rewrite scored_products_length. reflexivity.
  - intros Hk. unfold get_recommendations_for_user.
    rewrite length_map, (proj2 (slice_to_length limit _) Hk).
    rewrite scored_products_length. reflexivity.
  - intros Hk. unfold get_recommendations_for_user.
    rewrite slice_to_all by (rewrite scored_products_length; exact Hk).
    unfold scored_products.
    change (map fst ?l) with (fst <$> l).
    rewrite sort_desc_perm.
    change (fst <$> ?l) with (map fst l).
    rewrite map_map. simpl. rewrite map_id. reflexivity.
Qed.

Lemma recommendations_ranked_and_cut_witness :
  length (get_recommendations_for_user catalog persona 2) = 2%nat /\
  length (get_recommendations_for_user catalog persona (-1)) = 2%nat /\
  get_recommendations_for_user catalog persona 3
  ≡ₚ get_available_products catalog.
Proof.
  destruct (recommendations_ranked_and_cut catalog persona 2)
    as (_ & Hpos & _).
  destruct (recommendations_ranked_and_cut catalog persona (-1))
    as (_ & _ & Hneg & _).
  destruct (recommendations_ranked_and_cut catalog persona 3)
    as (_ & _ & _ & Hall).
  split; [rewrite Hpos by lia; reflexivity |].
  split; [rewrite Hneg by lia; reflexivity |].
  apply Hall. simpl. lia.
Defined.

Lemma filter_take_prefix {A} (f : A -> bool) (n : nat) (l : list A) :
  exists m, List.filter f (take n l) = take m (List.filter f l).
Proof.
  revert n. induction l as [| x l IH]; intros n.
  - exists 0%nat. rewrite take_nil. reflexivity.
  - destruct n as [| n]; [exists 0%nat; reflexivity |].
    simpl. destruct (IH n) as [m Hm]. destruct (f x).
    + exists (S m). simpl. rewrite Hm. reflexivity.
    + exists m. exact Hm.
Qed.

Lemma filter_map_fst_keys {A} (score : A -> Z) (k : Z) (l : list (A * Z)) :
  Forall (fun x => x.2 = score x.1) l ->
  List.filter (fun p => score p =? k) (map fst l)
  = map fst (List.filter (fun x => x.2 =? k) l).
Proof.
  induction 1 as [| [p s] l Hx Hl IH]; simpl; [reflexivity |].
  simpl in Hx. subst s. destruct (score p =? k); simpl; rewrite IH; reflexivity.
Qed.

(** Ties are broken by catalog order: among the recommended products with
    one and the same score, the order is that of the catalog, and they are
    the first of the available products with that score. *)
Theorem recommendations_ties_in_catalog_order
        (repo : Repository) (u : User) (limit score : Z) :
  let tied l :=
    List.filter (fun p => _calculate_product_score_for_user p u =? score) l in
  exists m,
    tied (get_recommendations_for_user repo u limit)
    = take m (tied (get_available_products repo)).
Proof.
  intros tied. subst tied. unfold get_recommendations_for_user.
  destruct (slice_to_take limit (scored_products repo u)) as [n ->].
  change (map fst ?l) with (fst <$> l). rewrite fmap_take.
  change (fst <$> ?l) with (map fst l).
  destruct (filter_take_prefix
              (fun p => _calculate_product_score_for_user p u =? score) n
              (map fst (scored_products repo u))) as [m Hm].
  exists m. rewrite Hm. f_equal.
  rewrite (filter_map_fst_keys
             (fun p => _calculate_product_score_for_user p u) score
             _ (scored_products_keys repo u)).
  unfold scored_products. rewrite StabilityProps.sort_desc_stable.
  induction (get_available_products repo) as [| p l IH]; simpl;
    [reflexivity |].
  destruct (_calculate_product_score_for_user p u =? score); simpl;
    rewrite IH; reflexivity.
Qed.

Lemma similar_candidates_keys (product : Product) (ps : list Product) :
  Forall (fun x => x.2 = _calculate_similarity_score product x.1)
         (similar_candidates product ps).
Proof.
  apply Forall_forall. intros [p s] Hx. simpl.
  eapply SimilarityProps.similar_candidates_score. exact Hx.
Qed.

(** The similar products come in non-increasing similarity order, never
    hold a product with the id of the product itself, and number at most
    [limit] when the limit is not negative. *)
Theorem similar_products_ranked
        (repo : Repository) (product : Product) (limit : Z) :
  let result := get_similar_products repo product limit in
  (forall i j p q, (i < j)%nat -> result !! i = Some p -> result !! j = Some q ->
                   _calculate_similarity_score product q
                   <= _calculate_similarity_score product p) /\
  (forall p, p ∈ result -> product_id p <> product_id product) /\
  (0 <= limit -> Z.of_nat (length result) <= limit).
Proof.
  intros result. subst result. unfold get_similar_products.
  set (cands := similar_candidates product (get_available_products repo)).
  assert (Hkeys : Forall (fun x => x.2 = _calculate_similarity_score product x.1)
                         (sort_desc cands)).
  { rewrite sort_desc_perm. apply similar_candidates_keys. }
  destruct (slice_to_take limit (sort_desc cands)) as [n Hn].
  split; [| split].
  - intros i j p q Hij Hp Hq. rewrite Hn in Hp, Hq.
    change (map fst ?l) with (fst <$> l) in *.
    apply list_lookup_fmap_Some in Hp as ([p' sp] & Ep & Hp).
    apply list_lookup_fmap_Some in Hq as ([q' sq] & Eq & Hq).
    simpl in Ep, Eq. subst p' q'.
    apply lookup_take_Some in Hp as [Hp _].
    apply lookup_take_Some in Hq as [Hq _].
    pose proof (sorted_lookup_ge _ i j _ _ (sort_desc_sorted cands) Hij Hp Hq)
      as Hle.
    rewrite Forall_forall in Hkeys.
    assert (Hsp : (p, sp) ∈ sort_desc cands)
      by (apply list_elem_of_lookup; eauto).
    assert (Hsq : (q, sq) ∈ sort_desc cands)
      by (apply list_elem_of_lookup; eauto).
    apply Hkeys in Hsp. apply Hkeys in Hsq. simpl in *. lia.
  - intros p Hp. rewrite Hn in Hp.
    change (map fst ?l) with (fst <$> l) in Hp.
    apply list_elem_of_fmap in Hp as ([p' s] & -> & Hx). simpl.
    apply (elem_of_sublist _ (sort_desc cands)) in Hx; [| apply sublist_take].
    rewrite sort_desc_perm in Hx. subst cands.
    clear Hkeys Hn.
    induction (get_available_products repo) as [| x l IH]; simpl in Hx.
    + inversion Hx.
    + destruct (String.eqb_spec (product_id x) (product_id product)) as [E | N];
        [auto |].
      destruct (matches_category x (category product)); [| auto].
      apply elem_of_cons in Hx as [Hx | Hx]; [| auto].
      injection Hx as -> _. exact N.
  - intros Hk. rewrite length_map, (proj1 (slice_to_length limit _) Hk). lia.
Qed.

Lemma similar_products_ranked_witness :
  Z.of_nat (length (get_similar_products catalog headphones 3)) <= 3 /\
  product_id headphones_sport <> product_id headphones.
Proof.
  destruct (similar_products_ranked catalog headphones 3) as (_ & Hself & Hlen).
  split; [apply Hlen; lia |].
  apply Hself. change (headphones_sport ∈ [headphones_sport]).
  apply list_elem_of_here.
Defined.

End RankingProps.

(** ** Price, stock and preference records (schema.py) *)

Module SchemaProps.

Import SchemaRecords.

(** A price record is constructed exactly when both prices are positive,
    the price does not exceed the original price, the currency has three
    characters and the discount is between 0 and 100; the construction
    raises [ValueError] otherwise, and a constructed record has savings
    from 0 up to less than the original price. *)
Theorem price_schema_checked (p o : Z) (cur : string) (d : Z) :
  let valid := 0 < p /\ 0 < o /\ p <= o /\ String.length cur = 3%nat /\
               0 <= d <= 100 in
  (valid -> ProductPriceSchema_init p o cur d = Ok (mkPrice p o cur d)) /\
  (~ valid -> exists m, ProductPriceSchema_init p o cur d = Raise (ValueError m)) /\
  (forall s, ProductPriceSchema_init p o cur d = Ok s ->
             valid /\ s = mkPrice p o cur d /\
             0 <= savings s < SchemaRecords.original_price s /\
             (is_on_sale s = true <-> 0 < SchemaRecords.discount_percentage s)).
Proof.
  intros valid. subst valid. unfold ProductPriceSchema_init.
  destruct (Z.leb_spec p 0) as [Hp | Hp].
  { split; [intros; lia |]. split; [intros _; eauto | intros s H; discriminate]. }
  destruct (Z.leb_spec o 0) as [Ho | Ho].
  { split; [intros; lia |]. split; [intros _; eauto | intros s H; discriminate]. }
  destruct (Z.ltb_spec o p) as [Hpo | Hpo].
  { split; [intros; lia |]. split; [intros _; eauto | intros s H; discriminate]. }
  assert (Hcur : is_empty cur || negb (String.length cur =? 3)%nat = true
                 <-> String.length cur <> 3%nat).
  { destruct cur as [| c cur'].
    - simpl. split; [intros _ E; discriminate | auto].
    - cbn [is_empty orb]. rewrite negb_true_iff, Nat.eqb_neq. reflexivity. }
  destruct (is_empty cur || negb (String.length cur =? 3)%nat) eqn:Ecur.
  { assert (String.length cur <> 3%nat) by (apply Hcur; reflexivity).
    split; [intros (_ & _ & _ & E & _); contradiction |].
    split; [intros _; eauto | intros s H'; discriminate]. }
  assert (Hlen : String.length cur = 3%nat).
  { destruct (Nat.eq_dec (String.length cur) 3%nat) as [E | N]; [exact E |].
    apply Hcur in N. discriminate. }
  destruct (Z.leb_spec 0 d) as [Hd0 | Hd0]; simpl.
  - destruct (Z.leb_spec d 100) as [Hd1 | Hd1]; simpl.
    + split; [reflexivity |]. split; [intros N; exfalso; apply N; lia |].
      intros s H. injection H as <-. unfold savings, is_on_sale. simpl.
      repeat split; try lia; apply Z.ltb_lt.
    + split; [intros; lia |].
      split; [intros _; eauto | intros s H; discriminate].
  - split; [intros; lia |].
    split; [intros _; eauto | intros s H; discriminate].
Qed.

Lemma price_schema_checked_witness :
  ProductPriceSchema_init 20000 25000 "USD" 20 = Ok (mkPrice 20000 25000 "USD" 20) /\
  (exists m, ProductPriceSchema_init 30000 25000 "USD" 0 = Raise (ValueError m)).
Proof.
  destruct (price_schema_checked 20000 25000 "USD" 20) as (Hok & _).
  destruct (price_schema_checked 30000 25000 "USD" 0) as (_ & Hbad & _).
  split; [apply Hok; simpl; lia | apply Hbad; lia].
Defined.

(** A constructed stock record that is available has a positive quantity,
    and one that is available and due for reorder is [LOW_STOCK]; a record
    with quantity 0 is never available, whatever status it was given. *)
Theorem stock_availability (st : StockStatus) (q r : Z) (s : ProductStockSchema) :
  ProductStockSchema_init st q r = Ok s ->
  (stock_is_available s = true -> 0 < quantity s) /\
  (stock_is_available s = true -> needs_reorder s = true ->
   ProductModel.status s = LOW_STOCK) /\
  (quantity s = 0 -> stock_is_available s = false) /\
  (ProductModel.status s <> st ->
   ProductModel.status s = OUT_OF_STOCK \/ ProductModel.status s = LOW_STOCK).
Proof.
  unfold ProductStockSchema_init, stock_is_available, needs_reorder.
  destruct (Z.ltb_spec q 0); [discriminate |].
  destruct (Z.ltb_spec r 0); [discriminate |].
  intros Hinit.
  assert (Hcases :
            quantity s = q /\ reorder_level s = r /\
            ((q = 0 /\ ProductModel.status s = OUT_OF_STOCK) \/
             (0 < q <= r /\ st = IN_STOCK /\ ProductModel.status s = LOW_STOCK) \/
             (0 < q /\ ~ (q <= r /\ st = IN_STOCK) /\
              ProductModel.status s = st))).
  { destruct (Z.eqb_spec q 0), (Z.ltb_spec 0 q), (Z.leb_spec q r);
      simpl in Hinit; try lia;
      destruct st; simpl in Hinit; injection Hinit as <-; simpl;
      repeat split; auto;
      try (right; left; repeat split; auto; lia);
      right; right; repeat split; auto; intros [? ?]; try lia; discriminate. }
  destruct Hcases as (Hq & Hr & Hst). rewrite Hq, Hr.
  destruct Hst as [[-> ->] | [(Hrange & -> & ->) | (Hpos & Hnot & ->)]].
  - repeat split; intros; try discriminate; auto; congruence.
  - repeat split; intros; try lia; auto.
  - repeat split; intros; try lia; try congruence.
    destruct st; try discriminate; try reflexivity.
    exfalso. apply Hnot. split; [apply Z.leb_le; assumption | reflexivity].
Qed.

Lemma stock_availability_witness :
  ProductModel.status (mkStock LOW_STOCK 3 5) = LOW_STOCK /\
  stock_is_available (mkStock OUT_OF_STOCK 0 5) = false.
Proof.
  destruct (stock_availability IN_STOCK 3 5 (mkStock LOW_STOCK 3 5) eq_refl)
    as (_ & Hlow & _).
  destruct (stock_availability IN_STOCK 0 5 (mkStock OUT_OF_STOCK 0 5) eq_refl)
    as (_ & _ & Hzero & _).
  split; [apply Hlow; reflexivity | apply Hzero; reflexivity].
Defined.

(** A preferences record is constructed only from a non-empty category
    list and a budget dict that has both ['min'] and ['max'], neither
    negative and in order; on a constructed record the budget lookups
    never miss, the sweet spot falls back to the maximum, and the minimum
    itself lies in the budget range. *)
Theorem preferences_budget_checked
        (cats feats : list string) (budget : gmap string Z)
        (breakers : list string) (s : ProductPreferencesSchema) :
  ProductPreferencesSchema_init cats feats budget breakers = Ok s ->
  cats <> [] /\
  exists lo hi,
    prefs_budget_min s = Some lo /\ prefs_budget_max s = Some hi /\
    0 <= lo <= hi /\
    (budget !! "sweet_spot" = None -> prefs_budget_sweet_spot s = Some hi) /\
    (forall v, budget !! "sweet_spot" = Some v ->
               prefs_budget_sweet_spot s = Some v).
Proof.
  unfold ProductPreferencesSchema_init.
  destruct cats as [| c cats]; simpl; [discriminate |].
  destruct (budget !! "min") as [lo |] eqn:Elo; [| discriminate].
  destruct (budget !! "max") as [hi |] eqn:Ehi; [| discriminate].
  destruct (Z.ltb_spec lo 0); simpl; [discriminate |].
  destruct (Z.ltb_spec hi 0); simpl; [discriminate |].
  destruct (Z.ltb_spec hi lo); [discriminate |].
  intros H'. injection H' as <-.
  split; [discriminate |]. exists lo, hi.
  unfold prefs_budget_min, prefs_budget_max, prefs_budget_sweet_spot. simpl.
  rewrite Elo, Ehi.
  repeat split; try lia.
  - intros ->. reflexivity.
  - intros v ->. reflexivity.
Qed.

Lemma preferences_budget_checked_witness :
  SchemaRecords.prefs_budget_sweet_spot
    (SchemaRecords.mkPreferences
       ["audio"] [] (<["min" := 10000]> (<["max" := 50000]> ∅)) [])
  = Some 50000.
Proof.
  assert (Hinit : SchemaRecords.ProductPreferencesSchema_init
                    ["audio"] []
                    (<["min" := 10000]> (<["max" := 50000]> ∅)) []
                  = Ok (SchemaRecords.mkPreferences
                          ["audio"] []
                          (<["min" := 10000]> (<["max" := 50000]> ∅)) []))
    by (vm_compute; reflexivity).
  destruct (preferences_budget_checked _ _ _ _ _ Hinit)
    as (_ & lo & hi & _ & Hmax & _ & Hdefault & _).
  rewrite Hdefault; [| vm_compute; reflexivity].
  rewrite <- Hmax. vm_compute. reflexivity.
Defined.

End SchemaProps.

(** ** Conversation queries (conversation.py, llm/service.py) *)

Module WindowProps.

Import ConversationQueries.

Lemma last_messages_after_append (c : Conversation) (m : MessageSchema) (n : Z) :
  1 <= n ->
  get_last_n_messages (with_messages c (messages c ++ [m])) n
  = get_last_n_messages c (n - 1) ++ [m].
Proof.
  intros Hn. unfold get_last_n_messages, slice_last. simpl.
  destruct (Z.leb_spec n 0); [lia |].
  rewrite length_app. simpl.
  destruct (Z.leb_spec (n - 1) 0) as [H1 | H1].
  - replace (length (messages c) + 1 - Z.to_nat n)%nat
      with (length (messages c)) by lia.
    rewrite drop_app_length. reflexivity.
  - replace (length (messages c) + 1 - Z.to_nat n)%nat
      with (length (messages c) - Z.to_nat (n - 1))%nat by lia.
    rewrite drop_app_le by lia. reflexivity.
Qed.

(** Appending a message shifts the context window by one: the window of
    size [n >= 1] of the longer conversation is the window of size [n - 1]
    of the shorter one followed by the new message, unless that is a system
    message, which takes a slot of the window without being shown. *)
Theorem context_window_after_append
        (c : Conversation) (m : MessageSchema) (n : Z) :
  1 <= n ->
  get_context_window (with_messages c (messages c ++ [m])) n
  = get_context_window c (n - 1)
      ++ (if is_system_message m then [] else [m]).
Proof.
  intros Hn. unfold get_context_window.
  rewrite (last_messages_after_append c m n Hn), List.filter_app. simpl.
  destruct (is_system_message m); reflexivity.
Qed.

Lemma context_window_after_append_witness :
  map content
      (get_context_window
         (with_messages busy_conversation
                        (messages busy_conversation
                           ++ [mkMessage USER "Which is cheaper?" 1005 ∅])) 3)
  = ["I need headphones"; "Here are two options"; "Which is cheaper?"].
Proof.
  rewrite (context_window_after_append busy_conversation) by lia.
  reflexivity.
Defined.

Section Payload.

Context {cfg : Settings}.

(** The payload of a generation request starts with the system prompt and
    holds no other system entry: the conversation's own system messages
    are never sent; after it come at most [context_window_messages]
    entries, and once the user's message has been added to an active
    conversation and the window is at least 1, that message is the last
    entry. *)
Theorem payload_shape (prompt : string) (c : Conversation) :
  let payload := _prepare_messages prompt c in
  head payload = Some ("system", prompt) /\
  (forall entry, entry ∈ tail payload ->
                 entry.1 = "user" \/ entry.1 = "assistant") /\
  Z.of_nat (length (tail payload)) <= Z.max 0 context_window_messages /\
  (forall text now m c',
      add_user_message c text None now = Ok (m, c') ->
      1 <= context_window_messages ->
      last (_prepare_messages prompt c') = Some ("user", text)).
Proof.
  intros payload. subst payload. unfold _prepare_messages. simpl.
  split; [reflexivity |]. split; [| split].
  - intros entry H. unfold get_messages_for_llm in H.
    change (map ?f ?l) with (f <$> l) in H.
    apply list_elem_of_fmap in H as (m & -> & Hm).
    unfold get_context_window in Hm.
    apply list_elem_of_In, filter_In in Hm as [_ Hm].
    unfold to_openai_format, is_system_message in *. simpl.
    destruct (role m); simpl in *; auto. discriminate.
  - unfold get_messages_for_llm. rewrite length_map.
    unfold get_context_window, get_last_n_messages.
    etransitivity;
      [apply Nat2Z.inj_le, ConversationProps.filter_length_le |].
    destruct (Z.leb_spec context_window_messages 0); simpl; [lia |].
    unfold slice_last. rewrite length_drop. lia.
  - intros text now m c' Hadd Hwin.
    unfold add_user_message, create_user_message, MessageSchema_init in Hadd.
    destruct (is_blank text); [discriminate |]. simpl in Hadd.
    unfold add_message in Hadd.
    destruct (negb (is_active c)); [discriminate |].
    simpl in Hadd. injection Hadd as <- <-.
    unfold get_messages_for_llm.
    unfold get_context_window.
    rewrite (last_messages_after_append c _ _ Hwin), List.filter_app. simpl.
    rewrite map_app. simpl.
    rewrite app_comm_cons. apply last_snoc.
Qed.

End Payload.

Lemma payload_shape_witness :
  last (@_prepare_messages settings "You are a sales assistant"
          (with_messages fresh_conversation [mkMessage USER "Hello" 1000 ∅]))
  = Some ("user", "Hello").
Proof.
  destruct (@payload_shape settings "You are a sales assistant"
                           fresh_conversation) as (_ & _ & _ & Hlast).
  apply (Hlast "Hello" 1000 (mkMessage USER "Hello" 1000 ∅)).
  - reflexivity.
  - simpl. lia.
Defined.

(** Along every run with a clock that only moves forward: the start
    timestamp is not in the future; a conversation has an end timestamp
    exactly when it is no longer active; the end timestamp lies between
    the start and the current reading, so the duration, absent while the
    conversation is active, is never negative. *)
Theorem lifecycle_timestamps (t : Z) (c : Conversation) :
  lifecycle t c ->
  started_at c <= t /\
  (ended_at c = None <-> is_active c = true) /\
  (forall e, ended_at c = Some e -> started_at c <= e <= t) /\
  (is_active c = true -> get_duration_seconds c = None) /\
  (forall d, get_duration_seconds c = Some d -> (0 <= d)%Q).
Proof.
  intros Hl.
  assert (Hinv : started_at c <= t /\
                 (ended_at c = None <-> is_active c = true) /\
                 (forall e, ended_at c = Some e -> started_at c <= e <= t)).
  { induction Hl as [cid pid md t c Hnew | t t' c Hl (IH1 & IH2 & IH3) Ht
                    | t c m c' Hl (IH1 & IH2 & IH3) Hadd
                    | t c c' Hl (IH1 & IH2 & IH3) Hend
                    | t c c' Hl (IH1 & IH2 & IH3) Hend].
    - unfold create_new in Hnew.
      destruct (is_blank cid); [discriminate |].
      destruct (is_blank pid); [discriminate |].
      injection Hnew as <-. simpl.
      split; [lia |]. split; [tauto | intros e He; discriminate].
    - split; [lia |]. split; [exact IH2 |].
      intros e He. specialize (IH3 e He). lia.
    - unfold add_message in Hadd.
      destruct (is_active c) eqn:Hact; [| discriminate].
      simpl in Hadd. injection Hadd as <-. simpl.
      split; [exact IH1 |]. split; [| exact IH3].
      unfold is_active in *. simpl. rewrite Hact. exact IH2.
    - unfold complete_conversation in Hend.
      destruct (is_active c); [| discriminate].
      simpl in Hend. injection Hend as <-. simpl.
      split; [exact IH1 |]. split.
      + unfold is_active. simpl. split; intros; discriminate.
      + intros e He. injection He as <-. lia.
    - unfold ConversationModel.abandon_conversation in Hend.
      destruct (is_active c); [| discriminate].
      simpl in Hend. injection Hend as <-. simpl.
      split; [exact IH1 |]. split.
      + unfold is_active. simpl. split; intros; discriminate.
      + intros e He. injection He as <-. lia. }
  destruct Hinv as (H1 & H2 & H3).
  split; [exact H1 |]. split; [exact H2 |]. split; [exact H3 |].
  unfold get_duration_seconds. split.
  - intros Hact. apply H2 in Hact. rewrite Hact. reflexivity.
  - intros d Hd. destruct (ended_at c) as [e |] eqn:He; [| discriminate].
    injection Hd as <-. specialize (H3 e eq_refl).
    unfold Qle. simpl. lia.
Qed.

Lemma lifecycle_timestamps_witness :
  get_duration_seconds closed_conversation = Some (1000 # 1000) /\
  started_at closed_conversation <= 2000.
Proof.
  assert (Hl : lifecycle 2000 closed_conversation).
  { apply (lifecycle_complete 2000 fresh_conversation); [| reflexivity].
    apply (lifecycle_wait 1000); [| lia].
    apply (lifecycle_create "CONV-0001" "U001" None). reflexivity. }
  destruct (lifecycle_timestamps 2000 closed_conversation Hl) as (Hs & _).
  split; [reflexivity | exact Hs].
Defined.

End WindowProps.

(** ** Texts: [lower] and [strip] *)

Module TextProps.

Import TextShape.

#[local] Arguments String.append !_ _ / : simpl nomatch.

Lemma lower_ascii_idem (c : ascii) : lower_ascii (lower_ascii c) = lower_ascii c.
Proof.
  destruct c as [[] [] [] [] [] [] [] []]; reflexivity.
Qed.

Lemma lower_idem (s : string) : lower (lower s) = lower s.
Proof.
  induction s as [| c s IH]; simpl; [reflexivity |].
  rewrite lower_ascii_idem, IH. reflexivity.
Qed.

Lemma string_app_assoc (a b c : string) :
  ((a ++ b) ++ c)%string = (a ++ (b ++ c))%string.
Proof. induction a as [| x a IH]; simpl; [| rewrite IH]; reflexivity. Qed.

Lemma string_rev_onto_app (s acc : string) :
  string_rev_onto s acc = (string_rev s ++ acc)%string.
Proof.
  unfold string_rev. revert acc.
  induction s as [| c s IH]; intros acc; simpl; [reflexivity |].
  rewrite IH, (IH (String c EmptyString)).
  rewrite string_app_assoc. reflexivity.
Qed.

Lemma string_app_empty_r (s : string) : (s ++ "")%string = s.
Proof. induction s as [| c s IH]; simpl; [| rewrite IH]; reflexivity. Qed.

Lemma string_rev_cons (c : ascii) (s : string) :
  string_rev (String c s) = (string_rev s ++ String c "")%string.
Proof. unfold string_rev at 1. simpl. apply string_rev_onto_app. Qed.

Lemma string_rev_app (a b : string) :
  string_rev (a ++ b) = (string_rev b ++ string_rev a)%string.
Proof.
  induction a as [| c a IH]; simpl.
  - rewrite string_app_empty_r. reflexivity.
  - rewrite !string_rev_cons, IH, string_app_assoc. reflexivity.
Qed.

Lemma string_rev_involutive (s : string) : string_rev (string_rev s) = s.
Proof.
  induction s as [| c s IH]; [reflexivity |].
  rewrite string_rev_cons, string_rev_app, IH. reflexivity.
Qed.

Lemma all_space_app (a b : string) :
  all_space (a ++ b) = all_space a && all_space b.
Proof.
  induction a as [| c a IH]; simpl; [reflexivity |].
  rewrite IH, andb_assoc. reflexivity.
Qed.

Lemma all_space_rev (s : string) : all_space (string_rev s) = all_space s.
Proof.
  induction s as [| c s IH]; [reflexivity |].
  rewrite string_rev_cons, all_space_app, IH. simpl.
  rewrite andb_true_r, andb_comm. reflexivity.
Qed.

(** [lstrip] removes a run of blanks from the front and nothing else. *)
Lemma lstrip_split (s : string) :
  exists blanks, s = (blanks ++ lstrip s)%string /\ all_space blanks = true.
Proof.
  induction s as [| c s (b & Hb & Hsp)]; simpl.
  - exists EmptyString. auto.
  - destruct (is_space c) eqn:Ec.
    + exists (String c b). simpl. rewrite <- Hb, Ec, Hsp. auto.
    + exists EmptyString. auto.
Qed.

Lemma lstrip_starts_clean (s : string) : starts_clean (lstrip s) = true.
Proof.
  induction s as [| c s IH]; simpl; [reflexivity |].
  destruct (is_space c) eqn:Ec; [exact IH |]. simpl. rewrite Ec. reflexivity.
Qed.

Lemma lstrip_clean (s : string) : starts_clean s = true -> lstrip s = s.
Proof.
  destruct s as [| c s]; simpl; [reflexivity |].
  intros H. apply negb_true_iff in H. rewrite H. reflexivity.
Qed.

Lemma lstrip_empty (s : string) : is_empty (lstrip s) = all_space s.
Proof.
  induction s as [| c s IH]; simpl; [reflexivity |].
  destruct (is_space c); simpl; [exact IH | reflexivity].
Qed.

Lemma all_space_lstrip (s : string) : all_space (lstrip s) = all_space s.
Proof.
  induction s as [| c s IH]; simpl; [reflexivity |].
  destruct (is_space c) eqn:Ec; simpl; [exact IH |]. rewrite Ec. reflexivity.
Qed.

Lemma is_empty_rev (s : string) : is_empty (string_rev s) = is_empty s.
Proof.
  destruct s as [| c s]; [reflexivity |].
  rewrite string_rev_cons. destruct (string_rev s); reflexivity.
Qed.

Lemma all_space_empty (s : string) : is_empty s = true -> all_space s = true.
Proof. destruct s; [reflexivity | discriminate]. Qed.

(** A text is blank exactly when all its characters are blanks. *)
Lemma is_blank_all_space (s : string) : is_blank s = all_space s.
Proof.
  unfold is_blank, strip.
  rewrite is_empty_rev, lstrip_empty, all_space_rev, all_space_lstrip.
  destruct s; reflexivity.
Qed.

Lemma all_space_strip (s : string) : all_space (strip s) = all_space s.
Proof.
  unfold strip.
  rewrite all_space_rev, all_space_lstrip, all_space_rev, all_space_lstrip.
  reflexivity.
Qed.

Lemma starts_clean_app (a b : string) :
  starts_clean (a ++ b) = true -> is_empty a = false -> starts_clean a = true.
Proof. destruct a; simpl; [discriminate | auto]. Qed.

(** The result of [strip] starts and ends with a character that is not a
    blank, so stripping it again changes nothing. *)
Lemma strip_clean (s : string) :
  starts_clean (strip s) = true /\
  starts_clean (string_rev (strip s)) = true.
Proof.
  unfold strip.
  set (a := lstrip s). set (b := lstrip (string_rev a)).
  rewrite string_rev_involutive.
  split; [| apply lstrip_starts_clean].
  destruct (lstrip_split (string_rev a)) as (blanks & Hsplit & Hblanks).
  fold b in Hsplit.
  assert (Ha : a = (string_rev b ++ string_rev blanks)%string).
  { rewrite <- (string_rev_involutive a), Hsplit, string_rev_app.
    reflexivity. }
  destruct (is_empty (string_rev b)) eqn:Eb.
  - destruct (string_rev b); [reflexivity | discriminate].
  - apply (starts_clean_app _ (string_rev blanks)); [| exact Eb].
    rewrite <- Ha. apply lstrip_starts_clean.
Qed.

Lemma strip_idem (s : string) : strip (strip s) = strip s.
Proof.
  destruct (strip_clean s) as [H1 H2].
  unfold strip at 1.
  rewrite (lstrip_clean _ H1), (lstrip_clean _ H2).
  apply string_rev_involutive.
Qed.

Lemma has_char_app (c : ascii) (a b : string) :
  has_char c (a ++ b) = has_char c a || has_char c b.
Proof.
  induction a as [| x a IH]; simpl; [reflexivity |].
  rewrite IH, orb_assoc. reflexivity.
Qed.

Lemma has_char_rev (c : ascii) (s : string) :
  has_char c (string_rev s) = has_char c s.
Proof.
  induction s as [| x s IH]; [reflexivity |].
  rewrite string_rev_cons, has_char_app, IH. simpl.
  rewrite orb_false_r, orb_comm. reflexivity.
Qed.

Lemma has_char_lstrip (c : ascii) (s : string) :
  has_char c s = false -> has_char c (lstrip s) = false.
Proof.
  destruct (lstrip_split s) as (b & Hb & _). intros H.
  rewrite Hb, has_char_app in H. apply orb_false_iff in H. tauto.
Qed.

Lemma has_char_strip (c : ascii) (s : string) :
  has_char c s = false -> has_char c (strip s) = false.
Proof.
  intros H. unfold strip. rewrite has_char_rev.
  apply has_char_lstrip. rewrite has_char_rev.
  apply has_char_lstrip, H.
Qed.

End TextProps.

(** ** Parsing the classifier's reply (llm/service.py) *)

Module ParsingProps.

Import TextShape TextProps IntentParsing.

Lemma cut_at_none (c : ascii) (s : string) :
  has_char c s = false -> cut_at c s = None.
Proof.
  induction s as [| x s IH]; simpl; [reflexivity |].
  intros H. apply orb_false_iff in H as [Hx Hs].
  rewrite Hx, (IH Hs). reflexivity.
Qed.

Lemma split_on_no_char (c sep : ascii) (s : string) :
  has_char c s = false ->
  Forall (fun line => has_char c line = false) (split_on sep s).
Proof.
  induction s as [| x s IH]; simpl; intros H.
  - repeat constructor.
  - apply orb_false_iff in H as [Hx Hs]. specialize (IH Hs).
    destruct (Ascii.eqb x sep).
    + constructor; [reflexivity | exact IH].
    + destruct (split_on sep s) as [| h r].
      * repeat constructor. simpl. rewrite Hx. reflexivity.
      * inversion IH as [| ? ? Hh Hr]; subst.
        constructor; [simpl; rewrite Hx, Hh; reflexivity | exact Hr].
Qed.

Section Parser.

Context {fr : FloatReader}.

Lemma parse_lines_without_colon (lines : list string) (r : IntentAnalysis) :
  Forall (fun line => has_char colon line = false) lines ->
  fold_left parse_line lines r = r.
Proof.
  intros H. revert r. induction H as [| line lines Hl _ IH]; intros r; simpl.
  - reflexivity.
  - unfold parse_line at 2. rewrite (cut_at_none _ _ Hl). apply IH.
Qed.

(** A reply without any colon parses to the unknown intent: no categories,
    no budget, no requirements. *)
Theorem reply_without_colon_is_unknown (response : string) :
  has_char colon response = false ->
  _parse_intent_analysis response = unknown_intent.
Proof.
  intros H. unfold _parse_intent_analysis.
  apply parse_lines_without_colon, split_on_no_char, has_char_strip, H.
Qed.

Lemma stripped_entries (value : string) :
  Forall (fun c => strip c = c) (map strip (split_on comma value)).
Proof.
  apply Forall_forall. intros c Hc.
  change (map ?f ?l) with (f <$> l) in Hc.
  apply list_elem_of_fmap in Hc as (x & -> & _). apply strip_idem.
Qed.

Lemma parse_line_normalised (r : IntentAnalysis) (line : string) :
  normalised r -> normalised (parse_line r line).
Proof.
  intros (Hi & Hc & Hr). unfold parse_line.
  destruct (cut_at colon line) as [[key value] |]; [| repeat split; auto].
  destruct (String.eqb (lower (strip key)) "intent").
  { repeat split; auto. simpl. apply lower_idem. }
  destruct (String.eqb (lower (strip key)) "categories"
            && negb (String.eqb (lower (strip value)) "none")).
  { repeat split; auto. simpl. apply stripped_entries. }
  destruct (String.eqb (lower (strip key)) "budget"
            && negb (String.eqb (lower (strip value)) "not mentioned")).
  { destruct (python_float _); repeat split; auto. }
  destruct (String.eqb (lower (strip key)) "requirements"
            && negb (String.eqb (lower (strip value)) "none"));
    repeat split; auto.
  simpl. apply stripped_entries.
Qed.

(** Whatever the reply, the parsed intent is in lower case, so that the
    stage table is matched whatever the capitals of the reply, and the
    categories and requirements carry no blanks around them. *)
Theorem parsed_reply_normalised (response : string) :
  lower (intent (_parse_intent_analysis response))
  = intent (_parse_intent_analysis response) /\
  Forall (fun c => strip c = c)
         (intent_categories (_parse_intent_analysis response)) /\
  Forall (fun c => strip c = c)
         (intent_requirements (_parse_intent_analysis response)).
Proof.
  unfold _parse_intent_analysis.
  assert (H : forall lines r, normalised r ->
                              normalised (fold_left parse_line lines r)).
  { induction lines as [| l lines IH]; intros r Hr; simpl; [exact Hr |].
    apply IH, parse_line_normalised, Hr. }
  apply H. repeat split; constructor.
Qed.

End Parser.

Lemma reply_without_colon_is_unknown_witness :
  @_parse_intent_analysis MoreSamples.no_number
                          "I am not sure what the customer wants"
  = unknown_intent.
Proof.
  apply (@reply_without_colon_is_unknown MoreSamples.no_number). reflexivity.
Defined.

End ParsingProps.

(** ** Input validation (input_validator.py) *)

Module ValidatorProps.

Import TextShape TextProps InputValidator.

Lemma is_empty_all_space (s : string) : InputValidator.is_empty s = all_space s.
Proof. apply is_blank_all_space. Qed.

Lemma strip_not_empty (s : string) :
  InputValidator.is_empty s = false ->
  InputValidator.is_empty (strip s) = false /\ Py.is_empty (strip s) = false.
Proof.
  intros H. rewrite is_empty_all_space in *.
  rewrite all_space_strip. split; [exact H |].
  destruct (strip s) eqn:E; [| reflexivity].
  rewrite <- (all_space_strip s), E in H. discriminate.
Qed.

(** [validate_non_empty] raises on a blank value and otherwise returns the
    value without the blanks around it: a text that is not empty, that
    validates to itself, and that [sanitize_input] yields too. *)
Theorem validate_non_empty_clean (value field_name : string) :
  (InputValidator.is_empty value = true ->
   validate_non_empty value field_name
   = Raise (ValueError (field_name ++ " cannot be empty")%string) /\
   sanitize_input value = EmptyString) /\
  (forall s, validate_non_empty value field_name = Ok s ->
             s = strip value /\ Py.is_empty s = false /\
             validate_non_empty s field_name = Ok s /\
             sanitize_input value = s /\ sanitize_input s = s).
Proof.
  unfold validate_non_empty, sanitize_input.
  destruct (InputValidator.is_empty value) eqn:E.
  - split; [auto | intros s H; discriminate].
  - split; [intros H; discriminate |].
    intros s H. injection H as <-.
    destruct (strip_not_empty value E) as [H1 H2].
    rewrite H1, strip_idem. auto.
Qed.

Lemma validate_non_empty_clean_witness :
  validate_non_empty "  Ada  " "Name" = Ok "Ada" /\
  validate_non_empty "Ada" "Name" = Ok "Ada".
Proof.
  destruct (validate_non_empty_clean "  Ada  " "Name") as [_ H].
  destruct (H "Ada" eq_refl) as (_ & _ & Hagain & _).
  split; [reflexivity | exact Hagain].
Defined.

(** [validate_length] returns the stripped value exactly when it is not
    blank and its stripped length lies between the two bounds, and raises
    [ValueError] otherwise; a returned value has at least one character
    even for a minimum of 0. *)
Theorem validate_length_bounds
        (value : string) (min_length max_length : Z) (field_name : string) :
  let len := Z.of_nat (String.length (strip value)) in
  (forall s, validate_length value min_length max_length field_name = Ok s <->
             s = strip value /\ InputValidator.is_empty value = false /\
             min_length <= len <= max_length) /\
  (forall s, validate_length value min_length max_length field_name = Ok s ->
             1 <= Z.of_nat (String.length s)) /\
  (forall e, validate_length value min_length max_length field_name = Raise e ->
             exists m, e = ValueError m).
Proof.
  intros len. subst len.
  unfold validate_length, validate_non_empty.
  destruct (InputValidator.is_empty value) eqn:E.
  { split; [| split].
    - intros s. split; [intros H; discriminate | intros (_ & H & _); discriminate].
    - intros s H. discriminate.
    - intros e H. injection H as <-. eauto. }
  destruct (strip_not_empty value E) as [H1 H2].
  unfold is_valid_length. rewrite H1, strip_idem.
  destruct (Z.ltb_spec (Z.of_nat (String.length (strip value))) min_length)
    as [Hlo | Hlo]; simpl.
  { split; [| split].
    - intros s. split; [intros H; discriminate | intros (_ & _ & H); lia].
    - intros s H. discriminate.
    - intros e H. injection H as <-. eauto. }
  destruct (Z.ltb_spec max_length (Z.of_nat (String.length (strip value))))
    as [Hhi | Hhi]; simpl.
  { split; [| split].
    - intros s. split; [intros H; discriminate | intros (_ & _ & H); lia].
    - intros s H. discriminate.
    - intros e H. injection H as <-. eauto. }
  split; [| split].
  - intros s. split.
    + intros H. injection H as <-. auto.
    + intros (-> & _ & _). reflexivity.
  - intros s H. injection H as <-.
    destruct (strip value); [discriminate | simpl; lia].
  - intros e H. discriminate.
Qed.

Lemma validate_length_bounds_witness :
  validate_length " Ada " 2 10 "Name" = Ok "Ada".
Proof.
  destruct (validate_length_bounds " Ada " 2 10 "Name") as [Hiff _].
  apply Hiff. split; [reflexivity |]. split; [reflexivity |]. simpl. lia.
Defined.

End ValidatorProps.

(** ** Stage and product selection (conversation/service.py) *)

Module SelectionProps.

Import RecommendationProps CategoryProps RankingProps.

Lemma stage_of_listed (i s : string) :
  (i, s) ∈ [("browsing", "discovery");
            ("asking_question", "discovery");
            ("requesting_recommendation", "recommendation");
            ("comparing_products", "comparison");
            ("ready_to_buy", "closing");
            ("objection", "objection_handling")] ->
  stage_mapping !! i = Some s.
Proof.
  intros H. unfold stage_mapping. apply elem_of_list_to_map_1; [| exact H].
  apply (bool_decide_unpack _). vm_compute. reflexivity.
Qed.

Ltac in_list :=
  repeat first [apply list_elem_of_here | apply list_elem_of_further].

(** The stage is one of the five stage names; an intent outside the six
    listed ones, like the fallback [unknown], gives [discovery], and each
    of the other four stages is reached from exactly one intent. *)
Theorem stage_mapping_total (ia : IntentAnalysis) :
  let stage := _determine_conversation_stage ia in
  stage ∈ ["discovery"; "recommendation"; "comparison"; "closing";
           "objection_handling"] /\
  (intent ia ∉ ["browsing"; "asking_question"; "requesting_recommendation";
                "comparing_products"; "ready_to_buy"; "objection"] ->
   stage = "discovery") /\
  (stage = "recommendation" <-> intent ia = "requesting_recommendation") /\
  (stage = "comparison" <-> intent ia = "comparing_products") /\
  (stage = "closing" <-> intent ia = "ready_to_buy") /\
  (stage = "objection_handling" <-> intent ia = "objection").
Proof.
  intros stage. subst stage. unfold _determine_conversation_stage.
  destruct (stage_mapping !! intent ia) as [s |] eqn:E.
  - unfold stage_mapping in E. apply elem_of_list_to_map_2 in E.
    repeat (apply elem_of_cons in E as [E | E];
            [injection E as Hi Hs; rewrite Hi, Hs; simpl;
             split; [in_list |];
             split; [intros N; exfalso; apply N; in_list |];
             repeat split; intros; congruence |]).
    inversion E.
  - simpl. split; [in_list |]. split; [reflexivity |].
    assert (N : forall i s,
               (i, s) ∈ [("browsing", "discovery");
                         ("asking_question", "discovery");
                         ("requesting_recommendation", "recommendation");
                         ("comparing_products", "comparison");
                         ("ready_to_buy", "closing");
                         ("objection", "objection_handling")] ->
               intent ia <> i).
    { intros i s H Hi. rewrite Hi, (stage_of_listed i s H) in E.
      discriminate. }
    repeat split; intros H; try discriminate; exfalso.
    + apply (N "requesting_recommendation" "recommendation");
        [in_list | exact H].
    + apply (N "comparing_products" "comparison"); [in_list | exact H].
    + apply (N "ready_to_buy" "closing"); [in_list | exact H].
    + apply (N "objection" "objection_handling"); [in_list | exact H].
Qed.

Lemma stage_mapping_total_witness :
  _determine_conversation_stage (mkIntent "greeting" [] None []) = "discovery".
Proof.
  destruct (stage_mapping_total (mkIntent "greeting" [] None []))
    as (_ & Hother & _).
  apply Hother. simpl. intros H.
  repeat (apply elem_of_cons in H as [H | H]; [discriminate |]).
  inversion H.
Defined.

Section Selection.

Context {cfg : Settings}.







End Selection.


End SelectionProps.

(** ** Turns that fail outside the provider (conversation/service.py) *)

Module TurnEdgeProps.

Import TextShape TextProps.

Lemma strip_of_blanks (s : string) : all_space s = true -> strip s = EmptyString.
Proof.
  intros H. rewrite <- all_space_strip in H.
  destruct (strip_clean s) as [Hc _].
  destruct (strip s) as [| c t]; [reflexivity |].
  simpl in H, Hc. apply andb_true_iff in H as [H _].
  rewrite H in Hc. discriminate.
Qed.

Section Turn.

Context {cfg : Settings} {pb : Prompts}.

(** A turn with a blank text or on a conversation that is not active is
    refused before anything is sent to the provider: the error names the
    cause, and the conversation and the world are as before. *)
Theorem turn_refused_without_request
        (repo : Repository) (c : Conversation) (u : User) (text : string)
        (w : World) :
  (is_blank text = true ->
   process_user_message repo c u text w
   = (Raise (ConversationServiceError
               ("Failed to process user message: "
                ++ "Message content cannot be empty")%string), c, w)) /\
  (is_blank text = false -> is_active c = false ->
   process_user_message repo c u text w
   = (Raise (ConversationServiceError
               ("Failed to process user message: "
                ++ inactive_message)%string), c, w)).
Proof.
  unfold process_user_message, add_user_message, create_user_message,
    MessageSchema_init.
  split.
  - intros ->. reflexivity.
  - intros -> Hc. simpl. unfold add_message. rewrite Hc. reflexivity.
Qed.

(** A completion that consists of blanks only is answered by the provider
    call as the empty text, and a turn whose generated reply is blank
    fails with the empty-content error after the user message has been
    added: the provider answered, yet no assistant message is stored. *)
Theorem blank_completion_fails_turn
        (repo : Repository) (c : Conversation) (u : User) (text : string)
        (w : World) :
  (forall blanks rest,
      is_empty blanks = false -> all_space blanks = true ->
      reply_outcome (Completion (Some blanks :: rest)) = Ok EmptyString) /\
  (is_active c = true -> is_blank text = false ->
   let c1 := with_messages c (messages c ++ [mkMessage USER text (clock w) ∅]) in
   let ia := (analyze_user_intent text w).1 in
   let w1 := (analyze_user_intent text w).2 in
   forall shown reply w2,
     _get_relevant_products repo u ia = Ok shown ->
     generate_response c1 u shown (_determine_conversation_stage ia) w1
     = (Ok reply, w2) ->
     is_blank reply = true ->
     process_user_message repo c u text w
     = (Raise (ConversationServiceError
                 ("Failed to process user message: "
                  ++ "Message content cannot be empty")%string), c1, w2)).
Proof.
  split.
  - intros blanks rest Hne Hsp. simpl. rewrite Hne.
    rewrite (strip_of_blanks _ Hsp). reflexivity.
  - intros Hc Ht c1 ia w1 shown reply w2 Hshown Hgen Hblank.
    unfold process_user_message.
    rewrite (TurnProps.add_user_message_active c text (clock w) Hc Ht).
    fold c1. subst ia w1.
    destruct (analyze_user_intent text w) as [ia w1].
    simpl in Hgen, Hshown. rewrite Hshown, Hgen.
    unfold add_assistant_message, create_assistant_message, MessageSchema_init.
    rewrite Hblank. reflexivity.
Qed.

End Turn.

Lemma turn_refused_without_request_witness :
  @process_user_message settings prompts catalog closed_conversation persona
                        "Hello" (world_of provider_down)
  = (Raise (ConversationServiceError
              ("Failed to process user message: "
               ++ "Cannot add message to inactive conversation")%string),
     closed_conversation, world_of provider_down).
Proof.
  destruct (@turn_refused_without_request
              settings prompts catalog closed_conversation persona "Hello"
              (world_of provider_down)) as [_ H].
  apply H; reflexivity.
Defined.

Lemma blank_completion_fails_turn_witness :
  (@process_user_message settings prompts catalog fresh_conversation persona
                         "Hello"
                         (world_of (fun _ => Completion [Some "   "]))).1.1
  = Raise (ConversationServiceError
             ("Failed to process user message: "
              ++ "Message content cannot be empty")%string).
Proof.
  destruct (@blank_completion_fails_turn
              settings prompts catalog fresh_conversation persona "Hello"
              (world_of (fun _ => Completion [Some "   "]))) as [_ H].
  cbv zeta in H.
  erewrite (H eq_refl eq_refl _ EmptyString);
    [reflexivity | vm_compute; reflexivity | vm_compute; reflexivity
    | reflexivity].
Defined.

End TurnEdgeProps.

(** ** Outcome of the retry wrapper (llm/service.py) *)

Module RetryOutcomeProps.

Import RetryProps.

Lemma requests_after_pause messages w t :
  requests (time_sleep t (sent messages w)) = requests w ++ [messages] /\
  provider (time_sleep t (sent messages w)) = provider w /\
  slept (time_sleep t (sent messages w)) = slept w ++ [t].
Proof. repeat split. Qed.

Lemma loop_first_success max messages (k : nat) :
  forall (a n : nat) last w text,
    (k < n)%nat -> Z.of_nat (a + k) <= max ->
    (forall i, (i < k)%nat ->
               exists m, reply_outcome (provider w (length (requests w) + i))
                         = Raise (LLMServiceError m)) ->
    reply_outcome (provider w (length (requests w) + k)) = Ok text ->
    (retry_loop max messages (map Z.of_nat (seq a n)) last w).1 = Ok text /\
    requests (retry_loop max messages (map Z.of_nat (seq a n)) last w).2
    = requests w ++ repeat messages (S k) /\
    length (slept (retry_loop max messages (map Z.of_nat (seq a n)) last w).2)
    = (length (slept w) + k)%nat.
Proof.
  induction k as [| k IH]; intros a n last w text Hn Hmax Hfail Hok.
  - destruct n as [| n]; [lia |]. simpl seq. simpl map.
    rewrite Nat.add_0_r in Hok.
    rewrite (retry_step_ok _ _ _ _ _ _ _ Hok). unfold sent. simpl.
    repeat split. lia.
  - destruct n as [| n]; [lia |]. simpl seq. simpl map.
    destruct (Hfail 0%nat) as [m Hm]; [lia |].
    rewrite Nat.add_0_r in Hm.
    rewrite (retry_step_again _ _ _ _ _ _ _ Hm) by lia.
    set (w1 := time_sleep (wait_spec (Z.of_nat a) m) (sent messages w)).
    destruct (requests_after_pause messages w (wait_spec (Z.of_nat a) m))
      as (Hreq & Hprov & Hsl).
    fold w1 in Hreq, Hprov, Hsl.
    assert (Hidx : forall i, provider w1 (length (requests w1) + i)
                             = provider w (length (requests w) + S i)).
    { intros i. rewrite Hprov, Hreq, length_app. simpl. f_equal. lia. }
    destruct (IH (S a) n (Some m) w1 text) as (H1 & H2 & H3).
    + lia.
    + lia.
    + intros i Hi. rewrite Hidx. apply Hfail. lia.
    + rewrite Hidx. exact Hok.
    + split; [exact H1 |]. split.
      * rewrite H2, Hreq, <- app_assoc. reflexivity.
      * rewrite H3, Hsl, length_app. simpl. lia.
Qed.

Lemma loop_all_fail max messages (n : nat) :
  forall (a : nat) last w,
    Z.of_nat (a + n) = max ->
    (forall i, (i <= n)%nat ->
               exists m, reply_outcome (provider w (length (requests w) + i))
                         = Raise (LLMServiceError m)) ->
    exists m,
      reply_outcome (provider w (length (requests w) + n))
      = Raise (LLMServiceError m) /\
      (retry_loop max messages (map Z.of_nat (seq a (S n))) last w).1
      = Raise (LLMServiceError m).
Proof.
  induction n as [| n IH]; intros a last w Hmax Hfail.
  - destruct (Hfail 0%nat) as [m Hm]; [lia |]. exists m. split; [exact Hm |].
    rewrite Nat.add_0_r in Hm. simpl seq. simpl map.
    rewrite (retry_step_last _ _ _ _ _ _ _ Hm) by lia. reflexivity.
  - destruct (Hfail 0%nat) as [m Hm]; [lia |].
    rewrite Nat.add_0_r in Hm.
    change (seq a (S (S n))) with (a :: seq (S a) (S n)). simpl map.
    rewrite (retry_step_again _ _ _ _ _ _ _ Hm) by lia.
    set (w1 := time_sleep (wait_spec (Z.of_nat a) m) (sent messages w)).
    destruct (requests_after_pause messages w (wait_spec (Z.of_nat a) m))
      as (Hreq & Hprov & _).
    fold w1 in Hreq, Hprov.
    assert (Hidx : forall i, provider w1 (length (requests w1) + i)
                             = provider w (length (requests w) + S i)).
    { intros i. rewrite Hprov, Hreq, length_app. simpl. f_equal. lia. }
    destruct (IH (S a) (Some m) w1) as (m' & Hm' & Hrun).
    + lia.
    + intros i Hi. rewrite Hidx. apply Hfail. lia.
    + exists m'. rewrite Hidx in Hm'. split; [exact Hm' | exact Hrun].
Qed.

(** The retry wrapper returns the first answer among the provider's first
    [max_retries] replies, after one request per reply up to it and one
    pause per failure before it; when all of them fail it raises the last
    failure, and when [max_retries] is not positive it raises without
    sending anything. *)
Theorem retry_outcome {cfg : Settings} (messages : list (string * string))
        (w : World) :
  let run := _call_openai_api_with_retry messages w in
  let reply i := reply_outcome (provider w (length (requests w) + i)) in
  (forall k text,
      Z.of_nat k < max_retries ->
      (forall i, (i < k)%nat -> exists m, reply i = Raise (LLMServiceError m)) ->
      reply k = Ok text ->
      run.1 = Ok text /\
      requests run.2 = requests w ++ repeat messages (S k) /\
      length (slept run.2) = (length (slept w) + k)%nat) /\
  (1 <= max_retries ->
   (forall i, Z.of_nat i < max_retries ->
              exists m, reply i = Raise (LLMServiceError m)) ->
   exists m, reply (Z.to_nat (max_retries - 1)) = Raise (LLMServiceError m) /\
             run.1 = Raise (LLMServiceError m)) /\
  (max_retries <= 0 ->
   run = (Raise (LLMServiceError
                   ("Failed after " ++ pretty max_retries
                    ++ " attempts. Last error: None")%string), w)).
Proof.
  intros run reply. subst run reply.
  unfold _call_openai_api_with_retry, attempt_range.
  split; [| split].
  - intros k text Hk Hfail Hok.
    apply (loop_first_success max_retries messages k 1); auto; lia.
  - intros Hmax Hfail.
    replace (Z.to_nat max_retries) with (S (Z.to_nat (max_retries - 1)))
      by lia.
    apply (loop_all_fail max_retries messages (Z.to_nat (max_retries - 1)) 1).
    + lia.
    + intros i Hi. apply Hfail. lia.
  - intros Hmax. replace (Z.to_nat max_retries) with 0%nat by lia.
    reflexivity.
Qed.

Lemma retry_outcome_witness :
  (@_call_openai_api_with_retry settings [("user", "Hello")]
                                (world_of provider_third_time)).1
  = Ok "Hello!" /\
  (exists m,
      (@_call_openai_api_with_retry settings [("user", "Hello")]
                                    (world_of provider_down)).1
      = Raise (LLMServiceError m)) /\
  @_call_openai_api_with_retry no_retry_settings [("user", "Hello")]
                               (world_of provider_third_time)
  = (Raise (LLMServiceError "Failed after 0 attempts. Last error: None"),
     world_of provider_third_time).
Proof.
  destruct (@retry_outcome settings [("user", "Hello")]
                           (world_of provider_third_time)) as (Hfirst & _).
  destruct (@retry_outcome settings [("user", "Hello")]
                           (world_of provider_down)) as (_ & Hall & _).
  destruct (@retry_outcome no_retry_settings [("user", "Hello")]
                           (world_of provider_third_time)) as (_ & _ & Hnone).
  split; [| split].
  - apply (Hfirst 2%nat "Hello!"); [simpl; lia | | reflexivity].
    intros [| [| i]] Hi; [eexists; reflexivity | eexists; reflexivity | lia].
  - destruct Hall as (m & _ & Hm); [simpl; lia | | eauto].
    intros i _. eexists. reflexivity.
  - apply Hnone. simpl. lia.
Defined.

End RetryOutcomeProps.

(** ** Starting and ending conversations (conversation/service.py) *)

Module SessionProps.

Import TextShape TextProps ConversationQueries CatalogQueries Generators
       Sessions.

Lemma generated_id_not_blank (hex12 : string) :
  is_blank (_generate_conversation_id hex12) = false.
Proof.
  rewrite is_blank_all_space. unfold _generate_conversation_id, String.append.
  reflexivity.
Qed.

Lemma get_conversation_registered (objs : gmap nat Conversation)
      (reg : gmap string nat) (id : string) (a : nat) (c : Conversation) :
  get_conversation (mkService (<[a := c]> objs) (<[id := a]> reg)) id = Some c.
Proof.
  unfold get_conversation. simpl.
  rewrite lookup_insert_eq. apply lookup_insert_eq.
Qed.

Section Sessions.

Context {cfg : Settings} {sw : Switches} {lg : Logger} {mp : MorePrompts}.

Lemma create_new_opened (u : User) (hex12 : string) (now : Z) :
  is_blank (persona_id u) = false ->
  create_new (_generate_conversation_id hex12) (persona_id u)
             (Some {[ "user_name" := MStr (user_name u) ]}) now
  = Ok (opened u hex12 now).
Proof.
  intros Hp. unfold create_new.
  rewrite generated_id_not_blank, Hp. reflexivity.
Qed.

(** A conversation that starts is a new object, registered under its
    generated id and active; without greeting it has no message and
    nothing is sent to the provider, with greeting it has exactly one
    message, the assistant's greeting; objects and registrations that
    existed before stay as they were. *)
Theorem start_conversation_registers
        (s : Service) (u : User) (hex12 : string) (w : World) :
  is_blank (persona_id u) = false ->
  let id := _generate_conversation_id hex12 in
  let a := fresh (dom (objects s)) in
  let c0 := opened u hex12 (clock w) in
  objects s !! a = None /\
  (greeting_enabled = false ->
   exists s',
     start_conversation s u hex12 w = (Ok a, s', w) /\
     get_conversation s' id = Some c0 /\
     (forall b, b <> a -> objects s' !! b = objects s !! b) /\
     (forall id', id' <> id ->
                  _active_conversations s' !! id'
                  = _active_conversations s !! id')) /\
  (greeting_enabled = true ->
   forall greeting w1,
     generate_greeting u w = (Ok greeting, w1) ->
     is_blank greeting = false ->
     exists s',
       start_conversation s u hex12 w = (Ok a, s', w1) /\
       get_conversation s' id
       = Some (with_messages
                 c0 [mkMessage ASSISTANT greeting (clock w1) ∅]) /\
       (forall b, b <> a -> objects s' !! b = objects s !! b) /\
       (forall id', id' <> id ->
                    _active_conversations s' !! id'
                    = _active_conversations s !! id')).
Proof.
  intros Hp id a c0.
  assert (Hfresh : objects s !! a = None).
  { apply not_elem_of_dom. subst a. apply is_fresh. }
  split; [exact Hfresh |].
  unfold start_conversation. rewrite (create_new_opened u hex12 (clock w) Hp).
  fold id a c0. split.
  - intros ->. eexists. split; [reflexivity |].
    split; [apply get_conversation_registered |].
    split; [intros b Hb | intros id' Hid]; simpl;
      apply lookup_insert_ne; congruence.
  - intros -> greeting w1 Hg Hblank. rewrite Hg.
    unfold add_assistant_message, create_assistant_message, MessageSchema_init.
    rewrite Hblank. simpl. eexists. split; [reflexivity |].
    split; [| split; [intros b Hb | intros id' Hid]]; simpl.
    + unfold get_conversation. simpl.
      rewrite lookup_insert_eq. apply lookup_insert_eq.
    + rewrite !lookup_insert_ne by congruence. reflexivity.
    + apply lookup_insert_ne. congruence.
Qed.

(** When the greeting cannot be generated the start fails with a
    [ConversationServiceError] that carries the cause, yet the new
    conversation, without any message, stays registered under its id;
    a blank persona id fails the start before anything is registered. *)
Theorem start_failure_leaves_registration
        (s : Service) (u : User) (hex12 : string) (w : World) :
  let id := _generate_conversation_id hex12 in
  (is_blank (persona_id u) = false -> greeting_enabled = true ->
   forall cause w1,
     generate_greeting u w = (Raise cause, w1) ->
     exists s',
       start_conversation s u hex12 w
       = (Raise (ConversationServiceError
                   ("Failed to start conversation: " ++ str cause)%string),
          s', w1) /\
       get_conversation s' id = Some (opened u hex12 (clock w))) /\
  (is_blank (persona_id u) = true ->
   start_conversation s u hex12 w
   = (Raise (ConversationServiceError
               ("Failed to start conversation: "
                ++ "User persona ID is required")%string), s, w)).
Proof.
  intros id. split.
  - intros Hp Hg cause w1 Hfail. unfold start_conversation.
    rewrite (create_new_opened u hex12 (clock w) Hp), Hg, Hfail.
    eexists. split; [reflexivity | apply get_conversation_registered].
  - intros Hp. unfold start_conversation, create_new.
    rewrite generated_id_not_blank, Hp. reflexivity.
Qed.

(** Ending the conversation object at [a]: an object that is not active
    is refused and nothing changes; an active one is completed at the
    current clock reading and its id unregistered, other registrations
    untouched, with the log path stored when logging is on; when the logger
    fails the call raises although the object is already completed, and
    its registration stays. *)
Theorem end_conversation_outcomes
        (s : Service) (a : nat) (c : Conversation) (w : World) :
  objects s !! a = Some c ->
  let c1 := with_end c COMPLETED (clock w) in
  (is_active c = false ->
   end_conversation s a w
   = (Raise (ConversationServiceError
               ("Failed to end conversation: " ++ already_inactive)%string),
      s, w)) /\
  (is_active c = true ->
   exists r s',
     end_conversation s a w = (r, s', w) /\
     (forall b, b <> a -> objects s' !! b = objects s !! b) /\
     (forall id', id' <> conversation_id c ->
                  _active_conversations s' !! id'
                  = _active_conversations s !! id') /\
     match enable_logging, log_conversation c1 with
     | false, _ =>
         r = Ok tt /\ objects s' !! a = Some c1 /\
         get_conversation s' (conversation_id c) = None
     | true, Logged path =>
         r = Ok tt /\
         objects s' !! a = Some (set_metadata_value c1 "log_path" (MStr path)) /\
         get_conversation s' (conversation_id c) = None
     | true, LoggerError m =>
         r = Raise (ConversationServiceError
                      ("Failed to log conversation: " ++ m)%string) /\
         objects s' !! a = Some c1 /\
         _active_conversations s' = _active_conversations s
     end).
Proof.
  intros Ha c1. unfold end_conversation. rewrite Ha.
  unfold complete_conversation. split.
  - intros ->. reflexivity.
  - intros ->. simpl. fold c1.
    assert (Hgone : forall objs,
               get_conversation
                 (mkService objs (delete (conversation_id c)
                                         (_active_conversations s)))
                 (conversation_id c) = None).
    { intros objs. unfold get_conversation. simpl.
      rewrite lookup_delete_eq. reflexivity. }
    destruct enable_logging.
    + destruct (log_conversation c1) as [path | m].
      * eexists _, _. split; [reflexivity |]. simpl.
        split; [intros b Hb; rewrite !lookup_insert_ne by congruence;
                reflexivity |].
        split; [intros id' Hid; apply lookup_delete_ne; congruence |].
        split; [reflexivity |].
        split; [apply lookup_insert_eq | apply Hgone].
      * eexists _, _. split; [reflexivity |]. simpl.
        split; [intros b Hb; apply lookup_insert_ne; congruence |].
        split; [reflexivity |].
        split; [reflexivity |]. split; [apply lookup_insert_eq | reflexivity].
    + eexists _, _. split; [reflexivity |]. simpl.
      split; [intros b Hb; apply lookup_insert_ne; congruence |].
      split; [intros id' Hid; apply lookup_delete_ne; congruence |].
      split; [reflexivity |]. split; [apply lookup_insert_eq | apply Hgone].
Qed.

End Sessions.

Lemma start_conversation_registers_witness :
  get_conversation
    (@start_conversation settings MoreSamples.switches_on
                         MoreSamples.more_prompts MoreSamples.empty_service
                         MoreSamples.visitor "0123456789AB"
                         MoreSamples.world_up).1.2
    "CONV-0123456789AB"
  = Some (with_messages (opened MoreSamples.visitor "0123456789AB" 1000)
                        [mkMessage ASSISTANT "Welcome!" 1000 ∅]).
Proof.
  destruct (@start_conversation_registers
              settings MoreSamples.switches_on MoreSamples.more_prompts
              MoreSamples.empty_service MoreSamples.visitor "0123456789AB"
              MoreSamples.world_up eq_refl) as (_ & _ & Hgreet).
  destruct (Hgreet eq_refl "Welcome!"
                   (mkWorld 1000 MoreSamples.provider_up
                            [[("system", "Greet Ada"); ("user", "Hello")]] []))
    as (s' & Hrun & Hget & _); [reflexivity | reflexivity |].
  rewrite Hrun. exact Hget.
Defined.

Lemma start_failure_leaves_registration_witness :
  exists s',
    (@start_conversation settings MoreSamples.switches_on
                         MoreSamples.more_prompts MoreSamples.empty_service
                         MoreSamples.visitor "0123456789AB"
                         MoreSamples.world_down).1
    = (Raise (ConversationServiceError
                ("Failed to start conversation: "
                 ++ "Failed to generate greeting: "
                 ++ "API connection error: Connection error.")%string), s') /\
    get_conversation s' "CONV-0123456789AB"
    = Some (opened MoreSamples.visitor "0123456789AB" 1000).
Proof.
  destruct (@start_failure_leaves_registration
              settings MoreSamples.switches_on MoreSamples.more_prompts
              MoreSamples.empty_service MoreSamples.visitor "0123456789AB"
              MoreSamples.world_down) as [Hfail _].
  edestruct (Hfail eq_refl eq_refl
                   (LLMServiceError
                      ("Failed to generate greeting: "
                       ++ "API connection error: Connection error.")%string))
    as (s' & Hrun & Hget); [vm_compute; reflexivity |].
  exists s'. rewrite Hrun. split; [reflexivity | exact Hget].
Defined.

Lemma end_conversation_outcomes_witness :
  get_conversation
    (@end_conversation MoreSamples.switches_on MoreSamples.logger_ok
                       MoreSamples.one_session 0 MoreSamples.world_up).1.2
    "CONV-0001" = None /\
  (@end_conversation MoreSamples.switches_on MoreSamples.logger_broken
                     MoreSamples.one_session 0 MoreSamples.world_up).1.1
  = Raise (ConversationServiceError
             ("Failed to log conversation: "
              ++ "Failed to log conversation as text: disk full")%string).
Proof.
  destruct (@end_conversation_outcomes
              MoreSamples.switches_on MoreSamples.logger_ok
              MoreSamples.one_session 0
              (mkConversation "CONV-0001" "U001" [] ACTIVE 1000 None ∅)
              MoreSamples.world_up eq_refl) as [_ Hok].
  destruct (Hok eq_refl) as (r & s' & Hrun & _ & _ & Hcase).
  destruct (@end_conversation_outcomes
              MoreSamples.switches_on MoreSamples.logger_broken
              MoreSamples.one_session 0
              (mkConversation "CONV-0001" "U001" [] ACTIVE 1000 None ∅)
              MoreSamples.world_up eq_refl) as [_ Hbad].
  destruct (Hbad eq_refl) as (r2 & s2 & Hrun2 & _ & _ & Hcase2).
  simpl in Hcase, Hcase2.
  rewrite Hrun, Hrun2. simpl.
  destruct Hcase as (_ & _ & Hgone). destruct Hcase2 as (Hr & _).
  split; [exact Hgone | exact Hr].
Defined.

End SessionProps.

(** ** Recommending, comparing and finding similar products
    (conversation/service.py) *)

Module AssistantProps.

Import ConversationQueries CatalogQueries Generators Sessions Outcomes.

Lemma products_found_elem (repo : Repository) (ids : list string) (p : Product) :
  p ∈ products_found repo ids -> p ∈ repo /\ product_id p ∈ ids.
Proof.
  induction ids as [| id ids IH]; simpl; intros H; [inversion H |].
  destruct (get_product_by_id repo id) as [q |] eqn:E.
  - apply elem_of_cons in H as [-> | H].
    + destruct (CatalogProps.get_product_by_id_found repo id q E) as [Hid Hin].
      split; [exact Hin |]. rewrite Hid. apply list_elem_of_here.
    + destruct (IH H) as [H1 H2]. split; [exact H1 |].
      apply list_elem_of_further, H2.
  - destruct (IH H) as [H1 H2]. split; [exact H1 |].
    apply list_elem_of_further, H2.
Qed.

Lemma products_found_none (repo : Repository) (ids : list string) :
  products_found repo ids = [] <->
  forall id, id ∈ ids -> get_product_by_id repo id = None.
Proof.
  induction ids as [| id ids IH]; simpl.
  - split; [intros _ i Hi; inversion Hi | reflexivity].
  - destruct (get_product_by_id repo id) as [q |] eqn:E.
    + split; [intros H; discriminate |].
      intros H. specialize (H id (list_elem_of_here _ _)). congruence.
    + rewrite IH. split.
      * intros H i Hi. apply elem_of_cons in Hi as [-> | Hi]; auto.
      * intros H i Hi. apply H, list_elem_of_further, Hi.
Qed.

Section Operations.

Context {cfg : Settings} {mp : MorePrompts}.

(** The products compared are catalog products with requested ids; when
    none of the ids is known, [compare_products] fails; the service's
    [get_similar_products] fails on an unknown id and answers with a fixed
    sentence when the product has no similar ones; in all three cases
    nothing is sent to the provider and the conversation is as before. *)
Theorem operations_answered_without_request
        (repo : Repository) (c : Conversation) (u : User) (w : World) :
  (forall ids p, p ∈ products_found repo ids ->
                 p ∈ repo /\ product_id p ∈ ids) /\
  (forall ids,
      (forall id, id ∈ ids -> get_product_by_id repo id = None) ->
      compare_products repo c u ids w
      = (Raise (ConversationServiceError
                  ("Failed to compare products: "
                   ++ "No valid products found for comparison")%string),
         c, w)) /\
  (forall id,
      get_product_by_id repo id = None ->
      Sessions.get_similar_products repo c u id w
      = (Raise (ConversationServiceError
                  ("Failed to get similar products: "
                   ++ "Product not found: " ++ id)%string), c, w)) /\
  (forall id p,
      get_product_by_id repo id = Some p ->
      ProductService.get_similar_products repo p 3 = [] ->
      Sessions.get_similar_products repo c u id w
      = (Ok no_similar_products, c, w)).
Proof.
  split; [intros ids p; apply products_found_elem |].
  split; [| split].
  - intros ids H. apply products_found_none in H.
    unfold compare_products. rewrite H. reflexivity.
  - intros id H. unfold Sessions.get_similar_products. rewrite H. reflexivity.
  - intros id p H Hnone. unfold Sessions.get_similar_products.
    rewrite H, Hnone. reflexivity.
Qed.

Lemma record_reply (kind : exn -> exn) (c : Conversation)
      (gen : result string * World) (md : gmap string MetaValue) :
  (forall e, exists m, kind e = ConversationServiceError m) ->
  one_reply_appended
    c
    match gen with
    | (Raise e, w1) => (Raise (kind e), c, w1)
    | (Ok response, w1) =>
        match add_assistant_message c response (Some md) (clock w1) with
        | Raise e => (Raise (kind e), c, w1)
        | Ok (_, c') => (Ok response, c', w1)
        end
    end.
Proof.
  intros Hkind. unfold one_reply_appended.
  destruct gen as [[response | e] w1].
  - unfold add_assistant_message, create_assistant_message, MessageSchema_init.
    destruct (is_blank response); simpl.
    + destruct (Hkind (ValueError "Message content cannot be empty"))
        as [m ->]. reflexivity.
    + unfold add_message. destruct (is_active c); simpl.
      * eauto.
      * destruct (Hkind (ValueError inactive_message)) as [m ->]. reflexivity.
  - simpl. destruct (Hkind e) as [m ->]. reflexivity.
Qed.

(** Each of [get_product_recommendations], [compare_products] and the
    service's [get_similar_products] either appends exactly one assistant
    message, whose content is the text it returns, or fails with a
    [ConversationServiceError] and leaves the conversation as it was; the
    one success that stores nothing is the fixed answer of
    [get_similar_products] for a known product without similar ones. *)
Theorem operations_append_one_reply
        (repo : Repository) (c : Conversation) (u : User) (w : World)
        (limit : option Z) (ids : list string) (id : string) :
  let similar := Sessions.get_similar_products repo c u id w in
  one_reply_appended c (get_product_recommendations repo c u limit w) /\
  one_reply_appended c (compare_products repo c u ids w) /\
  (one_reply_appended c similar \/
   (exists p, get_product_by_id repo id = Some p /\
              ProductService.get_similar_products repo p 3 = []) /\
   similar = (Ok no_similar_products, c, w)) /\
  (forall p q qs,
      get_product_by_id repo id = Some p ->
      ProductService.get_similar_products repo p 3 = q :: qs ->
      one_reply_appended c similar).
Proof.
  intros similar. subst similar. split; [| split; [| split]].
  - unfold get_product_recommendations.
    apply (record_reply recommendations_failure). intros e. eexists.
    reflexivity.
  - unfold compare_products.
    destruct (products_found repo ids) as [| p ps] eqn:E.
    + unfold one_reply_appended. reflexivity.
    + apply (record_reply comparison_failure). intros e. eexists. reflexivity.
  - unfold Sessions.get_similar_products.
    destruct (get_product_by_id repo id) as [p |].
    + destruct (ProductService.get_similar_products repo p 3) as [| q qs] eqn:E.
      * right. split; [exists p; split; [reflexivity | exact E] | reflexivity].
      * left. apply (record_reply similar_failure). intros e. eexists.
        reflexivity.
    + left. unfold one_reply_appended. reflexivity.
  - intros p q qs Hp Hq. unfold Sessions.get_similar_products.
    rewrite Hp, Hq.
    apply (record_reply similar_failure). intros e. eexists. reflexivity.
Qed.

End Operations.

Lemma operations_append_one_reply_witness :
  map (fun m => (role m, content m))
      (messages
         (@Sessions.get_similar_products
            settings MoreSamples.more_prompts catalog fresh_conversation
            persona "P001" MoreSamples.world_up).1.2)
  = [(ASSISTANT, "Welcome!")].
Proof.
  destruct (@operations_append_one_reply
              settings MoreSamples.more_prompts catalog fresh_conversation
              persona MoreSamples.world_up None [] "P001")
    as (_ & _ & _ & H).
  specialize (H headphones headphones_sport [] eq_refl).
  unfold one_reply_appended in H.
  assert (E : (@Sessions.get_similar_products
                 settings MoreSamples.more_prompts catalog fresh_conversation
                 persona "P001" MoreSamples.world_up).1.1 = Ok "Welcome!")
    by (vm_compute; reflexivity).
  rewrite E in H. destruct H as [md Hmd]; [vm_compute; reflexivity |].
  rewrite Hmd. reflexivity.
Defined.

Lemma operations_answered_without_request_witness :
  @Sessions.get_similar_products settings MoreSamples.more_prompts catalog
                                 fresh_conversation persona "P003"
                                 MoreSamples.world_down
  = (Ok no_similar_products, fresh_conversation, MoreSamples.world_down) /\
  (@compare_products settings MoreSamples.more_prompts catalog
                     fresh_conversation persona ["P999"]
                     MoreSamples.world_down).1.1
  = Raise (ConversationServiceError
             ("Failed to compare products: "
              ++ "No valid products found for comparison")%string).
Proof.
  destruct (@operations_answered_without_request
              settings MoreSamples.more_prompts catalog fresh_conversation
              persona MoreSamples.world_down) as (_ & Hcmp & _ & Hsim).
  split.
  - apply (Hsim "P003" laptop); reflexivity.
  - rewrite (Hcmp ["P999"]); [reflexivity |].
    intros i Hi. apply list_elem_of_singleton in Hi. subst i. reflexivity.
Defined.

End AssistantProps.
